(** * Subprocess CLI transport of claude-code-sdk-go: model and properties

    A shallow embedding of [internal/transport]: the stdout reader with its
    JSON accumulator, the stderr collector, request sending, control
    requests, disconnect, the string prompt adapter and the constructor;
    further on, the command line, the CLI lookup and [Connect], and of
    package [claude] the message parsers and the client's calls.
    Functions of the Go standard library the transport calls ([strings],
    [bufio], [fmt], [encoding/json]) are modelled in the module [Go]; the JSON
    codec is an interface ([JSONCodec]) with one instance, [MiniJSON]. *)

From Stdlib Require Import ZArith String Ascii List Lia DecimalString DecimalPos DecimalZ.
From stdpp Require Import base option gmap strings list sorting.

#[local] Set Warnings "-register-all".
#[local] Open Scope string_scope.
#[local] Open Scope Z_scope.

(** ** Go values and standard-library functions *)

Module Go.

(** [len(s)] of a Go string: the number of bytes, an [int]. *)
Definition len (s : string) : Z := Z.of_nat (String.length s).

Definition nl : ascii := ascii_of_nat 10.
Definition cr : ascii := ascii_of_nat 13.
Definition newline : string := String nl "".

(** [fmt.Sprintf("%d", z)]. *)
Definition itoa (z : Z) : string := NilZero.string_of_int (Z.to_int z).

Fixpoint rev_onto (s acc : string) : string :=
  match s with
  | EmptyString => acc
  | String c s' => rev_onto s' (String c acc)
  end.

Definition rev (s : string) : string := rev_onto s "".

(** [s[:n]]; the callers of this model check [n <= len(s)] first. *)
Fixpoint take (n : nat) (s : string) : string :=
  match n, s with
  | S n', String c s' => String c (take n' s')
  | _, _ => ""
  end.

(** The table [asciiSpace] of package [strings]. *)
Definition asciiSpace (c : ascii) : bool :=
  let n := nat_of_ascii c in
  ((9 <=? n)%nat && (n <=? 13)%nat) || (n =? 32)%nat.

Definition byte_is (c : ascii) (n : nat) : bool := (nat_of_ascii c =? n)%nat.

(** [unicode.IsSpace] on the rune encoded by two bytes: U+0085, U+00A0. *)
Definition space2 (b0 b1 : ascii) : bool :=
  byte_is b0 194 && (byte_is b1 133 || byte_is b1 160).

(** [unicode.IsSpace] on the rune encoded by three bytes: U+1680,
    U+2000..U+200A, U+2028, U+2029, U+202F, U+205F, U+3000. *)
Definition space3 (b0 b1 b2 : ascii) : bool :=
  let n2 := nat_of_ascii b2 in
  (byte_is b0 225 && byte_is b1 154 && byte_is b2 128)
  || (byte_is b0 226 && byte_is b1 128
      && (((128 <=? n2)%nat && (n2 <=? 138)%nat)
          || byte_is b2 168 || byte_is b2 169 || byte_is b2 175))
  || (byte_is b0 226 && byte_is b1 129 && byte_is b2 159)
  || (byte_is b0 227 && byte_is b1 128 && byte_is b2 128).

(** [strings.TrimLeftFunc(s, unicode.IsSpace)]. *)
Fixpoint trimLeftSpace (s : string) : string :=
  match s with
  | EmptyString => ""
  | String b0 s1 =>
      if asciiSpace b0 then trimLeftSpace s1
      else match s1 with
           | EmptyString => s
           | String b1 s2 =>
               if space2 b0 b1 then trimLeftSpace s2
               else match s2 with
                    | EmptyString => s
                    | String b2 s3 =>
                        if space3 b0 b1 b2 then trimLeftSpace s3 else s
                    end
           end
  end.

(** [strings.TrimRightFunc(s, unicode.IsSpace)], on the reversed string:
    the last rune is read off the reversed bytes. *)
Fixpoint trimLeftSpaceRev (s : string) : string :=
  match s with
  | EmptyString => ""
  | String b0 s1 =>
      if asciiSpace b0 then trimLeftSpaceRev s1
      else match s1 with
           | EmptyString => s
           | String b1 s2 =>
               if space2 b1 b0 then trimLeftSpaceRev s2
               else match s2 with
                    | EmptyString => s
                    | String b2 s3 =>
                        if space3 b2 b1 b0 then trimLeftSpaceRev s3 else s
                    end
           end
  end.

Definition trimRightSpace (s : string) : string :=
  rev (trimLeftSpaceRev (rev s)).

(** [strings.TrimSpace]. *)
Definition TrimSpace (s : string) : string :=
  trimRightSpace (trimLeftSpace s).

(** [strings.Split(s, sep)] for a separator of one byte. *)
Fixpoint Split (s : string) (sep : ascii) : list string :=
  match s with
  | EmptyString => [""]
  | String c s' =>
      if Ascii.eqb c sep then "" :: Split s' sep
      else match Split s' sep with
           | [] => [String c ""]
           | p :: ps => String c p :: ps
           end
  end.

(** [strings.IndexByte(s, c) >= 0]. *)
Fixpoint hasByte (c : ascii) (s : string) : bool :=
  match s with
  | EmptyString => false
  | String b s' => Ascii.eqb b c || hasByte c s'
  end.

(** [strings.Repeat(s, count)]. *)
Fixpoint Repeat (s : string) (count : nat) : string :=
  match count with
  | O => ""
  | S n => s +:+ Repeat s n
  end.

(** [strings.Join(elems, sep)]. *)
Definition Join (elems : list string) (sep : string) : string :=
  String.concat sep elems.

(** What a Go function call ends in: a normal return or a run-time panic. *)
Inductive outcome (A : Type) : Type :=
| Ok (a : A)
| Panic (msg : string).
Arguments Ok {A} a.
Arguments Panic {A} msg.

(** A channel, as the history of the values sent on it; [closed] is set by
    [close].  Capacity and blocking are not modelled: a send that would
    block is taken to complete once the receiver has made room. *)
Record chan (A : Type) : Type := MkChan { sent : list A; closed : bool }.
Arguments MkChan {A} sent closed.
Arguments sent {A} c.
Arguments closed {A} c.

Definition make {A : Type} : chan A := MkChan [] false.

Definition send {A : Type} (c : chan A) (x : A) : outcome (chan A) :=
  if closed c then Panic "send on closed channel"
  else Ok (MkChan (sent c ++ [x]) false).

Definition close {A : Type} (c : chan A) : outcome (chan A) :=
  if closed c then Panic "close of closed channel"
  else Ok (MkChan (sent c) true).

(** Values of type [any] that a [map[string]any] record holds; a map is
    [None] when it is the nil map. *)
Inductive Value : Type :=
| VNil
| VBool (b : bool)
| VNum (z : Z)
| VStr (s : string)
| VArr (l : list Value)
| VMap (m : option (gmap string Value)).

(** [m[k]] with the comma-ok form: reading the nil map finds nothing. *)
Definition index (m : option (gmap string Value)) (k : string) : option Value :=
  match m with
  | None => None
  | Some o => o !! k
  end.

(** [v, ok := m[k].(string)]. *)
Definition indexString (m : option (gmap string Value)) (k : string) : option string :=
  match index m k with
  | Some (VStr s) => Some s
  | _ => None
  end.

(** [v, ok := m[k].(map[string]any)]. *)
Definition indexMap (m : option (gmap string Value)) (k : string)
  : option (option (gmap string Value)) :=
  match index m k with
  | Some (VMap r) => Some r
  | _ => None
  end.

End Go.

Export Go(outcome(..), chan(..), Value(..), sent, closed).

Abbreviation GoMap := (option (gmap string Value)).

(** ** Errors (errors.go) *)

(** The error values the transport creates or passes on.  [Errorf] is
    [fmt.Errorf] with a [%w] verb, [ErrorString] one without. *)
Inductive error : Type :=
| CLIConnectionError (message : string)
| CLINotFoundError (message : string) (CLIPath : string)
| ProcessError (message : string) (ExitCode : Z) (Stderr : string)
| CLIJSONDecodeError (message : string) (Line : string) (OriginalError : error)
| Errorf (prefix : string) (wrapped : error)
| ErrorString (message : string)
| EOF
| ErrTooLong
| Canceled
| DeadlineExceeded
| ErrClosed.

Fixpoint Error (e : error) : string :=
  match e with
  | CLIConnectionError m => m
  | CLINotFoundError m _ => m
  | ProcessError m _ _ => m
  | CLIJSONDecodeError m _ _ => m
  | Errorf p w => p +:+ Error w
  | ErrorString m => m
  | EOF => "EOF"
  | ErrTooLong => "bufio.Scanner: token too long"
  | Canceled => "context canceled"
  | DeadlineExceeded => "context deadline exceeded"
  | ErrClosed => "file already closed"
  end.

Definition NewCLIConnectionError (message : string) : error :=
  CLIConnectionError message.

Definition NewCLINotFoundError (message cliPath : string) : error :=
  let fullMessage :=
    if String.eqb cliPath "" then message else message +:+ ": " +:+ cliPath in
  CLINotFoundError fullMessage cliPath.

Definition NewProcessError (message : string) (exitCode : Z) (stderr : string) : error :=
  let fullMessage :=
    if exitCode =? 0 then message
    else message +:+ " (exit code: " +:+ Go.itoa exitCode +:+ ")" in
  let fullMessage :=
    if String.eqb stderr "" then fullMessage
    else fullMessage +:+ Go.newline +:+ "Error output: " +:+ stderr in
  ProcessError fullMessage exitCode stderr.

Definition NewCLIJSONDecodeError (line : string) (originalError : error) : error :=
  let message :=
    if Go.len line >? 100
    then "Failed to decode JSON: " +:+ Go.take 100 line +:+ "..."
    else "Failed to decode JSON: " +:+ line in
  CLIJSONDecodeError message line originalError.

Definition isProcessError (e : error) : bool :=
  match e with
  | ProcessError _ _ _ => true
  | _ => false
  end.

(** ** encoding/json and bufio, as the transport uses them *)

(** [json.Marshal] of a record and [json.Unmarshal] into a fresh
    [map[string]any]; [inr] carries the error.  Decoding the text [null]
    succeeds and leaves the nil map. *)
Class JSONCodec : Type := {
  json_Marshal : GoMap -> string + error;
  json_Unmarshal : string -> GoMap + error
}.

(** The bytes a pipe delivers before it ends, and the error that ends it
    ([None] for a clean end of file). *)
Record Reader : Type := MkReader { content : string; readErr : option error }.

Definition maxBufferSize : Z := 1024 * 1024.
Definition maxStderrSize : Z := 10 * 1024 * 1024.

(** [bufio.Scanner] with [ScanLines] and [Buffer(buf, maxTokenSize)] where
    [len(buf) = maxTokenSize]: the lines in order, a trailing carriage return
    dropped, the last one also when no newline ends it.  A line that fills
    the buffer before its newline is read stops the scanner with
    [ErrTooLong]. *)
Module Scanner.

Definition dropCR (s : string) : string :=
  match Go.rev s with
  | String c r => if Ascii.eqb c Go.cr then Go.rev r else s
  | EmptyString => s
  end.

(** The physical lines: the pieces between newlines, without the empty
    piece after a final newline. *)
Definition rawLines (s : string) : list string :=
  let pieces := Go.Split s Go.nl in
  match List.last pieces "" with
  | EmptyString => removelast pieces
  | _ => pieces
  end.

Fixpoint scan (maxTokenSize : Z) (lines : list string) : list string * bool :=
  match lines with
  | [] => ([], false)
  | l :: rest =>
      if maxTokenSize <=? Go.len l then ([], true)
      else let '(toks, tooLong) := scan maxTokenSize rest in
           (dropCR l :: toks, tooLong)
  end.

(** The tokens [Scan]/[Text] yield, and what [Err] returns afterwards. *)
Definition run (maxTokenSize : Z) (r : Reader) : list string * option error :=
  let '(toks, tooLong) := scan maxTokenSize (rawLines (content r)) in
  (toks,
   if tooLong then Some ErrTooLong
   else match readErr r with
        | Some EOF => None
        | e => e
        end).

End Scanner.

(** ** Message streams and options *)

Record stringPromptAdapter : Type := MkStringPrompt { sp_prompt : string; sp_sent : bool }.

(** A [MessageStream] interface value by its dynamic type: nil, a
    [*stringPromptAdapter], or another implementation, given by the results
    of its successive [Next] calls. *)
Inductive MessageStream : Type :=
| nilStream
| stringPromptStream (s : stringPromptAdapter)
| scriptedStream (replies : list (GoMap * option error)).

Record Options : Type := MkOptions {
  Model : string;
  SystemPrompt : string;
  AppendSystemPrompt : string;
  Cwd : string;
  AllowedTools : list string;
  DisallowedTools : list string;
  MaxTurns : option Z;
  PermissionPromptToolName : string;
  PermissionMode : string;
  ContinueConversation : bool;
  Resume : string;
  MCPServers : GoMap
}.

Definition NewOptions : Options :=
  MkOptions "" "" "" "" [] [] None "" "" false "" None.

(** [stringPromptAdapter.Next]. *)
Definition stringPromptAdapter_Next (s : stringPromptAdapter)
  : stringPromptAdapter * (GoMap * option error) :=
  if sp_sent s then (s, (None, Some EOF))
  else (MkStringPrompt (sp_prompt s) true,
        (Some (<["type" := VStr "user"]>
                 (<["message" := VMap (Some (<["role" := VStr "user"]>
                                               (<["content" := VStr (sp_prompt s)]> ∅)))]> ∅)),
         None)).

Definition NewStringPromptStream (prompt : string) : MessageStream :=
  stringPromptStream (MkStringPrompt prompt false).

(** [MessageStream.Next] by dynamic dispatch. *)
Definition MessageStream_Next (m : MessageStream) : MessageStream * (GoMap * option error) :=
  match m with
  | nilStream => (nilStream, (None, None))
  | stringPromptStream s =>
      let '(s', r) := stringPromptAdapter_Next s in (stringPromptStream s', r)
  | scriptedStream [] => (scriptedStream [], (None, None))
  | scriptedStream (r :: rest) => (scriptedStream rest, r)
  end.

Definition IsStringPrompt (stream : MessageStream) : bool :=
  match stream with
  | stringPromptStream _ => true
  | _ => false
  end.

(** ** The transport (package transport) *)

(** [MessageData] wraps message data or an error. *)
Record MessageData : Type := MkMessageData { Data : GoMap; Err : option error }.

(** [exec.Cmd], as far as the transport reads it: [ProcessState] is nil until
    [Wait] has returned, then it holds the exit code. *)
Record Cmd : Type := MkCmd { ProcessState : option Z }.

(** What the transport does to the child process and to its channels, in the
    order it does it. *)
Inductive Effect : Type :=
| EffCancel
| EffCloseStdinChan
| EffCloseStdin
| EffWait
| EffKill
| EffWaitTaskGroup
| EffCloseOutChan.

(** The struct [SubprocessCLITransport].  The mutex and the wait group are
    left to the interleaving of the functions below; [ctx] and [cancel] are
    the two flags [cancel] (a context was created by [Connect]) and
    [ctxDone]; [log] records the effects performed so far. *)
Record SubprocessCLITransport : Type := MkTransport {
  prompt : MessageStream;
  options : Options;
  cliPath : string;
  closeStdinAfterPrompt : bool;
  cmd : option Cmd;
  stdin : option (chan string);
  stdout : option Reader;
  stderr : option Reader;
  stdinChan : option (chan string);
  outChan : option (chan MessageData);
  pendingControlResponses : gmap string GoMap;
  requestCounter : Z;
  connected : bool;
  isStreaming : bool;
  sessionID : string;
  cancel : bool;
  ctxDone : bool;
  log : list Effect
}.

Definition set_cmd (v : option Cmd) (t : SubprocessCLITransport) :=
  MkTransport (prompt t) (options t) (cliPath t) (closeStdinAfterPrompt t) v
    (stdin t) (stdout t) (stderr t) (stdinChan t) (outChan t)
    (pendingControlResponses t) (requestCounter t) (connected t) (isStreaming t)
    (sessionID t) (cancel t) (ctxDone t) (log t).

Definition set_stdin (v : option (chan string)) (t : SubprocessCLITransport) :=
  MkTransport (prompt t) (options t) (cliPath t) (closeStdinAfterPrompt t) (cmd t)
    v (stdout t) (stderr t) (stdinChan t) (outChan t)
    (pendingControlResponses t) (requestCounter t) (connected t) (isStreaming t)
    (sessionID t) (cancel t) (ctxDone t) (log t).

Definition set_prompt (v : MessageStream) (t : SubprocessCLITransport) :=
  MkTransport v (options t) (cliPath t) (closeStdinAfterPrompt t) (cmd t)
    (stdin t) (stdout t) (stderr t) (stdinChan t) (outChan t)
    (pendingControlResponses t) (requestCounter t) (connected t) (isStreaming t)
    (sessionID t) (cancel t) (ctxDone t) (log t).

Definition set_stdout (v : option Reader) (t : SubprocessCLITransport) :=
  MkTransport (prompt t) (options t) (cliPath t) (closeStdinAfterPrompt t) (cmd t)
    (stdin t) v (stderr t) (stdinChan t) (outChan t)
    (pendingControlResponses t) (requestCounter t) (connected t) (isStreaming t)
    (sessionID t) (cancel t) (ctxDone t) (log t).

Definition set_stdinChan (v : option (chan string)) (t : SubprocessCLITransport) :=
  MkTransport (prompt t) (options t) (cliPath t) (closeStdinAfterPrompt t) (cmd t)
    (stdin t) (stdout t) (stderr t) v (outChan t)
    (pendingControlResponses t) (requestCounter t) (connected t) (isStreaming t)
    (sessionID t) (cancel t) (ctxDone t) (log t).

Definition set_outChan (v : option (chan MessageData)) (t : SubprocessCLITransport) :=
  MkTransport (prompt t) (options t) (cliPath t) (closeStdinAfterPrompt t) (cmd t)
    (stdin t) (stdout t) (stderr t) (stdinChan t) v
    (pendingControlResponses t) (requestCounter t) (connected t) (isStreaming t)
    (sessionID t) (cancel t) (ctxDone t) (log t).

Definition set_pendingControlResponses (v : gmap string GoMap) (t : SubprocessCLITransport) :=
  MkTransport (prompt t) (options t) (cliPath t) (closeStdinAfterPrompt t) (cmd t)
    (stdin t) (stdout t) (stderr t) (stdinChan t) (outChan t)
    v (requestCounter t) (connected t) (isStreaming t)
    (sessionID t) (cancel t) (ctxDone t) (log t).

Definition set_requestCounter (v : Z) (t : SubprocessCLITransport) :=
  MkTransport (prompt t) (options t) (cliPath t) (closeStdinAfterPrompt t) (cmd t)
    (stdin t) (stdout t) (stderr t) (stdinChan t) (outChan t)
    (pendingControlResponses t) v (connected t) (isStreaming t)
    (sessionID t) (cancel t) (ctxDone t) (log t).

Definition set_connected (v : bool) (t : SubprocessCLITransport) :=
  MkTransport (prompt t) (options t) (cliPath t) (closeStdinAfterPrompt t) (cmd t)
    (stdin t) (stdout t) (stderr t) (stdinChan t) (outChan t)
    (pendingControlResponses t) (requestCounter t) v (isStreaming t)
    (sessionID t) (cancel t) (ctxDone t) (log t).

Definition set_ctxDone (v : bool) (t : SubprocessCLITransport) :=
  MkTransport (prompt t) (options t) (cliPath t) (closeStdinAfterPrompt t) (cmd t)
    (stdin t) (stdout t) (stderr t) (stdinChan t) (outChan t)
    (pendingControlResponses t) (requestCounter t) (connected t) (isStreaming t)
    (sessionID t) (cancel t) v (log t).

Definition add_log (e : Effect) (t : SubprocessCLITransport) :=
  MkTransport (prompt t) (options t) (cliPath t) (closeStdinAfterPrompt t) (cmd t)
    (stdin t) (stdout t) (stderr t) (stdinChan t) (outChan t)
    (pendingControlResponses t) (requestCounter t) (connected t) (isStreaming t)
    (sessionID t) (cancel t) (ctxDone t) (log t ++ [e]).

(** How a call of a transport method ends: it returns, it blocks for good,
    or it panics. *)
Inductive result (A : Type) : Type :=
| Returned (t : SubprocessCLITransport) (a : A)
| Blocked (t : SubprocessCLITransport)
| Panicked (msg : string).
Arguments Returned {A} t a.
Arguments Blocked {A} t.
Arguments Panicked {A} msg.

(** [safeSend]: the message is delivered when the output channel exists and
    the transport's context is still live. *)
Definition safeSend (t : SubprocessCLITransport) (msg : MessageData)
  : SubprocessCLITransport * bool :=
  match outChan t with
  | None => (t, false)
  | Some c =>
      if ctxDone t then (t, false)
      else (set_outChan (Some (MkChan (sent c ++ [msg]) (closed c))) t, true)
  end.

(** [NewSubprocessCLITransport]; [options] is [None] for the nil pointer. *)
Definition NewSubprocessCLITransport (prompt : MessageStream) (options : option Options)
  : SubprocessCLITransport :=
  let options := match options with
                 | None => NewOptions
                 | Some o => o
                 end in
  let isStreaming := negb (IsStringPrompt prompt) in
  MkTransport prompt options "" false None None None None None None
    ∅ 0 false isStreaming "default" false false [].

Definition WithSessionID (sessionID : string) (t : SubprocessCLITransport) :=
  MkTransport (prompt t) (options t) (cliPath t) (closeStdinAfterPrompt t) (cmd t)
    (stdin t) (stdout t) (stderr t) (stdinChan t) (outChan t)
    (pendingControlResponses t) (requestCounter t) (connected t) (isStreaming t)
    sessionID (cancel t) (ctxDone t) (log t).

Definition WithStreaming (streaming : bool) (t : SubprocessCLITransport) :=
  MkTransport (prompt t) (options t) (cliPath t) (closeStdinAfterPrompt t) (cmd t)
    (stdin t) (stdout t) (stderr t) (stdinChan t) (outChan t)
    (pendingControlResponses t) (requestCounter t) (connected t) streaming
    (sessionID t) (cancel t) (ctxDone t) (log t).

(** The goroutine [Connect] starts last: after the process and the pumps have
    finished it closes the output channel, if the field still holds one, and
    clears the field. *)
Definition Connect_closeOutChan (t : SubprocessCLITransport) : result unit :=
  let t := match cmd t with
           | Some _ => add_log EffWait t
           | None => t
           end in
  let t := add_log EffWaitTaskGroup t in
  match outChan t with
  | None => Returned t tt
  | Some c =>
      match Go.close c with
      | Panic m => Panicked m
      | Ok _ => Returned (set_outChan None (add_log EffCloseOutChan t)) tt
      end
  end.

(** Whether the child exits within [disconnectTimeout] once its input is
    closed, or has to be killed; either way with an exit code. *)
Inductive ProcessExit : Type :=
| ExitsInTime (code : Z)
| NeedsKill (code : Z).

(** [Disconnect]. *)
Definition Disconnect (env : ProcessExit) (t : SubprocessCLITransport)
  : result (option error) :=
  if negb (connected t) then Returned t None
  else
    let t := set_connected false t in
    let t := if cancel t then add_log EffCancel (set_ctxDone true t) else t in
    let closedChan :=
      match stdinChan t with
      | None => Ok t
      | Some c =>
          match Go.close c with
          | Panic m => Panic m
          | Ok c' => Ok (add_log EffCloseStdinChan (set_stdinChan (Some c') t))
          end
      end in
    match closedChan with
    | Panic m => Panicked m
    | Ok t =>
        let t :=
          match stdin t with
          | None => t
          | Some p => add_log EffCloseStdin (set_stdin (Some (MkChan (sent p) true)) t)
          end in
        let t :=
          match cmd t with
          | None => t
          | Some _ =>
              match env with
              | ExitsInTime code =>
                  add_log EffWait (set_cmd (Some (MkCmd (Some code))) t)
              | NeedsKill code =>
                  add_log EffWait (add_log EffKill (set_cmd (Some (MkCmd (Some code))) t))
              end
          end in
        Returned (add_log EffWaitTaskGroup t) None
    end.

Section Pumps.

Context `{codec : JSONCodec}.

(** The record [SendRequest] builds around a message without a [type]. *)
Definition wrapUserMessage (sessionID : string) (msg : GoMap) : GoMap :=
  Some (<["type" := VStr "user"]>
          (<["message" := VMap (Some (<["role" := VStr "user"]>
                                        (<["content" := VMap msg]> ∅)))]>
             (<["parent_tool_use_id" := VNil]>
                (<["session_id" := VStr sessionID]> ∅)))).

(** The record that is marshalled for one submitted message. *)
Definition ensureStructure (sessionID : string) (msg : GoMap) : GoMap :=
  match Go.index msg "type" with
  | Some _ => msg
  | None => wrapUserMessage sessionID msg
  end.

(** The loop of [SendRequest]; [ctx] is [ctx.Err()], nil while the caller's
    context is live.  Of the two cases of the [select], the model takes the
    cancellation whenever the context is done. *)
Fixpoint SendRequest_loop (t : SubprocessCLITransport) (ctx : option error)
    (sessionID : string) (messages : list GoMap) : result (option error) :=
  match messages with
  | [] => Returned t None
  | msg :: rest =>
      let msg := ensureStructure sessionID msg in
      match json_Marshal msg with
      | inr err => Returned t (Some (Errorf "failed to marshal message: " err))
      | inl data =>
          match ctx with
          | Some e => Returned t (Some e)
          | None =>
              match stdinChan t with
              | None => Blocked t
              | Some c =>
                  match Go.send c (data +:+ Go.newline) with
                  | Panic m => Panicked m
                  | Ok c' => SendRequest_loop (set_stdinChan (Some c') t) ctx sessionID rest
                  end
              end
          end
      end
  end.

(** [SendRequest]. *)
Definition SendRequest (t : SubprocessCLITransport) (ctx : option error)
    (messages : list GoMap) (metadata : GoMap) : result (option error) :=
  if negb (isStreaming t)
  then Returned t (Some (NewCLIConnectionError "SendRequest only works in streaming mode"))
  else if negb (connected t)
  then Returned t (Some (NewCLIConnectionError "Not connected"))
  else
    let sessionID := match Go.indexString metadata "session_id" with
                     | Some sid => sid
                     | None => "default"
                     end in
    SendRequest_loop t ctx sessionID messages.

(** The error [readOutput] emits when the accumulator outgrows its bound. *)
Definition bufferOverflowError : error :=
  NewCLIJSONDecodeError
    ("JSON message exceeded maximum buffer size of " +:+ Go.itoa maxBufferSize +:+ " bytes")
    (ErrorString "buffer size exceeded").

(** [data["type"] == "control_response"]. *)
Definition isControlResponse (data : GoMap) : bool :=
  match Go.index data "type" with
  | Some (VStr s) => String.eqb s "control_response"
  | _ => false
  end.

(** The body of the inner loop of [readOutput] for one fragment of a line:
    the transport and the accumulator [jsonBuffer] before and after. *)
Definition readOutput_fragment (st : SubprocessCLITransport * string) (jsonLine : string)
  : SubprocessCLITransport * string :=
  let '(t, jsonBuffer) := st in
  let jsonLine := Go.TrimSpace jsonLine in
  if String.eqb jsonLine "" then (t, jsonBuffer)
  else
    let jsonBuffer := jsonBuffer +:+ jsonLine in
    if Go.len jsonBuffer >? maxBufferSize
    then (fst (safeSend t (MkMessageData None (Some bufferOverflowError))), "")
    else
      match json_Unmarshal jsonBuffer with
      | inl data =>
          if isControlResponse data
          then
            match Go.indexMap data "response" with
            | Some response =>
                match Go.indexString response "request_id" with
                | Some requestID =>
                    (set_pendingControlResponses
                       (<[requestID := response]> (pendingControlResponses t)) t, "")
                | None => (t, "")
                end
            | None => (t, "")
            end
          else (fst (safeSend t (MkMessageData data None)), "")
      | inr _ => (t, jsonBuffer)
      end.

(** The body of the outer loop of [readOutput] for one scanned line. *)
Definition readOutput_line (st : SubprocessCLITransport * string) (line : string)
  : SubprocessCLITransport * string :=
  if String.eqb line "" then st
  else fold_left readOutput_fragment (Go.Split line Go.nl) st.

(** [readOutput], run on what the child's output pipe delivers. *)
Definition readOutput (t : SubprocessCLITransport) : SubprocessCLITransport :=
  let r := match stdout t with
           | Some r => r
           | None => MkReader "" None
           end in
  let '(lines, err) := Scanner.run maxBufferSize r in
  let '(t, _) := fold_left readOutput_line lines (t, "") in
  match err with
  | Some EOF | None => t
  | Some e => fst (safeSend t (MkMessageData None (Some (Errorf "error reading output: " e))))
  end.

(** The exit code [processStderr] reads: zero while [ProcessState] is nil.
    The pumps run after [Connect] has set [t.cmd]; a transport without a
    command is read like one whose process has not been waited for. *)
Definition exitCodeNow (t : SubprocessCLITransport) : Z :=
  match cmd t with
  | Some c => match ProcessState c with
              | Some code => code
              | None => 0
              end
  | None => 0
  end.

(** [processStderr]. *)
Definition processStderr (t : SubprocessCLITransport) (lines : list string)
  : SubprocessCLITransport :=
  match lines with
  | [] => t
  | _ =>
      let stderrOutput := Go.Join lines Go.newline in
      let exitCode := exitCodeNow t in
      if negb (exitCode =? 0)
      then fst (safeSend t (MkMessageData None
                  (Some (NewProcessError
                           ("Command failed with exit code " +:+ Go.itoa exitCode)
                           exitCode stderrOutput))))
      else t
  end.

(** What the [select] statements of [readStderr] receive, in the order in
    which they receive it: a line from the scanning goroutine, the end of
    the error stream, the collection timer, the transport's context. *)
Inductive StderrEvent : Type :=
| EvLine (line : string)
| EvDone
| EvTimer
| EvCtxDone.

(** The inner loop of [readStderr], entered after the size limit was hit:
    lines are dropped until the stream ends. *)
Fixpoint readStderr_drain (t : SubprocessCLITransport) (stderrLines : list string)
    (events : list StderrEvent) : SubprocessCLITransport * bool :=
  match events with
  | [] => (t, false)
  | EvDone :: _ =>
      (match stderrLines with
       | [] => t
       | _ => processStderr t stderrLines
       end, true)
  | _ :: rest => readStderr_drain t stderrLines rest
  end.

(** The main loop of [readStderr]. *)
Fixpoint readStderr_loop (t : SubprocessCLITransport) (stderrLines : list string)
    (stderrSize : Z) (events : list StderrEvent) : SubprocessCLITransport * bool :=
  match events with
  | [] => (t, false)
  | EvLine line :: rest =>
      let lineSize := Go.len line in
      if stderrSize + lineSize >? maxStderrSize
      then readStderr_drain t
             (stderrLines ++ ["[stderr truncated after " +:+ Go.itoa stderrSize +:+ " bytes]"])
             rest
      else readStderr_loop t (stderrLines ++ [line]) (stderrSize + lineSize) rest
  | EvDone :: _ =>
      (match stderrLines with
       | [] => t
       | _ => processStderr t stderrLines
       end, true)
  | EvTimer :: _ =>
      (processStderr t (stderrLines ++ ["[stderr collection timed out after 30s]"]), true)
  | EvCtxDone :: _ => (t, true)
  end.

(** [readStderr]: the transport afterwards, and whether the pump has
    returned ([false]: it still waits for an event). *)
Definition readStderr (t : SubprocessCLITransport) (events : list StderrEvent)
  : SubprocessCLITransport * bool :=
  readStderr_loop t [] 0 events.

(** [atomic.AddUint64(&t.requestCounter, 1)]. *)
Definition AddUint64 (counter delta : Z) : Z := (counter + delta) mod 2 ^ 64.

(** [fmt.Sprintf("req_%d_%d", counter, nanos)]. *)
Definition requestIDOf (counter nanos : Z) : string :=
  "req_" +:+ Go.itoa counter +:+ "_" +:+ Go.itoa nanos.

(** What happens while [sendControlRequest] waits: the ticker fires, the
    caller's context ends, or another goroutine of the transport (the
    stdout reader storing a response, say) takes a step. *)
Inductive WaitEvent : Type :=
| Tick
| CtxDone (err : error)
| Concurrent (step : SubprocessCLITransport -> SubprocessCLITransport).

(** The body of the [ticker.C] case once the response was found. *)
Definition controlResponseResult (response : GoMap) : GoMap * option error :=
  match Go.indexString response "subtype" with
  | Some subtype =>
      if String.eqb subtype "error"
      then match Go.indexString response "error" with
           | Some errMsg =>
               (None, Some (NewCLIConnectionError ("Control request failed: " +:+ errMsg)))
           | None => (response, None)
           end
      else (response, None)
  | None => (response, None)
  end.

(** The polling loop of [sendControlRequest]. *)
Fixpoint sendControlRequest_wait (t : SubprocessCLITransport) (requestID : string)
    (events : list WaitEvent) : result (GoMap * option error) :=
  match events with
  | [] => Blocked t
  | Tick :: rest =>
      match pendingControlResponses t !! requestID with
      | Some response =>
          Returned
            (set_pendingControlResponses (delete requestID (pendingControlResponses t)) t)
            (controlResponseResult response)
      | None => sendControlRequest_wait t requestID rest
      end
  | CtxDone err :: _ => Returned t (None, Some err)
  | Concurrent step :: rest => sendControlRequest_wait (step t) requestID rest
  end.

(** The first half of [sendControlRequest]: the connection check, the new
    request id and the record that carries the request; [now] is
    [time.Now().UnixNano()]. *)
Definition sendControlRequest_prepare (t : SubprocessCLITransport) (now : Z)
    (request : GoMap) : SubprocessCLITransport * (string * GoMap + error) :=
  match stdin t, connected t with
  | Some _, true =>
      let counter := AddUint64 (requestCounter t) 1 in
      let t := set_requestCounter counter t in
      let requestID := requestIDOf counter now in
      (t, inl (requestID,
               Some (<["type" := VStr "control_request"]>
                       (<["request_id" := VStr requestID]>
                          (<["request" := VMap request]> ∅)))))
  | _, _ => (t, inr (NewCLIConnectionError "Not connected or stdin not available"))
  end.

(** [sendControlRequest]. *)
Definition sendControlRequest (t : SubprocessCLITransport) (ctx : option error)
    (now : Z) (request : GoMap) (events : list WaitEvent) : result (GoMap * option error) :=
  match sendControlRequest_prepare t now request with
  | (t, inr err) => Returned t (None, Some err)
  | (t, inl (requestID, controlRequest)) =>
      match json_Marshal controlRequest with
      | inr err => Returned t (None, Some (Errorf "failed to marshal control request: " err))
      | inl data =>
          match ctx with
          | Some e => Returned t (None, Some e)
          | None =>
              match stdinChan t with
              | None => Blocked t
              | Some c =>
                  match Go.send c (data +:+ Go.newline) with
                  | Panic m => Panicked m
                  | Ok c' =>
                      sendControlRequest_wait (set_stdinChan (Some c') t) requestID events
                  end
              end
          end
      end
  end.

(** [Interrupt] in streaming mode. *)
Definition Interrupt_streaming (t : SubprocessCLITransport) (ctx : option error)
    (now : Z) (events : list WaitEvent) : result (option error) :=
  match sendControlRequest t ctx now (Some (<["subtype" := VStr "interrupt"]> ∅)) events with
  | Returned t (_, err) => Returned t err
  | Blocked t => Blocked t
  | Panicked m => Panicked m
  end.

(** [handleStdin], run on the lines it receives from the input queue: each
    is written to the child's input; the loop ends when the input stream is
    gone or a write fails (a write on a closed pipe does). *)
Fixpoint handleStdin (t : SubprocessCLITransport) (received : list string)
  : SubprocessCLITransport :=
  match received with
  | [] => t
  | data :: rest =>
      match stdin t with
      | None => t
      | Some p =>
          if closed p
          then fst (safeSend t (MkMessageData None
                      (Some (Errorf "failed to write to stdin: " ErrClosed))))
          else handleStdin (set_stdin (Some (MkChan (sent p ++ [data]) false)) t) rest
      end
  end.

(** The record [streamToStdin] marshals for a message of the prompt stream:
    the transport's session id is set when the message has none. *)
Definition withSessionID (sessionID : string) (msg : gmap string Value)
  : gmap string Value :=
  match msg !! "session_id" with
  | Some _ => msg
  | None => <["session_id" := VStr sessionID]> msg
  end.

(** The loop of [streamToStdin] and what follows it; [fuel] bounds the
    number of messages taken from the prompt stream, and the pump is still
    at work ([Blocked]) when it is used up. *)
Fixpoint streamToStdin_loop (fuel : nat) (t : SubprocessCLITransport) : result unit :=
  match fuel with
  | O => Blocked t
  | S fuel =>
      let '(p, (msg, err)) := MessageStream_Next (prompt t) in
      let t := set_prompt p t in
      match err with
      | Some Canceled => Returned t tt
      | Some e => Returned (fst (safeSend t (MkMessageData None (Some e)))) tt
      | None =>
          match msg with
          | None =>
              if closeStdinAfterPrompt t
              then match stdin t with
                   | Some _ => Returned (add_log EffCloseStdin (set_stdin None t)) tt
                   | None => Returned t tt
                   end
              else Returned t tt
          | Some o =>
              match json_Marshal (Some (withSessionID (sessionID t) o)) with
              | inr e =>
                  Returned
                    (fst (safeSend t (MkMessageData None
                            (Some (Errorf "failed to marshal prompt message: " e))))) tt
              | inl data =>
                  if ctxDone t then Returned t tt
                  else match stdinChan t with
                       | None => Blocked t
                       | Some c =>
                           match Go.send c (data +:+ Go.newline) with
                           | Panic m => Panicked m
                           | Ok c' => streamToStdin_loop fuel (set_stdinChan (Some c') t)
                           end
                       end
              end
          end
      end
  end.

(** [streamToStdin]. *)
Definition streamToStdin (fuel : nat) (t : SubprocessCLITransport) : result unit :=
  match prompt t with
  | nilStream => Returned t tt
  | _ => streamToStdin_loop fuel t
  end.

End Pumps.

(** ** A JSON codec for a fragment of JSON

    Objects, arrays, strings of printable ASCII without escapes, integers,
    [true], [false] and [null].  On this fragment the codec writes and reads
    what [encoding/json] writes and reads: compact output with the keys of an
    object in byte order, and, when a key is repeated in the input, the last
    value.  Text or values outside the fragment are reported as errors. *)
Module MiniJSON.

Definition dquote : ascii := ascii_of_nat 34.
Definition backslash : ascii := ascii_of_nat 92.

(** [q s] is [s] between double quotes. *)
Definition q (s : string) : string := String dquote (s +:+ String dquote "").

Definition isWS (c : ascii) : bool :=
  let n := nat_of_ascii c in
  ((n =? 32) || (n =? 9) || (n =? 10) || (n =? 13))%nat.

Definition isDigit (c : ascii) : bool :=
  let n := nat_of_ascii c in ((48 <=? n) && (n <=? 57))%nat.

Definition plainChar (c : ascii) : bool :=
  let n := nat_of_ascii c in
  ((32 <=? n) && (n <=? 127) && negb (n =? 34) && negb (n =? 92)
   && negb (n =? 60) && negb (n =? 62) && negb (n =? 38))%nat.

Fixpoint plainString (s : string) : bool :=
  match s with
  | EmptyString => true
  | String c r => plainChar c && plainString r
  end.

Fixpoint skipWS (s : string) : string :=
  match s with
  | String c r => if isWS c then skipWS r else s
  | EmptyString => ""
  end.

(** The characters of a string literal after its opening quote. *)
Fixpoint parseString (s : string) : option (string * string) :=
  match s with
  | EmptyString => None
  | String c r =>
      if Ascii.eqb c dquote then Some ("", r)
      else if Ascii.eqb c backslash || (nat_of_ascii c <? 32)%nat then None
      else match parseString r with
           | Some (str, r') => Some (String c str, r')
           | None => None
           end
  end.

Fixpoint parseDigits (acc : Z) (s : string) : Z * string :=
  match s with
  | String c r =>
      if isDigit c then parseDigits (10 * acc + Z.of_nat (nat_of_ascii c - 48)) r
      else (acc, s)
  | EmptyString => (acc, "")
  end.

(** An integer literal: no leading zero, no fraction, no exponent. *)
Definition parseNumber (s : string) : option (Z * string) :=
  let '(neg, s) := match s with
                   | String c r => if Ascii.eqb c "-" then (true, r) else (false, s)
                   | EmptyString => (false, s)
                   end in
  match s with
  | String c r =>
      if isDigit c then
        let '(n, rest) := if Ascii.eqb c "0" then (0, r) else parseDigits 0 s in
        match rest with
        | String d _ =>
            if isDigit d || Ascii.eqb d "." || Ascii.eqb d "e" || Ascii.eqb d "E"
            then None
            else Some (if neg then - n else n, rest)
        | EmptyString => Some (if (neg : bool) then - n else n, rest)
        end
      else None
  | EmptyString => None
  end.

Fixpoint stripPrefix (p s : string) : option string :=
  match p, s with
  | EmptyString, _ => Some s
  | String a p', String b s' => if Ascii.eqb a b then stripPrefix p' s' else None
  | _, _ => None
  end.

Fixpoint parseValue (fuel : nat) (s : string) {struct fuel} : option (Value * string) :=
  match fuel with
  | O => None
  | S f =>
      match skipWS s with
      | EmptyString => None
      | String c rest as s0 =>
          if Ascii.eqb c "{" then
            match skipWS rest with
            | String d rest' =>
                if Ascii.eqb d "}" then Some (VMap (Some ∅), rest')
                else parseMembers f rest ∅
            | EmptyString => None
            end
          else if Ascii.eqb c "[" then
            match skipWS rest with
            | String d rest' =>
                if Ascii.eqb d "]" then Some (VArr [], rest')
                else parseElements f rest []
            | EmptyString => None
            end
          else if Ascii.eqb c dquote then
            match parseString rest with
            | Some (str, rest') => Some (VStr str, rest')
            | None => None
            end
          else if Ascii.eqb c "t" then
            option_map (fun r => (VBool true, r)) (stripPrefix "true" s0)
          else if Ascii.eqb c "f" then
            option_map (fun r => (VBool false, r)) (stripPrefix "false" s0)
          else if Ascii.eqb c "n" then
            option_map (fun r => (VNil, r)) (stripPrefix "null" s0)
          else
            option_map (fun '(n, r) => (VNum n, r)) (parseNumber s0)
      end
  end
with parseMembers (fuel : nat) (s : string) (acc : gmap string Value) {struct fuel}
  : option (Value * string) :=
  match fuel with
  | O => None
  | S f =>
      match skipWS s with
      | String c rest =>
          if Ascii.eqb c dquote then
            match parseString rest with
            | Some (k, rest1) =>
                match skipWS rest1 with
                | String c2 rest2 =>
                    if Ascii.eqb c2 ":" then
                      match parseValue f rest2 with
                      | Some (v, rest3) =>
                          match skipWS rest3 with
                          | String c4 rest4 =>
                              if Ascii.eqb c4 "," then parseMembers f rest4 (<[k := v]> acc)
                              else if Ascii.eqb c4 "}"
                                   then Some (VMap (Some (<[k := v]> acc)), rest4)
                                   else None
                          | EmptyString => None
                          end
                      | None => None
                      end
                    else None
                | EmptyString => None
                end
            | None => None
            end
          else None
      | EmptyString => None
      end
  end
with parseElements (fuel : nat) (s : string) (acc : list Value) {struct fuel}
  : option (Value * string) :=
  match fuel with
  | O => None
  | S f =>
      match parseValue f s with
      | Some (v, rest) =>
          match skipWS rest with
          | String c rest' =>
              if Ascii.eqb c "," then parseElements f rest' (acc ++ [v])
              else if Ascii.eqb c "]" then Some (VArr (acc ++ [v]), rest')
                   else None
          | EmptyString => None
          end
      | None => None
      end
  end.

(** [json.Unmarshal(data, &m)] with [m] a nil [map[string]any]. *)
Definition Unmarshal (data : string) : GoMap + error :=
  match parseValue (S (String.length data)) data with
  | Some (v, rest) =>
      match skipWS rest with
      | EmptyString =>
          match v with
          | VMap m => inl m
          | VNil => inl None
          | _ => inr (ErrorString "json: cannot unmarshal into Go value of type map[string]interface {}")
          end
      | _ => inr (ErrorString "invalid character after top-level value")
      end
  | None => inr (ErrorString "json: syntax error")
  end.

Definition concatOpt (sep : string) (l : list (option string)) : option string :=
  option_map (String.concat sep)
    (foldr (fun o acc => match o, acc with
                         | Some a, Some b => Some (a :: b)
                         | _, _ => None
                         end) (Some []) l).

Definition encodeString (s : string) : option string :=
  if plainString s then Some (q s) else None.

Definition encodeMember (kv : string * option string) : option string :=
  match encodeString kv.1, kv.2 with
  | Some k, Some v => Some (k +:+ ":" +:+ v)
  | _, _ => None
  end.

Fixpoint encode (v : Value) : option string :=
  match v with
  | VNil => Some "null"
  | VBool b => Some (if b then "true" else "false")
  | VNum z => Some (Go.itoa z)
  | VStr s => encodeString s
  | VArr l => option_map (fun s => "[" +:+ s +:+ "]") (concatOpt "," (List.map encode l))
  | VMap None => Some "null"
  | VMap (Some m) =>
      option_map (fun s => "{" +:+ s +:+ "}")
        (concatOpt ","
           (List.map encodeMember
              (merge_sort (fun a b : string * option string => Is_true (String.leb a.1 b.1))
                 (map_to_list (encode <$> m)))))
  end.

(** [json.Marshal(m)] for a [map[string]any]. *)
Definition Marshal (m : GoMap) : string + error :=
  match encode (VMap m) with
  | Some s => inl s
  | None => inr (ErrorString "json: unsupported value")
  end.

#[export] Instance codec : JSONCodec :=
  {| json_Marshal := Marshal; json_Unmarshal := Unmarshal |}.

End MiniJSON.


(** ** Runs of the transport: what the properties below speak about *)

(** The results of [n] successive calls of [Next] on a stream. *)
Fixpoint MessageStream_calls (n : nat) (m : MessageStream) : list (GoMap * option error) :=
  match n with
  | O => []
  | S n' => let '(m', r) := MessageStream_Next m in r :: MessageStream_calls n' m'
  end.

(** The messages sent on the output channel the transport holds. *)
Definition delivered (t : SubprocessCLITransport) : list MessageData :=
  match outChan t with
  | Some c => sent c
  | None => []
  end.

Definition isProcessErrorMessage (m : MessageData) : bool :=
  match Err m with
  | Some e => isProcessError e
  | None => false
  end.

(** The [ProcessError]s among the delivered messages. *)
Definition processErrors (t : SubprocessCLITransport) : list MessageData :=
  List.filter isProcessErrorMessage (delivered t).

(** The transport [t'] has delivered exactly one message more than [t], a
    [ProcessError] with exit code [code] and stderr detail [detail]. *)
Definition emitsOneProcessError (code : Z) (detail : string)
    (t t' : SubprocessCLITransport) : Prop :=
  exists message,
    delivered t' = (delivered t ++ [MkMessageData None (Some (ProcessError message code detail))])%list.

(** The bytes of a list of lines. *)
Definition totalLen (lines : list string) : Z :=
  fold_right (fun l n => Go.len l + n) 0 lines.

(** A byte that no trimming removes when it stands at an end of a string:
    an ASCII byte that is not white space. *)
Definition plainByte (x : ascii) : Prop :=
  Go.asciiSpace x = false /\ (nat_of_ascii x < 128)%nat.

Definition isCloseOutChan (e : Effect) : bool :=
  match e with
  | EffCloseOutChan => true
  | _ => false
  end.

(** How often the output channel was closed so far. *)
Definition outChanCloses (t : SubprocessCLITransport) : nat :=
  length (List.filter isCloseOutChan (log t)).

(** Calls of [Disconnect] and runs of the closing goroutine of [Connect], in
    some order. *)
Inductive TeardownStep : Type :=
| DoDisconnect (env : ProcessExit)
| DoCloseOutChan.

Fixpoint teardown (steps : list TeardownStep) (t : SubprocessCLITransport) : result unit :=
  match steps with
  | [] => Returned t tt
  | DoDisconnect env :: rest =>
      match Disconnect env t with
      | Returned t' _ => teardown rest t'
      | Blocked t' => Blocked t'
      | Panicked m => Panicked m
      end
  | DoCloseOutChan :: rest =>
      match Connect_closeOutChan t with
      | Returned t' _ => teardown rest t'
      | Blocked t' => Blocked t'
      | Panicked m => Panicked m
      end
  end.

(** The transport the wait loop of [sendControlRequest] has reached after
    the events [pre], when no tick among them found the response to
    [requestID] and the caller's context stayed live; [None] otherwise. *)
Fixpoint waitedThrough (t : SubprocessCLITransport) (requestID : string)
    (pre : list WaitEvent) : option SubprocessCLITransport :=
  match pre with
  | [] => Some t
  | Tick :: rest =>
      match pendingControlResponses t !! requestID with
      | Some _ => None
      | None => waitedThrough t requestID rest
      end
  | CtxDone _ :: _ => None
  | Concurrent step :: rest => waitedThrough (step t) requestID rest
  end.

(** The accumulator after the fragments [frags], when none of them
    completed a record or overflowed it. *)
Definition accumulated (buf : string) (frags : list string) : string :=
  fold_left (fun b f => b +:+ Go.TrimSpace f) frags buf.

(** The fragments [frags], appended one by one to the accumulator [buf],
    keep it within its bound and never make it parse. *)
Fixpoint accumulatesQuietly `{codec : JSONCodec} (buf : string) (frags : list string) : bool :=
  match frags with
  | [] => true
  | f :: rest =>
      let buf' := buf +:+ Go.TrimSpace f in
      (String.eqb (Go.TrimSpace f) ""
       || ((Go.len buf' <=? maxBufferSize)
           && match json_Unmarshal buf' with
              | inr _ => true
              | inl _ => false
              end))
      && accumulatesQuietly buf' rest
  end.

(** Stamping as the specification words it: a record without a
    [session_id] key gets the given session id under that key, and nothing
    else changes. *)
Definition stampSessionID (sessionID : string) (msg : GoMap) : GoMap :=
  match Go.index msg "session_id" with
  | Some _ => msg
  | None => Some (<["session_id" := VStr sessionID]> (default ∅ msg))
  end.

(** What happens on a transport over its lifetime, as far as request ids go:
    a control request is issued at some reading of the clock, or something
    else takes a step. *)
Inductive SessionEvent : Type :=
| IssueRequest (now : Z) (request : GoMap)
| OtherStep (step : SubprocessCLITransport -> SubprocessCLITransport).

(** The request ids assigned in the course of the events, oldest first. *)
Fixpoint requestIDs (t : SubprocessCLITransport) (events : list SessionEvent) : list string :=
  match events with
  | [] => []
  | IssueRequest now request :: rest =>
      match sendControlRequest_prepare t now request with
      | (t', inl (requestID, _)) => requestID :: requestIDs t' rest
      | (t', inr _) => requestIDs t' rest
      end
  | OtherStep step :: rest => requestIDs (step t) rest
  end.

(** Only [sendControlRequest] writes the request counter. *)
Definition keepsRequestCounter (ev : SessionEvent) : Prop :=
  match ev with
  | IssueRequest _ _ => True
  | OtherStep step => forall t, requestCounter (step t) = requestCounter t
  end.

(** ** Example transports and inputs *)

(** A transport as [Connect] leaves it in streaming mode, before any
    message has moved. *)
Definition connectedStreaming : SubprocessCLITransport :=
  MkTransport (scriptedStream []) NewOptions "/usr/local/bin/claude" false
    (Some (MkCmd None)) (Some Go.make) (Some (MkReader "" None)) (Some (MkReader "" None))
    (Some Go.make) (Some Go.make) ∅ 0 true true "default" true false [].


(** The child has exited with status 0, resp. 1, and [Wait] has returned. *)
Definition exitedZero : SubprocessCLITransport :=
  set_cmd (Some (MkCmd (Some 0))) connectedStreaming.

Definition exitedOne : SubprocessCLITransport :=
  set_cmd (Some (MkCmd (Some 1))) connectedStreaming.

(** The output line [{"type":"control_response"}]: a control response that
    carries no response object. *)
Definition bareControlResponse : string :=
  "{" +:+ MiniJSON.q "type" +:+ ":" +:+ MiniJSON.q "control_response" +:+ "}".

(** The output line [{"type":"result","num_turns":1}]. *)
Definition resultLine : string :=
  "{" +:+ MiniJSON.q "type" +:+ ":" +:+ MiniJSON.q "result" +:+ ","
      +:+ MiniJSON.q "num_turns" +:+ ":1}".

(** The output line
    [{"type":"control_response","response":{"request_id":ID,"subtype":"error"}}]:
    an error response without an error message. *)
Definition errorResponseLine (requestID : string) : string :=
  "{" +:+ MiniJSON.q "type" +:+ ":" +:+ MiniJSON.q "control_response" +:+ ","
      +:+ MiniJSON.q "response" +:+ ":{"
      +:+ MiniJSON.q "request_id" +:+ ":" +:+ MiniJSON.q requestID +:+ ","
      +:+ MiniJSON.q "subtype" +:+ ":" +:+ MiniJSON.q "error" +:+ "}}".

(** The same with the message "busy":
    [{"type":"control_response","response":{"error":"busy","request_id":ID,"subtype":"error"}}]. *)
Definition busyResponseLine (requestID : string) : string :=
  "{" +:+ MiniJSON.q "type" +:+ ":" +:+ MiniJSON.q "control_response" +:+ ","
      +:+ MiniJSON.q "response" +:+ ":{"
      +:+ MiniJSON.q "error" +:+ ":" +:+ MiniJSON.q "busy" +:+ ","
      +:+ MiniJSON.q "request_id" +:+ ":" +:+ MiniJSON.q requestID +:+ ","
      +:+ MiniJSON.q "subtype" +:+ ":" +:+ MiniJSON.q "error" +:+ "}}".

(** The stdout reader handles one line while another goroutine waits. *)
Definition readerHandles (line : string) (t : SubprocessCLITransport)
  : SubprocessCLITransport :=
  fst (readOutput_fragment (codec := MiniJSON.codec) (t, "") line).

(** The request [Interrupt] sends. *)
Definition interruptRequest : GoMap := Some (<["subtype" := VStr "interrupt"]> ∅).

(** A reading of [time.Now().UnixNano()]. *)
Definition someNanos : Z := 1700000000000000000.

(** The record [{"type":"user"}], and the metadata [{"session_id":"s1"}]. *)
Definition typedRecord : GoMap := Some (<["type" := VStr "user"]> ∅).
Definition metadataS1 : GoMap := Some (<["session_id" := VStr "s1"]> ∅).

(** The record [{"text":"hi"}], which has no [type]. *)
Definition untypedRecord : GoMap := Some (<["text" := VStr "hi"]> ∅).

(** A line of 1 MiB + 1 bytes, and a line of 600000 bytes. *)
Definition oversizedLine : string := Go.Repeat "x" (Z.to_nat (maxBufferSize + 1)).
Definition halfLine : string := Go.Repeat "x" (Z.to_nat 600000).

(** The reader of a pipe on which the child writes the given lines. *)
Definition pipeOf (lines : list string) : Reader :=
  MkReader (fold_right (fun l s => l +:+ Go.newline +:+ s) "" lines) None.

(** The child writes one line of 1 MiB + 1 bytes, then the record [{}]. *)
Definition oversizedThenRecord : SubprocessCLITransport :=
  set_stdout (Some (pipeOf [oversizedLine; "{}"])) connectedStreaming.

(** The child writes two lines of 600000 bytes each, then the record [{}]. *)
Definition halvesThenRecord : SubprocessCLITransport :=
  set_stdout (Some (pipeOf [halfLine; halfLine; "{}"])) connectedStreaming.

(** The same with one more byte, on a line of its own, before the record. *)
Definition halvesByteThenRecord : SubprocessCLITransport :=
  set_stdout (Some (pipeOf [halfLine; halfLine; "x"; "{}"])) connectedStreaming.

(** A transport that was constructed and never connected. *)
Definition neverConnected : SubprocessCLITransport :=
  NewSubprocessCLITransport (scriptedStream []) None.

(** A prompt stream of two messages, [{"type":"user"}] and
    [{"session_id":"s1","type":"user"}], on a connected transport whose
    session id is "math-session". *)
Definition twoPrompts : SubprocessCLITransport :=
  set_prompt
    (scriptedStream
       [(typedRecord, None);
        (Some (<["type" := VStr "user"]> (<["session_id" := VStr "s1"]> ∅)), None)])
    (WithSessionID "math-session" connectedStreaming).

(** ** The rest of the transport: builders, command line, CLI lookup, Connect *)

Definition WithCLIPath (path : string) (t : SubprocessCLITransport) :=
  MkTransport (prompt t) (options t) path (closeStdinAfterPrompt t) (cmd t)
    (stdin t) (stdout t) (stderr t) (stdinChan t) (outChan t)
    (pendingControlResponses t) (requestCounter t) (connected t) (isStreaming t)
    (sessionID t) (cancel t) (ctxDone t) (log t).

Definition WithCloseStdinAfterPrompt (close : bool) (t : SubprocessCLITransport) :=
  MkTransport (prompt t) (options t) (cliPath t) close (cmd t)
    (stdin t) (stdout t) (stderr t) (stdinChan t) (outChan t)
    (pendingControlResponses t) (requestCounter t) (connected t) (isStreaming t)
    (sessionID t) (cancel t) (ctxDone t) (log t).

Definition set_stderr (v : option Reader) (t : SubprocessCLITransport) :=
  MkTransport (prompt t) (options t) (cliPath t) (closeStdinAfterPrompt t) (cmd t)
    (stdin t) (stdout t) v (stdinChan t) (outChan t)
    (pendingControlResponses t) (requestCounter t) (connected t) (isStreaming t)
    (sessionID t) (cancel t) (ctxDone t) (log t).

(** [t.ctx, t.cancel = context.WithCancel(ctx)]: the new context is done
    from the start when the parent is. *)
Definition set_ctx (parentDone : bool) (t : SubprocessCLITransport) :=
  MkTransport (prompt t) (options t) (cliPath t) (closeStdinAfterPrompt t) (cmd t)
    (stdin t) (stdout t) (stderr t) (stdinChan t) (outChan t)
    (pendingControlResponses t) (requestCounter t) (connected t) (isStreaming t)
    (sessionID t) true parentDone (log t).

(** [len(m)] of a map; the nil map has length 0. *)
Definition lenMap (m : GoMap) : Z :=
  match m with
  | None => 0
  | Some o => Z.of_nat (size o)
  end.

Section CommandLine.

Context `{codec : JSONCodec}.

(** [buildCommand]: the arguments of the child, and the transport
    afterwards: in string mode the first message of the prompt stream is
    taken from it.  Each [if c { cmd = append(cmd, args...) }] appends
    [args] or nothing. *)
Definition buildCommand (t : SubprocessCLITransport)
  : SubprocessCLITransport * list string :=
  let o := options t in
  let cmd := ["--output-format"; "stream-json"; "--verbose"] in
  let cmd := (cmd ++ if negb (String.eqb (SystemPrompt o) "")
                     then ["--system-prompt"; SystemPrompt o] else [])%list in
  let cmd := (cmd ++ if negb (String.eqb (AppendSystemPrompt o) "")
                     then ["--append-system-prompt"; AppendSystemPrompt o] else [])%list in
  let cmd := (cmd ++ if Z.of_nat (length (AllowedTools o)) >? 0
                     then ["--allowedTools"; Go.Join (AllowedTools o) ","] else [])%list in
  let cmd := (cmd ++ match MaxTurns o with
                     | Some n => ["--max-turns"; Go.itoa n]
                     | None => []
                     end)%list in
  let cmd := (cmd ++ if Z.of_nat (length (DisallowedTools o)) >? 0
                     then ["--disallowedTools"; Go.Join (DisallowedTools o) ","]
                     else [])%list in
  let cmd := (cmd ++ if negb (String.eqb (Model o) "")
                     then ["--model"; Model o] else [])%list in
  let cmd := (cmd ++ if negb (String.eqb (PermissionPromptToolName o) "")
                     then ["--permission-prompt-tool"; PermissionPromptToolName o]
                     else [])%list in
  let cmd := (cmd ++ if negb (String.eqb (PermissionMode o) "")
                     then ["--permission-mode"; PermissionMode o] else [])%list in
  let cmd := (cmd ++ if ContinueConversation o then ["--continue"] else [])%list in
  let cmd := (cmd ++ if negb (String.eqb (Resume o) "")
                     then ["--resume"; Resume o] else [])%list in
  let cmd := (cmd ++ if lenMap (MCPServers o) >? 0
                     then
                       let mcpConfig := Some (<["mcpServers" := VMap (MCPServers o)]> ∅) in
                       let configJSON := match json_Marshal mcpConfig with
                                         | inl data => data
                                         | inr _ => ""
                                         end in
                       ["--mcp-config"; configJSON]
                     else [])%list in
  if isStreaming t then (t, (cmd ++ ["--input-format"; "stream-json"])%list)
  else
    match prompt t with
    | nilStream => (t, cmd)
    | p =>
        let '(p', (msg, err)) := MessageStream_Next p in
        let t := set_prompt p' t in
        match err, msg with
        | None, Some _ =>
            match Go.indexMap msg "message" with
            | Some message =>
                match Go.indexString message "content" with
                | Some content => (t, (cmd ++ ["--print"; content])%list)
                | None => (t, cmd)
                end
            | None => (t, cmd)
            end
        | _, _ => (t, cmd)
        end
    end.

(** The arguments [buildCommand] collects from the options, before it
    turns to the prompt: those of the same transport in string mode
    without a prompt stream. *)
Definition optionArgs (t : SubprocessCLITransport) : list string :=
  snd (buildCommand (WithStreaming false (set_prompt nilStream t))).

End CommandLine.

(** The prompt stream [buildCommand] leaves: untouched in streaming mode,
    advanced by one message in string mode. *)
Definition promptAfterCommand (t : SubprocessCLITransport) : MessageStream :=
  if isStreaming t then prompt t
  else match prompt t with
       | nilStream => nilStream
       | p => fst (MessageStream_Next p)
       end.

(** What [os.Stat] reports about a path. *)
Inductive StatResult : Type :=
| StatOK
| StatNotExist
| StatError.

(** The operating system as [findCLI] and [Connect] consult it:
    [os.Getenv], [os.Stat], [exec.LookPath] ([None] when it fails),
    [os.UserHomeDir] (the empty string when it fails), [runtime.GOOS] and
    the platform's [filepath.Join]. *)
Record OS : Type := MkOS {
  Getenv : string -> string;
  Stat : string -> StatResult;
  LookPath : string -> option string;
  UserHomeDir : string;
  GOOS : string;
  filepath_Join : list string -> string
}.

Definition statOK (os : OS) (path : string) : bool :=
  match Stat os path with
  | StatOK => true
  | _ => false
  end.

Definition isNotExist (os : OS) (path : string) : bool :=
  match Stat os path with
  | StatNotExist => true
  | _ => false
  end.

Definition nodeMissingMessage : string :=
  "Claude Code requires Node.js, which is not installed." +:+ Go.newline +:+ Go.newline
  +:+ "Install Node.js from: https://nodejs.org/" +:+ Go.newline
  +:+ Go.newline +:+ "After installing Node.js, install Claude Code:" +:+ Go.newline
  +:+ "  npm install -g @anthropic-ai/claude-code".

Definition cliMissingMessage : string :=
  "Claude Code not found. Install with:" +:+ Go.newline
  +:+ "  npm install -g @anthropic-ai/claude-code" +:+ Go.newline
  +:+ Go.newline +:+ "If already installed locally, try:" +:+ Go.newline
  +:+ "  export PATH=" +:+ MiniJSON.q "$HOME/node_modules/.bin:$PATH" +:+ Go.newline
  +:+ Go.newline +:+ "Or specify the path when creating transport:" +:+ Go.newline
  +:+ "  transport.WithCLIPath('/path/to/claude')".

(** The common installation paths [findCLI] tries, in order. *)
Definition locations (os : OS) : list string :=
  let home := UserHomeDir os in
  let locations :=
    [filepath_Join os [home; ".npm-global"; "bin"; "claude"];
     "/usr/local/bin/claude";
     filepath_Join os [home; ".local"; "bin"; "claude"];
     filepath_Join os [home; "node_modules"; ".bin"; "claude"];
     filepath_Join os [home; ".yarn"; "bin"; "claude"]] in
  if String.eqb (GOOS os) "windows"
  then
    let appData := Getenv os "APPDATA" in
    if negb (String.eqb appData "")
    then (locations ++ [filepath_Join os [appData; "npm"; "claude"];
                        filepath_Join os [appData; "npm"; "cmd"]])%list
    else locations
  else locations.

(** [findCLI]. *)
Definition findCLI (os : OS) : string + error :=
  let path := Getenv os "CLAUDE_CODE_CLI_PATH" in
  if negb (String.eqb path "")
  then
    if statOK os path then inl path
    else inr (NewCLINotFoundError "Claude Code not found at CLAUDE_CODE_CLI_PATH" path)
  else
    match LookPath os "claude" with
    | Some path => inl path
    | None =>
        match List.find (statOK os) (locations os) with
        | Some path => inl path
        | None =>
            match LookPath os "node" with
            | None => inr (NewCLINotFoundError nodeMissingMessage "")
            | Some _ => inr (NewCLINotFoundError cliMissingMessage "")
            end
        end
    end.

(** What [Connect] meets when it prepares and starts the child: the
    operating system, the errors of the three pipe calls and of [Start]
    (nil when they succeed), and what the child will write. *)
Record ConnectEnv : Type := MkConnectEnv {
  os : OS;
  stdinPipeErr : option error;
  stdoutPipeErr : option error;
  stderrPipeErr : option error;
  startErr : option error;
  childStdout : Reader;
  childStderr : Reader
}.

Section Connecting.

Context `{codec : JSONCodec}.

(** [Connect], up to its return; [ctx] is [ctx.Err()] of the caller's
    context.  The arguments [buildCommand] returns go into the command,
    of which the model keeps the process state only.  The goroutines
    [Connect] starts are the pumps above ([handleStdin], [streamToStdin],
    [readOutput], [readStderr]) and [Connect_closeOutChan]. *)
Definition Connect (env : ConnectEnv) (ctx : option error) (t : SubprocessCLITransport)
  : result (option error) :=
  if connected t
  then Returned t (Some (NewCLIConnectionError "Already connected"))
  else
    let found :=
      if String.eqb (cliPath t) ""
      then match findCLI (os env) with
           | inl cliPath => inl (WithCLIPath cliPath t)
           | inr err => inr err
           end
      else inl t in
    match found with
    | inr err => Returned t (Some err)
    | inl t =>
        let t := set_ctx (match ctx with Some _ => true | None => false end) t in
        let '(t, _) := buildCommand t in
        let t := set_cmd (Some (MkCmd None)) t in
        match stdinPipeErr env with
        | Some err =>
            Returned (set_stdin None t) (Some (Errorf "failed to create stdin pipe: " err))
        | None =>
            let t := set_stdin (Some Go.make) t in
            match stdoutPipeErr env with
            | Some err =>
                Returned (set_stdout None t)
                  (Some (Errorf "failed to create stdout pipe: " err))
            | None =>
                let t := set_stdout (Some (childStdout env)) t in
                match stderrPipeErr env with
                | Some err =>
                    Returned (set_stderr None t)
                      (Some (Errorf "failed to create stderr pipe: " err))
                | None =>
                    let t := set_stderr (Some (childStderr env)) t in
                    match startErr env with
                    | Some err =>
                        if negb (String.eqb (Cwd (options t)) "")
                           && isNotExist (os env) (Cwd (options t))
                        then Returned t
                               (Some (NewCLIConnectionError
                                        ("Working directory does not exist: "
                                           +:+ Cwd (options t))))
                        else if isNotExist (os env) (cliPath t)
                        then Returned t
                               (Some (NewCLINotFoundError
                                        ("Claude Code not found at: " +:+ cliPath t)
                                        (cliPath t)))
                        else Returned t
                               (Some (NewProcessError "Failed to start Claude Code" 0
                                        (Error err)))
                    | None =>
                        let t := set_connected true t in
                        let t := set_outChan (Some Go.make) t in
                        let t := if isStreaming t
                                 then set_stdinChan (Some Go.make) t
                                 else add_log EffCloseStdin (set_stdin None t) in
                        Returned t None
                    end
                end
            end
        end
    end.

End Connecting.

(** The transport after a call of [Connect], resp. [Disconnect]; a call
    that does not return leaves no transport to go on with, and the one
    before it stands in. *)
Definition afterConnect `{codec : JSONCodec} (env : ConnectEnv) (ctx : option error)
    (t : SubprocessCLITransport) : SubprocessCLITransport :=
  match Connect env ctx t with
  | Returned t' _ => t'
  | _ => t
  end.

Definition afterDisconnect (env : ProcessExit) (t : SubprocessCLITransport)
  : SubprocessCLITransport :=
  match Disconnect env t with
  | Returned t' _ => t'
  | _ => t
  end.

(** The life of a transport that is connected and disconnected several
    times, with control requests in between. *)
Inductive LifeEvent : Type :=
| LifeConnect (env : ConnectEnv) (ctx : option error)
| LifeDisconnect (env : ProcessExit)
| LifeRequest (now : Z) (request : GoMap).

Definition lifeStep `{codec : JSONCodec} (ev : LifeEvent) : SessionEvent :=
  match ev with
  | LifeConnect env ctx => OtherStep (afterConnect env ctx)
  | LifeDisconnect env => OtherStep (afterDisconnect env)
  | LifeRequest now request => IssueRequest now request
  end.

(** ** Example environments *)

(** A Unix system on which the CLI is installed at /usr/local/bin/claude
    and is not on the search path. *)
Definition unixOS : OS :=
  MkOS (fun _ => "")
    (fun path => if String.eqb path "/usr/local/bin/claude" then StatOK else StatNotExist)
    (fun _ => None)
    "/home/user"
    "linux"
    (fun elems => Go.Join elems "/").

(** The child starts; it writes nothing. *)
Definition startsFine : ConnectEnv :=
  MkConnectEnv unixOS None None None None (MkReader "" None) (MkReader "" None).

(** [Start] fails. *)
Definition startFails : ConnectEnv :=
  MkConnectEnv unixOS None None None (Some (ErrorString "fork/exec: exec format error"))
    (MkReader "" None) (MkReader "" None).

(** A transport for the string prompt "hello", never connected. *)
Definition helloTransport : SubprocessCLITransport :=
  NewSubprocessCLITransport (NewStringPromptStream "hello") None.

(** The same after [Connect] has started the child in [startsFine]: the
    CLI was found at its common location, the prompt was taken for the
    command line, the input stream was closed and dropped. *)
Definition helloConnected : SubprocessCLITransport :=
  MkTransport (stringPromptStream (MkStringPrompt "hello" true)) NewOptions
    "/usr/local/bin/claude" false (Some (MkCmd None)) None
    (Some (MkReader "" None)) (Some (MkReader "" None)) None (Some Go.make)
    ∅ 0 true false "default" true false [EffCloseStdin].

(** [connectedStreaming] after [Disconnect], the child having exited with
    status 0 in time. *)
Definition disconnectedStreaming : SubprocessCLITransport :=
  MkTransport (scriptedStream []) NewOptions "/usr/local/bin/claude" false
    (Some (MkCmd (Some 0))) (Some (MkChan [] true))
    (Some (MkReader "" None)) (Some (MkReader "" None))
    (Some (MkChan [] true)) (Some Go.make) ∅ 0 false true "default" true true
    [EffCancel; EffCloseStdinChan; EffCloseStdin; EffWait; EffWaitTaskGroup].

(** The same, switched to string mode and connected again in
    [startsFine]. *)
Definition reconnectedString : SubprocessCLITransport :=
  MkTransport (scriptedStream []) NewOptions "/usr/local/bin/claude" false
    (Some (MkCmd None)) None
    (Some (MkReader "" None)) (Some (MkReader "" None))
    (Some (MkChan [] true)) (Some Go.make) ∅ 0 true false "default" true false
    [EffCancel; EffCloseStdinChan; EffCloseStdin; EffWait; EffWaitTaskGroup;
     EffCloseStdin].

(** [helloTransport] after a [Connect] in [startFails]. *)
Definition helloFailed : SubprocessCLITransport :=
  MkTransport (stringPromptStream (MkStringPrompt "hello" true)) NewOptions
    "/usr/local/bin/claude" false (Some (MkCmd None)) (Some Go.make)
    (Some (MkReader "" None)) (Some (MkReader "" None)) None None
    ∅ 0 false false "default" true false [].

(** A transport for the string prompt "test" with the CLI path of the
    test [TestSubprocessCLITransport_CLINotFound]. *)
Definition cliNotThere : SubprocessCLITransport :=
  WithCLIPath "/nonexistent/path/to/claude"
    (NewSubprocessCLITransport (NewStringPromptStream "test") None).

(** ** More about runs of the pumps *)

(** The lines among the events of the stderr collector, in order. *)
Fixpoint eventLines (events : list StderrEvent) : list string :=
  match events with
  | [] => []
  | EvLine line :: rest => line :: eventLines rest
  | _ :: rest => eventLines rest
  end.

Definition isEvDone (ev : StderrEvent) : bool :=
  match ev with
  | EvDone => true
  | _ => false
  end.

(** The stdout reader handles one fragment, starting from an empty
    accumulator, while another goroutine waits. *)
Definition readerStep `{codec : JSONCodec} (line : string) (t : SubprocessCLITransport)
  : SubprocessCLITransport :=
  fst (readOutput_fragment (t, "") line).

(** What happens while a control request waits leaves the entry of the
    pending table under [requestID] alone. *)
Definition keepsEntry (requestID : string) (ev : WaitEvent) : Prop :=
  match ev with
  | Concurrent step =>
      forall t, pendingControlResponses (step t) !! requestID
                = pendingControlResponses t !! requestID
  | _ => True
  end.

(** A line of stderr one byte over the size limit. *)
Definition hugeStderrLine : string := Go.Repeat "x" (Z.to_nat (maxStderrSize + 1)).


(** The child writes the record [{}]; then the read fails because the
    pipe was closed. *)
Definition recordThenReadError : SubprocessCLITransport :=
  set_stdout (Some (MkReader ("{}" +:+ Go.newline) (Some ErrClosed))) connectedStreaming.

(** ** Package claude: messages, their parsing, and the client *)

Module Claude.

(** [v, ok := m[k].(bool)], [.(float64)] and [.([]any)].  A number of a
    decoded record is a [float64]; [VNum z] is the one whose value is the
    integer [z]. *)
Definition indexBool (m : GoMap) (k : string) : option bool :=
  match Go.index m k with
  | Some (VBool b) => Some b
  | _ => None
  end.

Definition indexFloat64 (m : GoMap) (k : string) : option Z :=
  match Go.index m k with
  | Some (VNum z) => Some z
  | _ => None
  end.

Definition indexSlice (m : GoMap) (k : string) : option (list Value) :=
  match Go.index m k with
  | Some (VArr l) => Some l
  | _ => None
  end.

(** The content blocks (types.go); [Content] of a tool result is an
    [any], nil when the key is missing. *)
Inductive ContentBlock : Type :=
| TextBlock (Text : string)
| ToolUseBlock (ID Name : string) (Input : GoMap)
| ToolResultBlock (ToolUseID : string) (Content : Value) (IsError : option bool).

(** The messages (types.go). *)
Inductive Message : Type :=
| UserMessage (Content : string)
| AssistantMessage (Content : list ContentBlock)
| SystemMessage (Subtype : string) (Data : GoMap)
| ResultMessage (Subtype : string) (DurationMS DurationAPIMS : Z) (IsError : bool)
    (NumTurns : Z) (SessionID : string) (TotalCostUSD : option Z) (Usage : GoMap)
    (Result : option string).

(** [parseContentBlock]. *)
Definition parseContentBlock (data : Value) : ContentBlock + error :=
  match data with
  | VMap blockData =>
      match Go.indexString blockData "type" with
      | None => inr (ErrorString "missing content block type")
      | Some blockType =>
          if String.eqb blockType "text" then
            match Go.indexString blockData "text" with
            | Some text => inl (TextBlock text)
            | None => inr (ErrorString "invalid text block content")
            end
          else if String.eqb blockType "tool_use" then
            inl (ToolUseBlock (default "" (Go.indexString blockData "id"))
                   (default "" (Go.indexString blockData "name"))
                   (default None (Go.indexMap blockData "input")))
          else if String.eqb blockType "tool_result" then
            inl (ToolResultBlock (default "" (Go.indexString blockData "tool_use_id"))
                   (default VNil (Go.index blockData "content"))
                   (indexBool blockData "is_error"))
          else inr (ErrorString ("unknown content block type: " +:+ blockType))
      end
  | _ => inr (ErrorString "invalid content block format")
  end.

(** [parseUserMessage]. *)
Definition parseUserMessage (data : GoMap) : Message + error :=
  match Go.indexString data "content" with
  | Some content => inl (UserMessage content)
  | None => inr (ErrorString "invalid user message content")
  end.

(** The loop of [parseAssistantMessage]: the blocks parsed so far, and
    the items still to parse. *)
Fixpoint parseContentBlocks (content : list ContentBlock) (contentData : list Value)
  : list ContentBlock + error :=
  match contentData with
  | [] => inl content
  | item :: rest =>
      match parseContentBlock item with
      | inr err => inr err
      | inl block => parseContentBlocks (content ++ [block]) rest
      end
  end.

(** [parseAssistantMessage]. *)
Definition parseAssistantMessage (data : GoMap) : Message + error :=
  match indexSlice data "content" with
  | None => inr (ErrorString "invalid assistant message content")
  | Some contentData =>
      match parseContentBlocks [] contentData with
      | inr err => inr err
      | inl content => inl (AssistantMessage content)
      end
  end.

(** [parseSystemMessage]. *)
Definition parseSystemMessage (data : GoMap) : Message :=
  SystemMessage (default "" (Go.indexString data "subtype"))
    (default None (Go.indexMap data "data")).

Section Parsing.

(** What the platform makes of [int(val)] for a [float64] outside the
    range of [int]; the language leaves it open. *)
Variable intOutOfRange : Z -> Z.

(** [int(val)] for a [float64] whose value is an integer. *)
Definition intOfFloat64 (val : Z) : Z :=
  if (- 2 ^ 63 <=? val) && (val <? 2 ^ 63) then val else intOutOfRange val.

(** [parseResultMessage]. *)
Definition parseResultMessage (data : GoMap) : Message :=
  ResultMessage
    (default "" (Go.indexString data "subtype"))
    (match indexFloat64 data "duration_ms" with
     | Some val => intOfFloat64 val
     | None => 0
     end)
    (match indexFloat64 data "duration_api_ms" with
     | Some val => intOfFloat64 val
     | None => 0
     end)
    (default false (indexBool data "is_error"))
    (match indexFloat64 data "num_turns" with
     | Some val => intOfFloat64 val
     | None => 0
     end)
    (default "" (Go.indexString data "session_id"))
    (indexFloat64 data "total_cost_usd")
    (default None (Go.indexMap data "usage"))
    (Go.indexString data "result").

(** [parseMessage]. *)
Definition parseMessage (data : GoMap) : Message + error :=
  match Go.indexString data "type" with
  | None => inr (ErrorString "missing or invalid message type")
  | Some msgType =>
      if String.eqb msgType "user" then parseUserMessage data
      else if String.eqb msgType "assistant" then parseAssistantMessage data
      else if String.eqb msgType "system" then inl (parseSystemMessage data)
      else if String.eqb msgType "result" then inl (parseResultMessage data)
      else inr (ErrorString ("unknown message type: " +:+ msgType))
  end.

End Parsing.

(** [MessageResult] wraps a message or an error. *)
Module MessageResult.
Record t : Type := Mk { Message : option Claude.Message; Error : option error }.
End MessageResult.


(** The struct [Client], as far as the methods below read it: the
    transport, nil until [Connect] has set it. *)
Record Client : Type := MkClient { transport : option SubprocessCLITransport }.

(** How a call of a client method ends. *)
Inductive clientResult (A : Type) : Type :=
| Done (c : Client) (a : A)
| Hangs (c : Client)
| Panics (msg : string).
Arguments Done {A} c a.
Arguments Hangs {A} c.
Arguments Panics {A} msg.

(** The prompt argument of [Query], an [any], by its dynamic type. *)
Inductive Prompt : Type :=
| PromptString (p : string)
| PromptStream (m : MessageStream)
| PromptOther.

(** The record [Client.Query] builds for a string prompt. *)
Definition userRecord (p sessionID : string) : GoMap :=
  Some (<["type" := VStr "user"]>
          (<["message" := VMap (Some (<["role" := VStr "user"]>
                                        (<["content" := VStr p]> ∅)))]>
             (<["parent_tool_use_id" := VNil]>
                (<["session_id" := VStr sessionID]> ∅)))).

(** The loop of [Client.Query] over a message stream: the messages
    collected so far and, when the stream has ended or failed, the
    outcome; [fuel] bounds the number of calls of [Next], and the loop is
    still reading ([None]) when it is used up. *)
Fixpoint collectMessages (fuel : nat) (p : MessageStream) (sessionID : string)
    (messages : list GoMap) : option (list GoMap + error) :=
  match fuel with
  | O => None
  | S fuel =>
      let '(p', (msg, err)) := MessageStream_Next p in
      match err with
      | Some err => Some (inr err)
      | None =>
          match msg with
          | None => Some (inl messages)
          | Some o =>
              collectMessages fuel p' sessionID
                (messages ++ [Some (withSessionID sessionID o)])
          end
      end
  end.

Section Calls.

Context `{codec : JSONCodec}.

Definition ofTransport {A : Type} (r : result A) : clientResult A :=
  match r with
  | Returned t a => Done (MkClient (Some t)) a
  | Blocked t => Hangs (MkClient (Some t))
  | Panicked m => Panics m
  end.

(** [Client.Query].  The error of the [default] case is an [SDKError],
    an error value that is its message. *)
Definition Query (c : Client) (ctx : option error) (prompt : Prompt)
    (sessionID : string) (fuel : nat) : clientResult (option error) :=
  match transport c with
  | None => Done c (Some (NewCLIConnectionError "Not connected. Call Connect() first."))
  | Some t =>
      match prompt with
      | PromptString p =>
          ofTransport
            (SendRequest t ctx [userRecord p sessionID]
               (Some (<["session_id" := VStr sessionID]> ∅)))
      | PromptStream nilStream | PromptOther =>
          Done c (Some (ErrorString "prompt must be a string or MessageStream"))
      | PromptStream p =>
          match collectMessages fuel p sessionID [] with
          | None => Hangs c
          | Some (inr err) => Done c (Some err)
          | Some (inl messages) =>
              if Z.of_nat (length messages) >? 0
              then ofTransport
                     (SendRequest t ctx messages
                        (Some (<["session_id" := VStr sessionID]> ∅)))
              else Done c None
          end
      end
  end.

End Calls.

Section Receiving.

Variable intOutOfRange : Z -> Z.

(** The goroutine of [Client.ReceiveMessages], run on the messages the
    transport's channel yields: what it sends before it closes its
    channel. *)
Fixpoint receiveLoop (received : list MessageData) : list MessageResult.t :=
  match received with
  | [] => []
  | data :: rest =>
      match Err data with
      | Some err => [MessageResult.Mk None (Some err)]
      | None =>
          match parseMessage intOutOfRange (Data data) with
          | inr err => [MessageResult.Mk None (Some err)]
          | inl msg => MessageResult.Mk (Some msg) None :: receiveLoop rest
          end
      end
  end.

(** [Client.ReceiveMessages]: what the channel it returns yields, given
    what the transport's channel yields. *)
Definition ReceiveMessages (c : Client) (received : list MessageData)
  : list MessageResult.t :=
  match transport c with
  | None =>
      [MessageResult.Mk None
         (Some (NewCLIConnectionError "Not connected. Call Connect() first."))]
  | Some _ => receiveLoop received
  end.



End Receiving.

End Claude.
(** ** Strings *)

Lemma append_String (x : ascii) (a b : string) : String x a +:+ b = String x (a +:+ b).
Proof. reflexivity. Qed.

Lemma append_empty (b : string) : "" +:+ b = b.
Proof. reflexivity. Qed.

Lemma append_empty_r (a : string) : a +:+ "" = a.
Proof. induction a as [|x a IH]; [reflexivity|]. now rewrite append_String, IH. Qed.

Create Rewrite HintDb gostring.
#[export] Hint Rewrite append_String append_empty append_empty_r : gostring.

Lemma len_append (a b : string) : Go.len (a +:+ b) = Go.len a + Go.len b.
Proof.
  unfold Go.len. induction a as [|x a IH]; [reflexivity|].
  rewrite append_String. cbn [String.length]. lia.
Qed.

Lemma len_nonneg (s : string) : 0 <= Go.len s.
Proof. unfold Go.len. lia. Qed.

(** Turns the outcome [H] of a test [a >? b] into an inequality. *)
Ltac gtb_prop H :=
  rewrite Z.gtb_ltb in H;
  first [apply Z.ltb_lt in H | apply Z.ltb_ge in H].

(** ** The string prompt adapter and the constructor *)

(** C9: for every string [p], the first [Next] on [NewStringPromptStream p]
    yields the user record with content [p] and no error, and every later
    [Next] yields nil with [io.EOF]. *)
Theorem string_prompt_stream_yields_once (p : string) (n : nat) :
  MessageStream_calls (S n) (NewStringPromptStream p) =
    (Some (<["type" := VStr "user"]>
             (<["message" := VMap (Some (<["role" := VStr "user"]>
                                           (<["content" := VStr p]> ∅)))]> ∅)),
     None)
    :: repeat (None, Some EOF) n.
Proof.
  cbn [MessageStream_calls NewStringPromptStream MessageStream_Next
       stringPromptAdapter_Next sp_sent sp_prompt].
  f_equal.
  induction n as [|n IH]; [reflexivity|].
  cbn [MessageStream_calls MessageStream_Next stringPromptAdapter_Next sp_sent repeat].
  now rewrite IH.
Qed.

(** C10: [NewSubprocessCLITransport] accepts the nil options pointer and
    puts the default options in its place; with or without options the new
    transport has session id "default", no pending control response, and is
    streaming exactly when the prompt is not a string prompt adapter. *)
Theorem new_transport_defaults (p : MessageStream) (o : option Options) :
  let t := NewSubprocessCLITransport p o in
  options t = default NewOptions o
  /\ options (NewSubprocessCLITransport p None) = NewOptions
  /\ sessionID t = "default"
  /\ pendingControlResponses t = ∅
  /\ isStreaming t = negb (IsStringPrompt p)
  /\ (isStreaming t = true <-> forall s, p <> stringPromptStream s).
Proof.
  cbn. repeat split; try (destruct o; reflexivity).
  - intros H s ->. discriminate.
  - intros H. destruct p as [|s|r]; try reflexivity. now destruct (H s).
Qed.

(** ** Disconnect *)

Lemma Disconnect_disconnected (env : ProcessExit) (t : SubprocessCLITransport) :
  connected t = false -> Disconnect env t = Returned t None.
Proof. intros H. unfold Disconnect. now rewrite H. Qed.

Lemma Disconnect_returns (env : ProcessExit) (t t1 : SubprocessCLITransport)
    (e1 : option error) :
  Disconnect env t = Returned t1 e1 ->
  e1 = None /\ connected t1 = false /\ outChan t1 = outChan t
  /\ outChanCloses t1 = outChanCloses t.
Proof.
  destruct t as [pr op cp cs cm si so se sc oc pe rc co st sid ca cd lg].
  unfold Disconnect; cbn [connected].
  destruct co; cbn [negb].
  - destruct ca, sc as [[q [|]]|], si as [p|], cm as [k|], env;
      cbn; try discriminate; intros [= <- <-]; repeat split;
      unfold outChanCloses; cbn; rewrite ?List.filter_app, ?List.length_app;
      cbn; rewrite ?Nat.add_0_r; reflexivity.
  - intros [= <- <-]. auto.
Qed.

Lemma Connect_closeOutChan_returns (t t1 : SubprocessCLITransport) (u : unit) :
  Connect_closeOutChan t = Returned t1 u ->
  outChan t1 = None
  /\ outChanCloses t1 = (outChanCloses t + match outChan t with Some _ => 1 | None => 0 end)%nat.
Proof.
  destruct t as [pr op cp cs cm si so se sc oc pe rc co st sid ca cd lg].
  unfold Connect_closeOutChan. cbn [outChan add_log cmd].
  destruct cm as [k|], oc as [[q [|]]|]; cbn; try discriminate; intros [= <- <-];
    (split; [reflexivity|]);
    unfold outChanCloses; cbn; rewrite ?List.filter_app, ?List.length_app; cbn; lia.
Qed.

Lemma teardown_closes (steps : list TeardownStep) :
  forall t t' u, teardown steps t = Returned t' u ->
    (outChanCloses t' = outChanCloses t + match outChan t with Some _ => 1 | None => 0 end)%nat
    \/ outChanCloses t' = outChanCloses t.
Proof.
  induction steps as [|s steps IH]; intros t t' u.
  - cbn. intros [= <- <-]. now right.
  - destruct s as [env|]; cbn [teardown].
    + destruct (Disconnect env t) as [t1 e1| |] eqn:Hd; try discriminate.
      apply Disconnect_returns in Hd as (_ & _ & Ho & Hn).
      intros H. apply IH in H. rewrite Ho, Hn in H. exact H.
    + destruct (Connect_closeOutChan t) as [t1 u1| |] eqn:Hd; try discriminate.
      apply Connect_closeOutChan_returns in Hd as [Ho Hn].
      intros H. apply IH in H. rewrite Ho, Hn in H.
      destruct (outChan t); [left|right]; destruct H as [H|H]; lia.
Qed.

(** C8: [Disconnect] on a transport that is not connected returns nil and
    changes nothing, so after a first [Disconnect] has returned a second one
    returns nil without any teardown; and however calls of [Disconnect] and
    the closing goroutine follow each other, the output channel is closed at
    most once. *)
Theorem Disconnect_idempotent (env1 env2 : ProcessExit) (t : SubprocessCLITransport) :
  (connected t = false -> Disconnect env1 t = Returned t None)
  /\ (forall t1 e1, Disconnect env1 t = Returned t1 e1 ->
        e1 = None /\ Disconnect env2 t1 = Returned t1 None)
  /\ (forall steps t', teardown steps t = Returned t' tt ->
        (outChanCloses t' <= outChanCloses t + 1)%nat).
Proof.
  split; [apply Disconnect_disconnected|]. split.
  - intros t1 e1 H. apply Disconnect_returns in H as (-> & Hc & _).
    split; [reflexivity|]. now apply Disconnect_disconnected.
  - intros steps t' H. apply teardown_closes in H.
    destruct (outChan t); lia.
Qed.

Lemma Disconnect_idempotent_witness :
  exists t1,
    Disconnect (ExitsInTime 0) connectedStreaming = Returned t1 None
    /\ Disconnect (NeedsKill 1) t1 = Returned t1 None
    /\ outChanCloses t1 = 0%nat.
Proof.
  eexists. split; [reflexivity|]. split; [|reflexivity].
  exact (proj2 (proj1 (proj2 (Disconnect_idempotent (ExitsInTime 0) (NeedsKill 1)
                                 connectedStreaming)) _ _ eq_refl)).
Defined.

(** ** The stderr collector *)

Lemma safeSend_delivering (t : SubprocessCLITransport) (c : chan MessageData)
    (m : MessageData) :
  outChan t = Some c -> ctxDone t = false ->
  safeSend t m = (set_outChan (Some (MkChan (sent c ++ [m]) (closed c))) t, true).
Proof. intros Ho Hd. unfold safeSend. now rewrite Ho, Hd. Qed.

Lemma delivered_safeSend (t : SubprocessCLITransport) (m : MessageData) :
  delivered (fst (safeSend t m)) = delivered t
  \/ delivered (fst (safeSend t m)) = (delivered t ++ [m])%list.
Proof.
  unfold safeSend.
  destruct (outChan t) as [c|] eqn:Ho; [|now left].
  destruct (ctxDone t); [now left|right].
  unfold delivered. cbn. now rewrite Ho.
Qed.

Lemma processErrors_safeSend (t : SubprocessCLITransport) (m : MessageData) :
  isProcessErrorMessage m = false ->
  processErrors (fst (safeSend t m)) = processErrors t.
Proof.
  intros Hm. unfold processErrors.
  destruct (delivered_safeSend t m) as [-> | ->]; [reflexivity|].
  rewrite List.filter_app. cbn. rewrite Hm. apply app_nil_r.
Qed.

Lemma processStderr_zero_exit (t : SubprocessCLITransport) (lines : list string) :
  exitCodeNow t = 0 -> processStderr t lines = t.
Proof.
  intros H. unfold processStderr. rewrite H. now destruct lines.
Qed.

Lemma readStderr_drain_zero_exit (t : SubprocessCLITransport) (events : list StderrEvent) :
  exitCodeNow t = 0 ->
  forall acc, fst (readStderr_drain t acc events) = t.
Proof.
  intros H. induction events as [|ev events IH]; intros acc; [reflexivity|].
  destruct ev; cbn [readStderr_drain fst]; try apply IH.
  destruct acc; [reflexivity|]. now apply processStderr_zero_exit.
Qed.

Lemma readStderr_loop_zero_exit (t : SubprocessCLITransport) (events : list StderrEvent) :
  exitCodeNow t = 0 ->
  forall acc size, fst (readStderr_loop t acc size events) = t.
Proof.
  intros H. induction events as [|ev events IH]; intros acc size; [reflexivity|].
  destruct ev; cbn [readStderr_loop fst].
  - destruct (size + Go.len line >? maxStderrSize).
    + now apply readStderr_drain_zero_exit.
    + apply IH.
  - destruct acc; [reflexivity|]. now apply processStderr_zero_exit.
  - now apply processStderr_zero_exit.
  - reflexivity.
Qed.

Section StdoutReaderEmits.

Context `{codec : JSONCodec}.

Lemma processErrors_fragment (t : SubprocessCLITransport) (buf frag : string) :
  processErrors (fst (readOutput_fragment (t, buf) frag)) = processErrors t.
Proof.
  unfold readOutput_fragment.
  destruct (String.eqb (Go.TrimSpace frag) ""); [reflexivity|].
  destruct (Go.len (buf +:+ Go.TrimSpace frag) >? maxBufferSize).
  - cbn [fst]. now apply processErrors_safeSend.
  - destruct (json_Unmarshal (buf +:+ Go.TrimSpace frag)) as [data|e]; [|reflexivity].
    destruct (isControlResponse data).
    + destruct (Go.indexMap data "response") as [response|]; [|reflexivity].
      destruct (Go.indexString response "request_id"); reflexivity.
    + cbn [fst]. now apply processErrors_safeSend.
Qed.

Lemma processErrors_fragments (frags : list string) :
  forall st, processErrors (fst (fold_left readOutput_fragment frags st))
             = processErrors (fst st).
Proof.
  induction frags as [|f frags IH]; intros [t buf]; [reflexivity|].
  cbn [fold_left]. rewrite IH.
  apply processErrors_fragment.
Qed.

Lemma processErrors_lines (lines : list string) :
  forall st, processErrors (fst (fold_left readOutput_line lines st))
             = processErrors (fst st).
Proof.
  induction lines as [|l lines IH]; intros st; [reflexivity|].
  cbn [fold_left]. rewrite IH. unfold readOutput_line.
  destruct (String.eqb l ""); [reflexivity|].
  apply processErrors_fragments.
Qed.

Lemma processErrors_readOutput (t : SubprocessCLITransport) :
  processErrors (readOutput t) = processErrors t.
Proof.
  unfold readOutput.
  destruct (Scanner.run maxBufferSize _) as [lines err].
  pose proof (processErrors_lines lines (t, "")) as H.
  destruct (fold_left readOutput_line lines (t, "")) as [t' buf'].
  cbn [fst] in H.
  destruct err as [e|]; [|exact H].
  destruct e; try exact H; cbn [fst];
    (rewrite processErrors_safeSend; [exact H | reflexivity]).
Qed.

(** C3: with exit code zero the stderr collector leaves the transport as
    it was, whatever it receives and however much stderr it captured, so
    it emits nothing; and the stdout reader never emits a [ProcessError].
    No [ProcessError] reaches the output channel. *)
Theorem zero_exit_emits_no_process_error (t : SubprocessCLITransport)
    (events : list StderrEvent) :
  exitCodeNow t = 0 ->
  fst (readStderr t events) = t
  /\ processErrors (fst (readStderr t events)) = processErrors t
  /\ processErrors (readOutput t) = processErrors t.
Proof.
  intros H.
  assert (fst (readStderr t events) = t) as E
    by now apply readStderr_loop_zero_exit.
  rewrite E. split; [reflexivity|]. split; [reflexivity|].
  apply processErrors_readOutput.
Qed.

End StdoutReaderEmits.

Lemma zero_exit_emits_no_process_error_witness :
  fst (readStderr exitedZero [EvLine "warning: deprecated flag"; EvLine ""; EvDone])
    = exitedZero
  /\ processErrors
       (fst (readStderr exitedZero [EvLine "warning: deprecated flag"; EvLine ""; EvDone]))
     = processErrors exitedZero
  /\ processErrors (readOutput (codec := MiniJSON.codec) exitedZero)
     = processErrors exitedZero.
Proof.
  apply (zero_exit_emits_no_process_error (codec := MiniJSON.codec) exitedZero).
  reflexivity.
Defined.

Lemma totalLen_nonneg (lines : list string) : 0 <= totalLen lines.
Proof.
  induction lines as [|x xs IH]; cbn [totalLen fold_right]; [lia|].
  fold (totalLen xs). pose proof (len_nonneg x). lia.
Qed.

Lemma readStderr_drain_lines (t : SubprocessCLITransport) (lines : list string)
    (rest : list StderrEvent) (acc : list string) :
  readStderr_drain t acc (map EvLine lines ++ EvDone :: rest)
  = (match acc with
     | [] => t
     | _ => processStderr t acc
     end, true).
Proof.
  induction lines as [|l lines IH]; [reflexivity|]. exact IH.
Qed.

Lemma readStderr_loop_lines (t : SubprocessCLITransport) (lines : list string)
    (rest : list StderrEvent) :
  forall acc size,
  exists captured,
    readStderr_loop t acc size (map EvLine lines ++ EvDone :: rest)
    = (match captured with
       | [] => t
       | _ => processStderr t captured
       end, true)
    /\ (captured = [] -> acc = [] /\ lines = [])
    /\ (acc = [] -> lines = [] -> captured = [])
    /\ (size + totalLen lines <= maxStderrSize -> captured = (acc ++ lines)%list).
Proof.
  induction lines as [|l lines IH]; intros acc size.
  - exists acc. cbn. rewrite app_nil_r. repeat split; auto.
  - cbn [map app readStderr_loop totalLen fold_right].
    destruct (size + Go.len l >? maxStderrSize) eqn:Hover.
    + eexists. rewrite readStderr_drain_lines. split; [reflexivity|].
      split; [intros H; now destruct acc|].
      split; [discriminate|].
      pose proof (len_nonneg l). pose proof (totalLen_nonneg lines).
      gtb_prop Hover.
      fold (totalLen lines). lia.
    + destruct (IH (acc ++ [l])%list (size + Go.len l)) as (captured & Hrun & Hnil & _ & Hall).
      exists captured. split; [exact Hrun|].
      split; [intros H; apply Hnil in H as [H _]; now destruct acc|].
      split; [discriminate|].
      intros Hle. fold (totalLen lines) in Hle.
      rewrite Hall by lia. now rewrite <- app_assoc.
Qed.

Lemma processStderr_nonzero (t : SubprocessCLITransport) (c : chan MessageData)
    (l : string) (ls : list string) :
  outChan t = Some c -> ctxDone t = false -> exitCodeNow t <> 0 ->
  processStderr t (l :: ls)
  = set_outChan
      (Some (MkChan
               (sent c ++ [MkMessageData None
                             (Some (NewProcessError
                                      ("Command failed with exit code " +:+ Go.itoa (exitCodeNow t))
                                      (exitCodeNow t) (Go.Join (l :: ls) Go.newline)))])
               (closed c))) t.
Proof.
  intros Ho Hd Hc. unfold processStderr.
  destruct (exitCodeNow t =? 0) eqn:E; [apply Z.eqb_eq in E; contradiction|].
  cbn [negb]. now rewrite (safeSend_delivering t c _ Ho Hd).
Qed.

(** C2, amended: when the error stream ends and the exit code is not zero,
    the stderr collector returns; if it captured at least one line (an empty
    one counts) it has emitted exactly one [ProcessError] with that exit
    code, whose stderr detail is the captured lines joined by newlines as
    long as they fit the size limit; if it captured no line it has emitted
    nothing. *)
Theorem stderr_collector_reports_nonzero_exit (t : SubprocessCLITransport)
    (c : chan MessageData) (lines : list string) (rest : list StderrEvent) :
  outChan t = Some c -> ctxDone t = false -> exitCodeNow t <> 0 ->
  snd (readStderr t (map EvLine lines ++ EvDone :: rest)) = true
  /\ match lines with
     | [] => fst (readStderr t (map EvLine lines ++ EvDone :: rest)) = t
     | _ =>
         exists detail,
           fst (readStderr t (map EvLine lines ++ EvDone :: rest))
           = set_outChan
               (Some (MkChan
                        (sent c ++ [MkMessageData None
                                      (Some (NewProcessError
                                               ("Command failed with exit code "
                                                  +:+ Go.itoa (exitCodeNow t))
                                               (exitCodeNow t) detail))])
                        (closed c))) t
           /\ emitsOneProcessError (exitCodeNow t) detail t
                (fst (readStderr t (map EvLine lines ++ EvDone :: rest)))
           /\ (totalLen lines <= maxStderrSize -> detail = Go.Join lines Go.newline)
     end.
Proof.
  intros Ho Hd Hc. unfold readStderr.
  destruct (readStderr_loop_lines t lines rest [] 0) as (captured & -> & Hnil & Hnil' & Hall).
  split; [reflexivity|]. cbn [fst].
  destruct lines as [|l ls].
  - now rewrite Hnil'.
  - destruct captured as [|x xs]; [now destruct (Hnil eq_refl)|].
    exists (Go.Join (x :: xs) Go.newline).
    rewrite (processStderr_nonzero t c x xs Ho Hd Hc).
    split; [reflexivity|]. split.
    + eexists. unfold delivered. cbn. rewrite Ho. reflexivity.
    + intros Hle. rewrite Hall by lia. reflexivity.
Qed.

Lemma stderr_collector_reports_nonzero_exit_witness :
  snd (readStderr exitedOne (map EvLine [""] ++ [EvDone])) = true
  /\ exists detail,
       fst (readStderr exitedOne (map EvLine [""] ++ [EvDone]))
       = set_outChan
           (Some (MkChan
                    ([] ++ [MkMessageData None
                              (Some (NewProcessError
                                       ("Command failed with exit code "
                                          +:+ Go.itoa (exitCodeNow exitedOne))
                                       (exitCodeNow exitedOne) detail))])
                    false)) exitedOne
       /\ emitsOneProcessError (exitCodeNow exitedOne) detail exitedOne
            (fst (readStderr exitedOne (map EvLine [""] ++ [EvDone])))
       /\ (totalLen [""] <= maxStderrSize -> detail = Go.Join [""] Go.newline).
Proof.
  apply (stderr_collector_reports_nonzero_exit exitedOne Go.make [""] []);
    [reflexivity | reflexivity | discriminate].
Defined.

(** C2 as stated fails: the child has exited with status 1, the error
    stream ends without a line, the collector returns, and no
    [ProcessError] has been emitted. *)
Lemma nonzero_exit_without_stderr_emits_nothing :
  exitCodeNow exitedOne = 1
  /\ readStderr exitedOne [EvDone] = (exitedOne, true)
  /\ ~ (exists detail,
          emitsOneProcessError 1 detail exitedOne (fst (readStderr exitedOne [EvDone]))).
Proof.
  split; [reflexivity|]. split; [reflexivity|].
  intros (detail & message & H). cbn in H. discriminate H.
Qed.

(** ** The stdout reader: routing of parsed records *)

Lemma isControlResponse_spec (data : GoMap) :
  isControlResponse data = true <-> Go.index data "type" = Some (VStr "control_response").
Proof.
  unfold isControlResponse.
  destruct (Go.index data "type") as [[| | |s| |]|]; try (split; discriminate).
  rewrite String.eqb_eq. split; [now intros ->|now intros [= ->]].
Qed.

Section Routing.

Context `{codec : JSONCodec}.

Lemma readOutput_fragment_parsed (t : SubprocessCLITransport) (buf frag : string)
    (data : GoMap) :
  Go.TrimSpace frag <> "" ->
  Go.len (buf +:+ Go.TrimSpace frag) <= maxBufferSize ->
  json_Unmarshal (buf +:+ Go.TrimSpace frag) = inl data ->
  readOutput_fragment (t, buf) frag
  = if isControlResponse data
    then match Go.indexMap data "response" with
         | Some response =>
             match Go.indexString response "request_id" with
             | Some requestID =>
                 (set_pendingControlResponses
                    (<[requestID := response]> (pendingControlResponses t)) t, "")
             | None => (t, "")
             end
         | None => (t, "")
         end
    else (fst (safeSend t (MkMessageData data None)), "").
Proof.
  intros Hne Hlen Hparse. unfold readOutput_fragment.
  destruct (String.eqb (Go.TrimSpace frag) "") eqn:E;
    [apply String.eqb_eq in E; contradiction|].
  destruct (Go.len (buf +:+ Go.TrimSpace frag) >? maxBufferSize) eqn:Hover;
    [gtb_prop Hover; lia|].
  now rewrite Hparse.
Qed.

(** C4, amended: for a record the stdout reader has parsed, with the
    output channel open and the context live.  A record whose type is
    "control_response" is never forwarded: its response is stored in the
    pending table under its request id when it carries a response object
    with a string [request_id], and the record is dropped otherwise.
    Every record of another type, or without a string type, is forwarded
    as a domain record and leaves the pending table as it was.  The
    accumulator is empty afterwards. *)
Theorem readOutput_routes_parsed_record (t : SubprocessCLITransport)
    (c : chan MessageData) (buf frag : string) (data : GoMap) :
  outChan t = Some c -> ctxDone t = false ->
  Go.TrimSpace frag <> "" ->
  Go.len (buf +:+ Go.TrimSpace frag) <= maxBufferSize ->
  json_Unmarshal (buf +:+ Go.TrimSpace frag) = inl data ->
  (Go.index data "type" = Some (VStr "control_response") ->
     (forall response requestID,
         Go.indexMap data "response" = Some response ->
         Go.indexString response "request_id" = Some requestID ->
         readOutput_fragment (t, buf) frag
         = (set_pendingControlResponses
              (<[requestID := response]> (pendingControlResponses t)) t, ""))
     /\ ((forall response requestID,
             Go.indexMap data "response" = Some response ->
             Go.indexString response "request_id" <> Some requestID) ->
         readOutput_fragment (t, buf) frag = (t, ""))
     /\ delivered (fst (readOutput_fragment (t, buf) frag)) = delivered t)
  /\ (Go.index data "type" <> Some (VStr "control_response") ->
        readOutput_fragment (t, buf) frag
        = (set_outChan (Some (MkChan (sent c ++ [MkMessageData data None]) (closed c))) t, "")
        /\ delivered (fst (readOutput_fragment (t, buf) frag))
           = (delivered t ++ [MkMessageData data None])%list
        /\ pendingControlResponses (fst (readOutput_fragment (t, buf) frag))
           = pendingControlResponses t).
Proof.
  intros Ho Hd Hne Hlen Hparse.
  rewrite (readOutput_fragment_parsed t buf frag data Hne Hlen Hparse).
  split.
  - intros Hty. apply isControlResponse_spec in Hty. rewrite Hty.
    split; [|split].
    + intros response requestID -> ->. reflexivity.
    + intros Hnone.
      destruct (Go.indexMap data "response") as [response|] eqn:Hr; [|reflexivity].
      destruct (Go.indexString response "request_id") as [requestID|] eqn:Hid;
        [|reflexivity].
      now destruct (Hnone response requestID eq_refl).
    + destruct (Go.indexMap data "response") as [response|]; [|reflexivity].
      destruct (Go.indexString response "request_id"); reflexivity.
  - intros Hty.
    destruct (isControlResponse data) eqn:E;
      [apply isControlResponse_spec in E; contradiction|].
    rewrite (safeSend_delivering t c _ Ho Hd). cbn [fst].
    split; [reflexivity|]. split; [|reflexivity].
    unfold delivered. cbn. now rewrite Ho.
Qed.

End Routing.

Lemma readOutput_routes_parsed_record_witness :
  (Go.index (Some (<["type" := VStr "result"]> (<["num_turns" := VNum 1]> ∅))) "type"
     = Some (VStr "control_response") ->
     (forall response requestID,
         Go.indexMap (Some (<["type" := VStr "result"]> (<["num_turns" := VNum 1]> ∅)))
           "response" = Some response ->
         Go.indexString response "request_id" = Some requestID ->
         readOutput_fragment (codec := MiniJSON.codec) (connectedStreaming, "") resultLine
         = (set_pendingControlResponses
              (<[requestID := response]> (pendingControlResponses connectedStreaming))
              connectedStreaming, ""))
     /\ ((forall response requestID,
             Go.indexMap (Some (<["type" := VStr "result"]> (<["num_turns" := VNum 1]> ∅)))
               "response" = Some response ->
             Go.indexString response "request_id" <> Some requestID) ->
         readOutput_fragment (codec := MiniJSON.codec) (connectedStreaming, "") resultLine
         = (connectedStreaming, ""))
     /\ delivered (fst (readOutput_fragment (codec := MiniJSON.codec)
                          (connectedStreaming, "") resultLine))
        = delivered connectedStreaming)
  /\ (Go.index (Some (<["type" := VStr "result"]> (<["num_turns" := VNum 1]> ∅))) "type"
        <> Some (VStr "control_response") ->
        readOutput_fragment (codec := MiniJSON.codec) (connectedStreaming, "") resultLine
        = (set_outChan
             (Some (MkChan
                      ([] ++ [MkMessageData
                                (Some (<["type" := VStr "result"]> (<["num_turns" := VNum 1]> ∅)))
                                None])
                      false))
             connectedStreaming, "")
        /\ delivered (fst (readOutput_fragment (codec := MiniJSON.codec)
                             (connectedStreaming, "") resultLine))
           = (delivered connectedStreaming
                ++ [MkMessageData
                      (Some (<["type" := VStr "result"]> (<["num_turns" := VNum 1]> ∅)))
                      None])%list
        /\ pendingControlResponses
             (fst (readOutput_fragment (codec := MiniJSON.codec)
                     (connectedStreaming, "") resultLine))
           = pendingControlResponses connectedStreaming).
Proof.
  apply (readOutput_routes_parsed_record (codec := MiniJSON.codec)
           connectedStreaming Go.make "" resultLine
           (Some (<["type" := VStr "result"]> (<["num_turns" := VNum 1]> ∅))));
    [reflexivity | reflexivity | discriminate | vm_compute; discriminate
    | vm_compute; reflexivity].
Defined.

(** C4 as stated fails: the line [{"type":"control_response"}] parses, it
    carries no response object, and yet it is not forwarded: the reader
    delivers nothing and stores nothing. *)
Lemma control_response_without_response_is_dropped :
  json_Unmarshal (JSONCodec := MiniJSON.codec) bareControlResponse
    = inl (Some (<["type" := VStr "control_response"]> ∅))
  /\ Go.indexMap (Some (<["type" := VStr "control_response"]> ∅)) "response" = None
  /\ readOutput_fragment (codec := MiniJSON.codec) (connectedStreaming, "") bareControlResponse
     = (connectedStreaming, "")
  /\ delivered
       (readOutput (codec := MiniJSON.codec)
          (set_stdout (Some (MkReader (bareControlResponse +:+ Go.newline) None))
             connectedStreaming)) = []
  /\ pendingControlResponses
       (readOutput (codec := MiniJSON.codec)
          (set_stdout (Some (MkReader (bareControlResponse +:+ Go.newline) None))
             connectedStreaming)) = ∅.
Proof. repeat split; vm_compute; reflexivity. Qed.

(** ** Control requests *)

Lemma sendControlRequest_wait_found (t t1 : SubprocessCLITransport) (requestID : string)
    (response : GoMap) (pre rest : list WaitEvent) :
  waitedThrough t requestID pre = Some t1 ->
  pendingControlResponses t1 !! requestID = Some response ->
  sendControlRequest_wait t requestID (pre ++ Tick :: rest)
  = Returned
      (set_pendingControlResponses (delete requestID (pendingControlResponses t1)) t1)
      (controlResponseResult response).
Proof.
  revert t. induction pre as [|ev pre IH]; intros t Hpre Hfound.
  - injection Hpre as ->. cbn. now rewrite Hfound.
  - destruct ev as [|err|step]; cbn [app sendControlRequest_wait waitedThrough] in *.
    + destruct (pendingControlResponses t !! requestID); [discriminate|]. now apply IH.
    + discriminate.
    + now apply IH.
Qed.

Lemma controlResponseResult_error (response : GoMap) (errMsg : string) :
  Go.indexString response "subtype" = Some "error" ->
  Go.indexString response "error" = Some errMsg ->
  controlResponseResult response
  = (None, Some (NewCLIConnectionError ("Control request failed: " +:+ errMsg))).
Proof. intros Hs He. unfold controlResponseResult. now rewrite Hs, He. Qed.

Lemma controlResponseResult_other (response : GoMap) :
  Go.indexString response "subtype" <> Some "error" ->
  controlResponseResult response = (response, None).
Proof.
  intros Hs. unfold controlResponseResult.
  destruct (Go.indexString response "subtype") as [subtype|]; [|reflexivity].
  destruct (String.eqb subtype "error") eqn:E; [|reflexivity].
  apply String.eqb_eq in E. now subst.
Qed.

Section ControlRequests.

Context `{codec : JSONCodec}.

Lemma sendControlRequest_waits (t t0 : SubprocessCLITransport) (c : chan string)
    (now : Z) (request controlRequest : GoMap) (requestID data : string)
    (events : list WaitEvent) :
  sendControlRequest_prepare t now request = (t0, inl (requestID, controlRequest)) ->
  json_Marshal controlRequest = inl data ->
  stdinChan t0 = Some c -> closed c = false ->
  sendControlRequest t None now request events
  = sendControlRequest_wait
      (set_stdinChan (Some (MkChan (sent c ++ [data +:+ Go.newline]) false)) t0)
      requestID events.
Proof.
  intros Hp Hm Hc Hopen. unfold sendControlRequest.
  rewrite Hp, Hm, Hc. unfold Go.send. now rewrite Hopen.
Qed.

(** C6, amended: a control request was issued (the transport was
    connected with its input open, the request was marshalled and queued)
    and, at some tick of the wait loop, the pending table holds the
    response for its id.  Then the call returns and removes the entry.
    If the response's subtype is "error" and it carries a string error
    message, the call fails with a connection error that carries this
    message; if the subtype is missing or is not the string "error", the
    raw response is returned without error. *)
Theorem control_request_outcome (t t0 t1 : SubprocessCLITransport) (c : chan string)
    (now : Z) (request controlRequest response : GoMap) (requestID data : string)
    (pre rest : list WaitEvent) :
  sendControlRequest_prepare t now request = (t0, inl (requestID, controlRequest)) ->
  json_Marshal controlRequest = inl data ->
  stdinChan t0 = Some c -> closed c = false ->
  waitedThrough
    (set_stdinChan (Some (MkChan (sent c ++ [data +:+ Go.newline]) false)) t0)
    requestID pre = Some t1 ->
  pendingControlResponses t1 !! requestID = Some response ->
  (forall errMsg,
      Go.indexString response "subtype" = Some "error" ->
      Go.indexString response "error" = Some errMsg ->
      sendControlRequest t None now request (pre ++ Tick :: rest)
      = Returned
          (set_pendingControlResponses (delete requestID (pendingControlResponses t1)) t1)
          (None, Some (NewCLIConnectionError ("Control request failed: " +:+ errMsg))))
  /\ (Go.indexString response "subtype" <> Some "error" ->
      sendControlRequest t None now request (pre ++ Tick :: rest)
      = Returned
          (set_pendingControlResponses (delete requestID (pendingControlResponses t1)) t1)
          (response, None)).
Proof.
  intros Hp Hm Hc Hopen Hpre Hfound.
  rewrite (sendControlRequest_waits t t0 c now request controlRequest requestID data
             _ Hp Hm Hc Hopen).
  rewrite (sendControlRequest_wait_found _ t1 requestID response pre rest Hpre Hfound).
  split.
  - intros errMsg Hs He. now rewrite (controlResponseResult_error response errMsg Hs He).
  - intros Hs. now rewrite (controlResponseResult_other response Hs).
Qed.

End ControlRequests.

Lemma control_request_outcome_witness :
  exists t2,
    sendControlRequest (codec := MiniJSON.codec) connectedStreaming None someNanos
      interruptRequest
      ([Concurrent (readerHandles (busyResponseLine "req_1_1700000000000000000"))]
         ++ Tick :: [Tick])
    = Returned t2 (None, Some (NewCLIConnectionError ("Control request failed: " +:+ "busy"))).
Proof.
  eexists.
  eapply (proj1 (control_request_outcome (codec := MiniJSON.codec)
                   connectedStreaming _ _ Go.make someNanos interruptRequest _ _
                   "req_1_1700000000000000000" _
                   [Concurrent (readerHandles (busyResponseLine "req_1_1700000000000000000"))]
                   [Tick] eq_refl eq_refl eq_refl eq_refl eq_refl eq_refl));
    reflexivity.
Defined.

(** C6 as stated fails: the response to the request has subtype "error" but
    no error message; the call returns that response and a nil error. *)
Lemma error_response_without_message_is_returned :
  exists t2 response,
    sendControlRequest (codec := MiniJSON.codec) connectedStreaming None someNanos
      interruptRequest
      [Concurrent (readerHandles (errorResponseLine "req_1_1700000000000000000")); Tick]
    = Returned t2 (response, None)
    /\ Go.indexString response "subtype" = Some "error"
    /\ Go.indexString response "error" = None.
Proof.
  eexists _, _. split; [vm_compute; reflexivity|]. split; reflexivity.
Qed.

(** ** SendRequest *)

Section Sending.

Context `{codec : JSONCodec}.

Lemma SendRequest_loop_enqueues (sessionID : string) (messages : list GoMap)
    (datas : list string) :
  Forall2 (fun m d => json_Marshal (ensureStructure sessionID m) = inl d) messages datas ->
  forall t c,
    stdinChan t = Some c -> closed c = false ->
    SendRequest_loop t None sessionID messages
    = Returned
        (set_stdinChan
           (Some (MkChan (sent c ++ map (fun d => d +:+ Go.newline) datas) false)) t)
        None.
Proof.
  induction 1 as [|m d messages datas Hm _ IH]; intros t c Hc Hopen.
  - cbn [SendRequest_loop map]. rewrite app_nil_r. f_equal.
    destruct t, c; cbn in *. now subst.
  - cbn [SendRequest_loop map]. rewrite Hm, Hc. unfold Go.send. rewrite Hopen.
    rewrite (IH (set_stdinChan (Some (MkChan (sent c ++ [d +:+ Go.newline]) false)) t)
               (MkChan (sent c ++ [d +:+ Go.newline]) false) eq_refl eq_refl).
    cbn [sent]. now rewrite <- app_assoc.
Qed.

(** C5, amended: in streaming mode, while connected, with the input queue
    open, the caller's context live and every record marshalled without
    error, [SendRequest] queues one line per submitted record, in
    submission order, after what was queued before.  The line of a record
    that has a [type] key is the record itself, unchanged, also when it
    has no [session_id]; the line of a record without a [type] key is a
    new user record around it, which carries the session id of the
    metadata ("default" when the metadata name none). *)
Theorem SendRequest_enqueues_in_order (t : SubprocessCLITransport) (c : chan string)
    (messages : list GoMap) (metadata : GoMap) (datas : list string) :
  isStreaming t = true -> connected t = true ->
  stdinChan t = Some c -> closed c = false ->
  Forall2 (fun m d =>
             json_Marshal
               (ensureStructure (default "default" (Go.indexString metadata "session_id")) m)
             = inl d) messages datas ->
  SendRequest t None messages metadata
  = Returned
      (set_stdinChan
         (Some (MkChan (sent c ++ map (fun d => d +:+ Go.newline) datas) false)) t)
      None
  /\ (forall sessionID m, is_Some (Go.index m "type") -> ensureStructure sessionID m = m)
  /\ (forall sessionID m,
        Go.index m "type" = None ->
        ensureStructure sessionID m = wrapUserMessage sessionID m
        /\ Go.indexString (ensureStructure sessionID m) "session_id" = Some sessionID
        /\ Go.indexMap (ensureStructure sessionID m) "message"
           = Some (Some (<["role" := VStr "user"]> (<["content" := VMap m]> ∅)))).
Proof.
  intros Hs Hconn Hc Hopen Hall. split; [|split].
  - unfold SendRequest. rewrite Hs, Hconn. cbn [negb].
    destruct (Go.indexString metadata "session_id") as [sid|];
      now apply SendRequest_loop_enqueues.
  - intros sessionID m [v Hv]. unfold ensureStructure. now rewrite Hv.
  - intros sessionID m Hm. unfold ensureStructure. rewrite Hm.
    split; [reflexivity|]. split; reflexivity.
Qed.

End Sending.

Lemma SendRequest_enqueues_in_order_witness :
  SendRequest (codec := MiniJSON.codec) connectedStreaming None
    [untypedRecord; typedRecord] metadataS1
  = Returned
      (set_stdinChan
         (Some (MkChan
                  ([] ++ map (fun d => d +:+ Go.newline)
                     ["{" +:+ MiniJSON.q "message" +:+ ":{"
                          +:+ MiniJSON.q "content" +:+ ":{"
                          +:+ MiniJSON.q "text" +:+ ":" +:+ MiniJSON.q "hi" +:+ "},"
                          +:+ MiniJSON.q "role" +:+ ":" +:+ MiniJSON.q "user" +:+ "},"
                          +:+ MiniJSON.q "parent_tool_use_id" +:+ ":null,"
                          +:+ MiniJSON.q "session_id" +:+ ":" +:+ MiniJSON.q "s1" +:+ ","
                          +:+ MiniJSON.q "type" +:+ ":" +:+ MiniJSON.q "user" +:+ "}";
                      "{" +:+ MiniJSON.q "type" +:+ ":" +:+ MiniJSON.q "user" +:+ "}"])
                  false))
         connectedStreaming)
      None.
Proof.
  apply (SendRequest_enqueues_in_order (codec := MiniJSON.codec) connectedStreaming Go.make
           [untypedRecord; typedRecord] metadataS1);
    [reflexivity | reflexivity | reflexivity | reflexivity |].
  repeat constructor.
Defined.

(** C5 as stated fails: the record [{"type":"user"}] has no [session_id],
    the metadata give the session id "s1", and the line that is queued is
    the record as it was submitted, not the record with the session id. *)
Lemma typed_record_is_not_stamped :
  Go.index typedRecord "session_id" = None
  /\ SendRequest (codec := MiniJSON.codec) connectedStreaming None [typedRecord] metadataS1
     = Returned
         (set_stdinChan
            (Some (MkChan ["{" +:+ MiniJSON.q "type" +:+ ":" +:+ MiniJSON.q "user" +:+ "}"
                               +:+ Go.newline] false))
            connectedStreaming)
         None
  /\ json_Marshal (JSONCodec := MiniJSON.codec) (stampSessionID "s1" typedRecord)
     = inl ("{" +:+ MiniJSON.q "session_id" +:+ ":" +:+ MiniJSON.q "s1" +:+ ","
                +:+ MiniJSON.q "type" +:+ ":" +:+ MiniJSON.q "user" +:+ "}")
  /\ "{" +:+ MiniJSON.q "type" +:+ ":" +:+ MiniJSON.q "user" +:+ "}"
     <> "{" +:+ MiniJSON.q "session_id" +:+ ":" +:+ MiniJSON.q "s1" +:+ ","
            +:+ MiniJSON.q "type" +:+ ":" +:+ MiniJSON.q "user" +:+ "}".
Proof.
  split; [reflexivity|]. split; [vm_compute; reflexivity|].
  split; [vm_compute; reflexivity|]. discriminate.
Qed.

(** ** Request identifiers *)

Lemma hasByte_app (c : ascii) (a b : string) :
  Go.hasByte c (a +:+ b) = Go.hasByte c a || Go.hasByte c b.
Proof.
  induction a as [|x a IH]; [reflexivity|].
  autorewrite with gostring. cbn [Go.hasByte]. rewrite IH. now rewrite orb_assoc.
Qed.

Lemma split_at_byte (c : ascii) (a a' b b' : string) :
  Go.hasByte c a = false -> Go.hasByte c a' = false ->
  a +:+ String c b = a' +:+ String c b' -> a = a' /\ b = b'.
Proof.
  revert a'. induction a as [|x a IH]; intros [|x' a'] Ha Ha' H;
    autorewrite with gostring in H; cbn [Go.hasByte] in *.
  - now injection H as ->.
  - injection H as <- _. now rewrite Ascii.eqb_refl in Ha'.
  - injection H as -> _. now rewrite Ascii.eqb_refl in Ha.
  - injection H as -> H.
    apply orb_false_iff in Ha as [_ Ha]. apply orb_false_iff in Ha' as [_ Ha'].
    destruct (IH a' Ha Ha' H) as [-> ->]. auto.
Qed.

Lemma string_of_uint_no_underscore (d : Decimal.uint) :
  Go.hasByte "_" (NilEmpty.string_of_uint d) = false.
Proof. induction d; cbn; auto. Qed.

Lemma itoa_no_underscore (z : Z) : Go.hasByte "_" (Go.itoa z) = false.
Proof.
  unfold Go.itoa, NilZero.string_of_int, NilZero.string_of_uint.
  destruct (Z.to_int z) as [d|d]; destruct d; cbn;
    try reflexivity; apply string_of_uint_no_underscore.
Qed.

Lemma itoa_inj (a b : Z) : Go.itoa a = Go.itoa b -> a = b.
Proof.
  unfold Go.itoa. intros H. apply DecimalZ.to_int_inj.
  assert (forall z, NilZero.int_of_string (NilZero.string_of_int (Z.to_int z))
                    = Some (Z.to_int z)) as R.
  { intros z. apply NilZero.isi; destruct z; cbn; try discriminate;
      intros [= E]; now apply DecimalPos.Unsigned.to_uint_nonnil in E. }
  pose proof (R a) as Ra. rewrite H, R in Ra. now injection Ra.
Qed.

Lemma requestIDOf_inj (c c' n n' : Z) :
  requestIDOf c n = requestIDOf c' n' -> c = c' /\ n = n'.
Proof.
  unfold requestIDOf. cbn. intros [= H].
  apply split_at_byte in H as [Hc Hn]; try apply itoa_no_underscore.
  split; now apply itoa_inj.
Qed.

Lemma AddUint64_iter (counter k : Z) :
  AddUint64 (AddUint64 counter 1) k = (counter + (1 + k)) mod 2 ^ 64.
Proof.
  unfold AddUint64. rewrite Zplus_mod_idemp_l. f_equal. lia.
Qed.

Lemma AddUint64_distinct (counter k : Z) :
  0 < k < 2 ^ 64 -> AddUint64 counter 0 <> AddUint64 counter k.
Proof.
  unfold AddUint64. intros Hk H.
  assert ((counter + k - (counter + 0)) mod 2 ^ 64 = 0) as E.
  { rewrite Zminus_mod, <- H, Z.sub_diag. reflexivity. }
  replace (counter + k - (counter + 0)) with k in E by lia.
  rewrite Z.mod_small in E; lia.
Qed.

Lemma sendControlRequest_prepare_id (t t' : SubprocessCLITransport) (now : Z)
    (request controlRequest : GoMap) (requestID : string) :
  sendControlRequest_prepare t now request = (t', inl (requestID, controlRequest)) ->
  requestCounter t' = AddUint64 (requestCounter t) 1
  /\ requestID = requestIDOf (AddUint64 (requestCounter t) 1) now.
Proof.
  unfold sendControlRequest_prepare.
  destruct (stdin t), (connected t); intros [= <- <- _]; auto.
Qed.

Lemma sendControlRequest_prepare_refused (t t' : SubprocessCLITransport) (now : Z)
    (request : GoMap) (e : error) :
  sendControlRequest_prepare t now request = (t', inr e) -> t' = t.
Proof.
  unfold sendControlRequest_prepare.
  destruct (stdin t), (connected t); intros [= <- _]; auto; discriminate.
Qed.

(** Every id assigned in a run carries the counter value of its request:
    the start value plus the number of ids assigned up to it. *)
Lemma requestIDs_counters (events : list SessionEvent) :
  Forall keepsRequestCounter events ->
  forall t id,
    In id (requestIDs t events) ->
    exists k now,
      0 < k <= Z.of_nat (length (requestIDs t events))
      /\ id = requestIDOf (AddUint64 (requestCounter t) k) now.
Proof.
  induction 1 as [|ev events Hev _ IH]; intros t id Hin; [destruct Hin|].
  destruct ev as [now request|step]; cbn [requestIDs] in *.
  - destruct (sendControlRequest_prepare t now request) as [t' [[requestID cr]|e]] eqn:Hp.
    + apply sendControlRequest_prepare_id in Hp as [Hc ->].
      destruct Hin as [<- | Hin].
      * exists 1, now. cbn [length]. split; [lia|reflexivity].
      * destruct (IH t' id Hin) as (k & now' & Hk & ->).
        exists (1 + k), now'. cbn [length]. split; [lia|].
        now rewrite Hc, AddUint64_iter.
    + apply sendControlRequest_prepare_refused in Hp as ->. now apply IH.
  - destruct (IH (step t) id Hin) as (k & now' & Hk & ->).
    exists k, now'. split; [exact Hk|]. now rewrite (Hev t).
Qed.

Lemma requestIDs_NoDup (events : list SessionEvent) :
  Forall keepsRequestCounter events ->
  forall t,
    Z.of_nat (length (requestIDs t events)) < 2 ^ 64 ->
    NoDup (requestIDs t events).
Proof.
  induction 1 as [|ev events Hev Hall IH]; intros t Hlen; [constructor|].
  destruct ev as [now request|step]; cbn [requestIDs] in *.
  - destruct (sendControlRequest_prepare t now request) as [t' [[requestID cr]|e]] eqn:Hp.
    + cbn [length] in Hlen.
      pose proof (sendControlRequest_prepare_id _ _ _ _ _ _ Hp) as [Hc ->].
      constructor; [|apply IH; lia].
      rewrite list_elem_of_In. intros Hin.
      destruct (requestIDs_counters events Hall t' _ Hin) as (k & now' & Hk & E).
      apply requestIDOf_inj in E as [E _].
      rewrite Hc, AddUint64_iter in E.
      apply (AddUint64_distinct (requestCounter t + 1) k); [lia|].
      unfold AddUint64 in *. rewrite Z.add_0_r. rewrite E. f_equal. lia.
    + apply sendControlRequest_prepare_refused in Hp as ->. now apply IH.
  - now apply IH.
Qed.

(** C7: on one transport, as long as fewer than 2^64 request ids have been
    assigned (the counter is a [uint64]), the ids assigned are pairwise
    distinct, whatever the clock reads and whatever else happens on the
    transport in between; and the pending table, a map, holds at most one
    entry per id. *)
Theorem request_ids_never_reused (t : SubprocessCLITransport) (events : list SessionEvent) :
  Forall keepsRequestCounter events ->
  Z.of_nat (length (requestIDs t events)) < 2 ^ 64 ->
  NoDup (requestIDs t events)
  /\ NoDup (map fst (map_to_list (pendingControlResponses t))).
Proof.
  intros Hall Hlen. split.
  - now apply requestIDs_NoDup.
  - apply NoDup_fst_map_to_list.
Qed.

Lemma request_ids_never_reused_witness :
  NoDup (requestIDs connectedStreaming
           [IssueRequest someNanos interruptRequest;
            OtherStep (WithSessionID "math-session");
            IssueRequest someNanos interruptRequest])
  /\ NoDup (map fst (map_to_list (pendingControlResponses connectedStreaming))).
Proof.
  apply (request_ids_never_reused connectedStreaming).
  - repeat constructor.
  - vm_compute. reflexivity.
Defined.

(** ** The stdout reader: scanning and the accumulator *)

Lemma hasByte_rev_onto (c : ascii) (s acc : string) :
  Go.hasByte c (Go.rev_onto s acc) = Go.hasByte c s || Go.hasByte c acc.
Proof.
  revert acc. induction s as [|x s IH]; intros acc; [reflexivity|].
  cbn [Go.rev_onto Go.hasByte]. rewrite IH. cbn [Go.hasByte].
  destruct (Ascii.eqb x c), (Go.hasByte c s), (Go.hasByte c acc); reflexivity.
Qed.

Lemma hasByte_rev (c : ascii) (s : string) : Go.hasByte c (Go.rev s) = Go.hasByte c s.
Proof. unfold Go.rev. rewrite hasByte_rev_onto. cbn. apply orb_false_r. Qed.

Lemma Split_pieces (sep : ascii) (s : string) :
  Forall (fun p => Go.hasByte sep p = false) (Go.Split s sep).
Proof.
  induction s as [|x s IH]; cbn [Go.Split]; [repeat constructor|].
  destruct (Ascii.eqb x sep) eqn:E; [now constructor|].
  destruct (Go.Split s sep) as [|p ps].
  - repeat constructor. cbn. now rewrite E.
  - inversion IH as [|? ? Hp Hps]; subst. constructor; [|assumption].
    cbn. now rewrite E, Hp.
Qed.

Lemma Split_no_sep (sep : ascii) (s : string) :
  Go.hasByte sep s = false -> Go.Split s sep = [s].
Proof.
  induction s as [|x s IH]; [reflexivity|].
  cbn [Go.hasByte Go.Split]. intros H. apply orb_false_iff in H as [E H].
  rewrite E, (IH H). reflexivity.
Qed.

Lemma Forall_removelast {A : Type} (P : A -> Prop) (l : list A) :
  Forall P l -> Forall P (removelast l).
Proof.
  induction 1 as [|x l Hx Hl IH]; [constructor|].
  cbn [removelast]. destruct l; [constructor|]. now constructor.
Qed.

Lemma dropCR_no_newline (s : string) :
  Go.hasByte Go.nl s = false -> Go.hasByte Go.nl (Scanner.dropCR s) = false.
Proof.
  intros H. unfold Scanner.dropCR.
  destruct (Go.rev s) as [|x r] eqn:E; [exact H|].
  destruct (Ascii.eqb x Go.cr); [|exact H].
  rewrite hasByte_rev. rewrite <- hasByte_rev, E in H.
  cbn [Go.hasByte] in H. now apply orb_false_iff in H as [_ H].
Qed.

Lemma scan_tokens (maxTokenSize : Z) (lines : list string) :
  Forall (fun l => Go.hasByte Go.nl l = false) lines ->
  Forall (fun l => Go.hasByte Go.nl l = false) (fst (Scanner.scan maxTokenSize lines)).
Proof.
  induction 1 as [|l lines Hl _ IH]; cbn [Scanner.scan]; [constructor|].
  destruct (maxTokenSize <=? Go.len l); [constructor|].
  destruct (Scanner.scan maxTokenSize lines) as [toks tooLong].
  constructor; [now apply dropCR_no_newline | exact IH].
Qed.

(** A scanned line contains no newline. *)
Lemma Scanner_run_tokens (maxTokenSize : Z) (r : Reader) (toks : list string)
    (err : option error) :
  Scanner.run maxTokenSize r = (toks, err) ->
  Forall (fun l => Go.hasByte Go.nl l = false) toks.
Proof.
  unfold Scanner.run. intros H.
  pose proof (scan_tokens maxTokenSize (Scanner.rawLines (content r))) as Hs.
  destruct (Scanner.scan maxTokenSize (Scanner.rawLines (content r))) as [toks' tooLong].
  injection H as <- _. apply Hs.
  unfold Scanner.rawLines.
  pose proof (Split_pieces Go.nl (content r)) as Hp.
  destruct (List.last (Go.Split (content r) Go.nl) "");
    [now apply Forall_removelast | exact Hp].
Qed.

Lemma len_empty_within_bound : Go.len "" <= maxBufferSize.
Proof. discriminate. Qed.

Lemma TrimSpace_empty : Go.TrimSpace "" = "".
Proof. reflexivity. Qed.

Section Accumulator.

Context `{codec : JSONCodec}.

(** On a scanned line the inner loop of [readOutput] runs once. *)
Lemma readOutput_line_token (st : SubprocessCLITransport * string) (l : string) :
  Go.hasByte Go.nl l = false ->
  readOutput_line st l = readOutput_fragment st l.
Proof.
  intros H. unfold readOutput_line.
  destruct (String.eqb l "") eqn:E.
  - apply String.eqb_eq in E as ->. destruct st as [t buf].
    unfold readOutput_fragment. now rewrite TrimSpace_empty.
  - now rewrite (Split_no_sep _ _ H).
Qed.

Lemma readOutput_lines_tokens (toks : list string) :
  Forall (fun l => Go.hasByte Go.nl l = false) toks ->
  forall st, fold_left readOutput_line toks st = fold_left readOutput_fragment toks st.
Proof.
  induction 1 as [|l toks Hl _ IH]; intros st; [reflexivity|].
  cbn [fold_left]. now rewrite (readOutput_line_token st l Hl), IH.
Qed.

Lemma accumulated_within_bound (frags : list string) :
  forall buf,
    Go.len buf <= maxBufferSize ->
    accumulatesQuietly buf frags = true ->
    Go.len (accumulated buf frags) <= maxBufferSize.
Proof.
  induction frags as [|f frags IH]; intros buf Hbuf H; [exact Hbuf|].
  cbn [accumulatesQuietly accumulated fold_left] in *.
  apply andb_true_iff in H as [Hf Hrest].
  apply IH; [|exact Hrest].
  apply orb_true_iff in Hf as [Hf|Hf].
  - apply String.eqb_eq in Hf. rewrite Hf. now autorewrite with gostring.
  - apply andb_true_iff in Hf as [Hf _]. now apply Z.leb_le in Hf.
Qed.

(** Fragments that accumulate quietly change nothing but the accumulator. *)
Lemma readOutput_fragments_quiet (frags : list string) :
  forall t buf,
    accumulatesQuietly buf frags = true ->
    fold_left readOutput_fragment frags (t, buf) = (t, accumulated buf frags).
Proof.
  induction frags as [|f frags IH]; intros t buf H; [reflexivity|].
  cbn [accumulatesQuietly accumulated fold_left] in *.
  apply andb_true_iff in H as [Hf Hrest].
  assert (readOutput_fragment (t, buf) f = (t, buf +:+ Go.TrimSpace f)) as ->.
  { unfold readOutput_fragment.
    destruct (String.eqb (Go.TrimSpace f) "") eqn:E.
    - apply String.eqb_eq in E. rewrite E. now autorewrite with gostring.
    - cbn [orb] in Hf. apply andb_true_iff in Hf as [Hle Hparse].
      apply Z.leb_le in Hle.
      destruct (Go.len (buf +:+ Go.TrimSpace f) >? maxBufferSize) eqn:Hover;
        [gtb_prop Hover; lia|].
      now destruct (json_Unmarshal (buf +:+ Go.TrimSpace f)). }
  now apply IH.
Qed.

(** A fragment that pushes the accumulator over its bound. *)
Lemma readOutput_fragment_overflow (t : SubprocessCLITransport) (buf frag : string) :
  Go.len buf <= maxBufferSize ->
  Go.len (buf +:+ Go.TrimSpace frag) > maxBufferSize ->
  readOutput_fragment (t, buf) frag
  = (fst (safeSend t (MkMessageData None (Some bufferOverflowError))), "").
Proof.
  intros Hbuf Hover. unfold readOutput_fragment.
  destruct (String.eqb (Go.TrimSpace frag) "") eqn:E.
  - apply String.eqb_eq in E. rewrite E in Hover.
    autorewrite with gostring in Hover. lia.
  - destruct (Go.len (buf +:+ Go.TrimSpace frag) >? maxBufferSize) eqn:Hgt;
      [reflexivity|].
    gtb_prop Hgt. lia.
Qed.

End Accumulator.


(** *** Lines of one repeated byte, and pipes of lines *)

Lemma len_String (x : ascii) (s : string) : Go.len (String x s) = 1 + Go.len s.
Proof. unfold Go.len. cbn [String.length]. lia. Qed.

Lemma Repeat_byte_S (x : ascii) (n : nat) :
  Go.Repeat (String x "") (S n) = String x (Go.Repeat (String x "") n).
Proof. reflexivity. Qed.

Lemma len_Repeat_byte (x : ascii) (n : nat) :
  Go.len (Go.Repeat (String x "") n) = Z.of_nat n.
Proof.
  induction n as [|n IH]; [reflexivity|].
  rewrite Repeat_byte_S, len_String, IH. lia.
Qed.

Lemma hasByte_Repeat_byte (c x : ascii) (n : nat) :
  Ascii.eqb x c = false -> Go.hasByte c (Go.Repeat (String x "") n) = false.
Proof.
  intros E. induction n as [|n IH]; [reflexivity|].
  rewrite Repeat_byte_S. cbn [Go.hasByte]. now rewrite E, IH.
Qed.

Lemma Repeat_byte_comm (x : ascii) (n : nat) (acc : string) :
  Go.Repeat (String x "") n +:+ String x acc
  = String x (Go.Repeat (String x "") n +:+ acc).
Proof.
  induction n as [|n IH]; [reflexivity|].
  rewrite Repeat_byte_S, !append_String, IH. reflexivity.
Qed.

Lemma rev_onto_Repeat_byte (x : ascii) (n : nat) (acc : string) :
  Go.rev_onto (Go.Repeat (String x "") n) acc = Go.Repeat (String x "") n +:+ acc.
Proof.
  revert acc. induction n as [|n IH]; intros acc; [reflexivity|].
  rewrite Repeat_byte_S. cbn [Go.rev_onto]. rewrite IH, Repeat_byte_comm.
  now rewrite append_String.
Qed.

Lemma rev_Repeat_byte (x : ascii) (n : nat) :
  Go.rev (Go.Repeat (String x "") n) = Go.Repeat (String x "") n.
Proof. unfold Go.rev. rewrite rev_onto_Repeat_byte. apply append_empty_r. Qed.

Lemma rev_onto_rev_onto (s a b : string) :
  Go.rev_onto (Go.rev_onto s a) b = Go.rev_onto a (s +:+ b).
Proof.
  revert a. induction s as [|x s IH]; intros a; [reflexivity|].
  cbn [Go.rev_onto]. rewrite IH. reflexivity.
Qed.

Lemma rev_involutive (s : string) : Go.rev (Go.rev s) = s.
Proof.
  unfold Go.rev. rewrite rev_onto_rev_onto. cbn [Go.rev_onto]. apply append_empty_r.
Qed.

Lemma plainByte_not_space2 (x y : ascii) :
  plainByte x -> Go.space2 x y = false /\ Go.space2 y x = false.
Proof.
  intros [_ Hx]. unfold Go.space2, Go.byte_is.
  destruct (Nat.eqb_spec (nat_of_ascii x) 194); [lia|].
  destruct (Nat.eqb_spec (nat_of_ascii x) 133); [lia|].
  destruct (Nat.eqb_spec (nat_of_ascii x) 160); [lia|].
  split; [reflexivity|]. now rewrite andb_false_r.
Qed.

Lemma plainByte_not_space3 (x y z : ascii) :
  plainByte x -> Go.space3 x y z = false /\ Go.space3 z y x = false.
Proof.
  intros [_ Hx]. unfold Go.space3, Go.byte_is.
  destruct (Nat.eqb_spec (nat_of_ascii x) 225); [lia|].
  destruct (Nat.eqb_spec (nat_of_ascii x) 226); [lia|].
  destruct (Nat.eqb_spec (nat_of_ascii x) 227); [lia|].
  destruct (Nat.eqb_spec (nat_of_ascii x) 128); [lia|].
  destruct (Nat.eqb_spec (nat_of_ascii x) 168); [lia|].
  destruct (Nat.eqb_spec (nat_of_ascii x) 169); [lia|].
  destruct (Nat.eqb_spec (nat_of_ascii x) 175); [lia|].
  destruct (Nat.eqb_spec (nat_of_ascii x) 159); [lia|].
  destruct (Nat.leb_spec 128 (nat_of_ascii x)); [lia|].
  split; [reflexivity|]. cbn [andb orb]. now rewrite !andb_false_r.
Qed.

Lemma trimLeftSpace_plain (x : ascii) (s : string) :
  plainByte x -> Go.trimLeftSpace (String x s) = String x s.
Proof.
  intros Hx. cbn [Go.trimLeftSpace]. rewrite (proj1 Hx).
  destruct s as [|y s]; [reflexivity|].
  rewrite (proj1 (plainByte_not_space2 x y Hx)).
  destruct s as [|z s]; [reflexivity|].
  now rewrite (proj1 (plainByte_not_space3 x y z Hx)).
Qed.

Lemma trimLeftSpaceRev_plain (x : ascii) (s : string) :
  plainByte x -> Go.trimLeftSpaceRev (String x s) = String x s.
Proof.
  intros Hx. cbn [Go.trimLeftSpaceRev]. rewrite (proj1 Hx).
  destruct s as [|y s]; [reflexivity|].
  rewrite (proj2 (plainByte_not_space2 x y Hx)).
  destruct s as [|z s]; [reflexivity|].
  now rewrite (proj2 (plainByte_not_space3 x y z Hx)).
Qed.

(** Trimming leaves a string alone that begins and ends with plain bytes. *)
Lemma TrimSpace_plain_ends (s s' r : string) (x y : ascii) :
  s = String x s' -> Go.rev s = String y r -> plainByte x -> plainByte y ->
  Go.TrimSpace s = s.
Proof.
  intros Hs Hr Hx Hy. unfold Go.TrimSpace, Go.trimRightSpace.
  rewrite Hs, (trimLeftSpace_plain x s' Hx), <- Hs, Hr.
  rewrite (trimLeftSpaceRev_plain y r Hy), <- Hr. apply rev_involutive.
Qed.

Lemma dropCR_plain_end (s r : string) (y : ascii) :
  Go.rev s = String y r -> Ascii.eqb y Go.cr = false -> Scanner.dropCR s = s.
Proof. intros Hr Hy. unfold Scanner.dropCR. now rewrite Hr, Hy. Qed.

Lemma plainByte_x : plainByte "x".
Proof. split; [reflexivity|]. vm_compute. lia. Qed.

Lemma TrimSpace_Repeat_x (n : nat) :
  Go.TrimSpace (Go.Repeat "x" n) = Go.Repeat "x" n.
Proof.
  destruct n as [|n]; [reflexivity|].
  apply (TrimSpace_plain_ends _ (Go.Repeat "x" n) (Go.Repeat "x" n) "x" "x");
    try apply plainByte_x; [reflexivity|].
  now rewrite rev_Repeat_byte.
Qed.

Lemma dropCR_Repeat_x (n : nat) : Scanner.dropCR (Go.Repeat "x" n) = Go.Repeat "x" n.
Proof.
  destruct n as [|n]; [reflexivity|].
  apply (dropCR_plain_end _ (Go.Repeat "x" n) "x"); [|reflexivity].
  now rewrite rev_Repeat_byte.
Qed.

Lemma Split_app_sep (sep : ascii) (l rest : string) :
  Go.hasByte sep l = false ->
  Go.Split (l +:+ String sep rest) sep = l :: Go.Split rest sep.
Proof.
  induction l as [|x l IH]; intros H.
  - rewrite append_empty. cbn [Go.Split]. now rewrite Ascii.eqb_refl.
  - cbn [Go.hasByte] in H. apply orb_false_iff in H as [E H].
    rewrite append_String. cbn [Go.Split]. now rewrite E, (IH H).
Qed.

Lemma Split_pipeOf (lines : list string) :
  Forall (fun l => Go.hasByte Go.nl l = false) lines ->
  Go.Split (content (pipeOf lines)) Go.nl = (lines ++ [""])%list.
Proof.
  induction 1 as [|l lines Hl _ IH]; [reflexivity|].
  cbn [pipeOf content fold_right app] in *.
  unfold Go.newline at 1. rewrite append_String, append_empty.
  now rewrite (Split_app_sep _ _ _ Hl), IH.
Qed.

Lemma rawLines_pipeOf (lines : list string) :
  Forall (fun l => Go.hasByte Go.nl l = false) lines ->
  Scanner.rawLines (content (pipeOf lines)) = lines.
Proof.
  intros H. unfold Scanner.rawLines. rewrite (Split_pipeOf lines H).
  rewrite List.last_last. apply List.removelast_last.
Qed.

Lemma scan_short_lines (maxTokenSize : Z) (lines : list string) :
  Forall (fun l => Go.len l < maxTokenSize /\ Scanner.dropCR l = l) lines ->
  Scanner.scan maxTokenSize lines = (lines, false).
Proof.
  induction 1 as [|l lines [Hl Hcr] _ IH]; [reflexivity|].
  cbn [Scanner.scan].
  destruct (Z.leb_spec maxTokenSize (Go.len l)); [lia|].
  now rewrite IH, Hcr.
Qed.

(** The scanner hands on the lines of a pipe when each is shorter than the
    token limit. *)
Lemma Scanner_run_pipeOf (maxTokenSize : Z) (lines : list string) :
  Forall (fun l => Go.hasByte Go.nl l = false) lines ->
  Forall (fun l => Go.len l < maxTokenSize /\ Scanner.dropCR l = l) lines ->
  Scanner.run maxTokenSize (pipeOf lines) = (lines, None).
Proof.
  intros Hnl Hshort. unfold Scanner.run.
  rewrite (rawLines_pipeOf lines Hnl), (scan_short_lines _ _ Hshort). reflexivity.
Qed.

(** The scanner stops at a first line that fills its buffer. *)
Lemma Scanner_run_too_long (maxTokenSize : Z) (l : string) (lines : list string) :
  Forall (fun l => Go.hasByte Go.nl l = false) (l :: lines) ->
  maxTokenSize <= Go.len l ->
  Scanner.run maxTokenSize (pipeOf (l :: lines)) = ([], Some ErrTooLong).
Proof.
  intros Hnl Hlong. unfold Scanner.run.
  rewrite (rawLines_pipeOf _ Hnl). cbn [Scanner.scan].
  destruct (Z.leb_spec maxTokenSize (Go.len l)); [reflexivity|lia].
Qed.

Lemma Unmarshal_x (s : string) :
  json_Unmarshal (JSONCodec := MiniJSON.codec) (String "x" s)
  = inr (ErrorString "json: syntax error").
Proof. reflexivity. Qed.

Section OverflowRecovery.

Context `{codec : JSONCodec}.

(** C1, amended: with the output channel open and the context live.
    Whenever a fragment makes the accumulator longer than 1 MiB, the
    accumulator is reset to empty and exactly one buffer-overflow error is
    emitted, and the loop goes on.  In particular, when the lines the
    scanner yields are fragments that accumulate within the bound without
    parsing, one fragment that pushes the accumulator past 1 MiB, and one
    record that parses and is no control response, the reader emits
    exactly one overflow error followed by exactly that record. *)
Theorem readOutput_recovers_from_overflow (t : SubprocessCLITransport)
    (c : chan MessageData) (r : Reader) (quiet : list string) (last good : string)
    (data : GoMap) :
  stdout t = Some r -> outChan t = Some c -> ctxDone t = false ->
  Scanner.run maxBufferSize r = ((quiet ++ [last; good])%list, None) ->
  accumulatesQuietly "" quiet = true ->
  Go.len (accumulated "" quiet +:+ Go.TrimSpace last) > maxBufferSize ->
  Go.TrimSpace good <> "" ->
  Go.len (Go.TrimSpace good) <= maxBufferSize ->
  json_Unmarshal (Go.TrimSpace good) = inl data ->
  Go.index data "type" <> Some (VStr "control_response") ->
  (forall buf frag,
      Go.len buf <= maxBufferSize ->
      Go.len (buf +:+ Go.TrimSpace frag) > maxBufferSize ->
      readOutput_fragment (t, buf) frag
      = (set_outChan
           (Some (MkChan (sent c ++ [MkMessageData None (Some bufferOverflowError)])
                    (closed c))) t, ""))
  /\ readOutput t
     = set_outChan
         (Some (MkChan
                  (sent c ++ [MkMessageData None (Some bufferOverflowError);
                              MkMessageData data None])
                  (closed c))) t.
Proof.
  intros Hr Ho Hd Hrun Hquiet Hover Hgood Hlen Hparse Hty.
  assert (forall buf frag,
             Go.len buf <= maxBufferSize ->
             Go.len (buf +:+ Go.TrimSpace frag) > maxBufferSize ->
             readOutput_fragment (t, buf) frag
             = (set_outChan
                  (Some (MkChan (sent c ++ [MkMessageData None (Some bufferOverflowError)])
                           (closed c))) t, "")) as Hstep.
  { intros buf frag Hbuf Hbig.
    rewrite (readOutput_fragment_overflow t buf frag Hbuf Hbig).
    now rewrite (safeSend_delivering t c _ Ho Hd). }
  split; [exact Hstep|].
  unfold readOutput. rewrite Hr, Hrun.
  rewrite (readOutput_lines_tokens _ (Scanner_run_tokens _ _ _ _ Hrun)).
  rewrite fold_left_app, (readOutput_fragments_quiet quiet t "" Hquiet).
  cbn [fold_left].
  rewrite (Hstep _ last (accumulated_within_bound quiet "" len_empty_within_bound Hquiet) Hover).
  set (t1 := set_outChan _ t).
  assert (Go.len ("" +:+ Go.TrimSpace good) <= maxBufferSize) as Hlen'
    by now autorewrite with gostring.
  assert (json_Unmarshal ("" +:+ Go.TrimSpace good) = inl data) as Hparse'
    by now autorewrite with gostring.
  rewrite (readOutput_fragment_parsed t1 "" good data Hgood Hlen' Hparse').
  destruct (isControlResponse data) eqn:E;
    [apply isControlResponse_spec in E; contradiction|].
  rewrite (safeSend_delivering t1 _ _ eq_refl Hd).
  subst t1. cbn [fst sent closed]. now rewrite <- app_assoc.
Qed.

End OverflowRecovery.

(** *** The reader on lines of one repeated byte *)

#[local] Existing Instance MiniJSON.codec.

Lemma Unmarshal_Repeat_x (n : nat) (rest : string) :
  (0 < n)%nat ->
  json_Unmarshal (JSONCodec := MiniJSON.codec) (Go.Repeat "x" n +:+ rest)
  = inr (ErrorString "json: syntax error").
Proof.
  destruct n as [|n]; [lia|]. intros _.
  rewrite Repeat_byte_S, append_String. apply Unmarshal_x.
Qed.

Lemma lines_of_x_scan (n : nat) (short : list string) :
  Z.of_nat n < maxBufferSize ->
  Forall (fun l => Go.hasByte Go.nl l = false) short ->
  Forall (fun l => Go.len l < maxBufferSize /\ Scanner.dropCR l = l) short ->
  Scanner.run maxBufferSize (pipeOf (Go.Repeat "x" n :: Go.Repeat "x" n :: short))
  = (([Go.Repeat "x" n] ++ Go.Repeat "x" n :: short)%list, None).
Proof.
  intros Hn Hnl Hshort. apply Scanner_run_pipeOf.
  - repeat (constructor; [now apply hasByte_Repeat_byte|]). exact Hnl.
  - repeat (constructor; [rewrite len_Repeat_byte, dropCR_Repeat_x; now split|]).
    exact Hshort.
Qed.

Lemma line_of_x_accumulates (n : nat) :
  (0 < n)%nat -> Z.of_nat n <= maxBufferSize ->
  accumulatesQuietly (codec := MiniJSON.codec) "" [Go.Repeat "x" n] = true.
Proof.
  intros Hpos Hn. cbn [accumulatesQuietly].
  rewrite TrimSpace_Repeat_x, append_empty.
  rewrite <- (append_empty_r (Go.Repeat "x" n)) at 3.
  rewrite (Unmarshal_Repeat_x n "" Hpos), len_Repeat_byte.
  destruct (Z.leb_spec (Z.of_nat n) maxBufferSize); [|lia].
  now rewrite orb_true_r.
Qed.

Lemma two_lines_of_x_overflow (n : nat) :
  2 * Z.of_nat n > maxBufferSize ->
  Go.len (accumulated "" [Go.Repeat "x" n] +:+ Go.TrimSpace (Go.Repeat "x" n))
  > maxBufferSize.
Proof.
  intros Hn. unfold accumulated. cbn [fold_left].
  rewrite !TrimSpace_Repeat_x, append_empty, len_append, len_Repeat_byte. lia.
Qed.

Lemma short_lines_scan (lines : list string) :
  forallb (fun l => negb (Go.hasByte Go.nl l)) lines = true ->
  forallb (fun l => (Go.len l <? maxBufferSize) && String.eqb (Scanner.dropCR l) l) lines
  = true ->
  Forall (fun l => Go.hasByte Go.nl l = false) lines
  /\ Forall (fun l => Go.len l < maxBufferSize /\ Scanner.dropCR l = l) lines.
Proof.
  rewrite !forallb_forall, !List.Forall_forall. intros H1 H2. split; intros l Hl.
  - specialize (H1 l Hl). now destruct (Go.hasByte Go.nl l).
  - specialize (H2 l Hl). apply andb_true_iff in H2 as [Ha Hb].
    apply Z.ltb_lt in Ha. apply String.eqb_eq in Hb. now split.
Qed.

Lemma readOutput_recovers_from_overflow_witness :
  readOutput (codec := MiniJSON.codec) halvesThenRecord
  = set_outChan
      (Some (MkChan
               ([] ++ [MkMessageData None (Some bufferOverflowError);
                       MkMessageData (Some ∅) None])
               false)) halvesThenRecord.
Proof.
  apply (proj2 (readOutput_recovers_from_overflow (codec := MiniJSON.codec)
                  halvesThenRecord Go.make (pipeOf [halfLine; halfLine; "{}"])
                  [halfLine] halfLine "{}" (Some ∅)
                  eq_refl eq_refl eq_refl
                  (lines_of_x_scan (Z.to_nat 600000) ["{}"]
                     ltac:(unfold maxBufferSize; lia)
                     (proj1 (short_lines_scan ["{}"] eq_refl eq_refl))
                     (proj2 (short_lines_scan ["{}"] eq_refl eq_refl)))
                  (line_of_x_accumulates (Z.to_nat 600000)
                     ltac:(lia) ltac:(unfold maxBufferSize; lia))
                  (two_lines_of_x_overflow (Z.to_nat 600000)
                     ltac:(unfold maxBufferSize; lia))
                  ltac:(vm_compute; discriminate)
                  ltac:(vm_compute; discriminate)
                  ltac:(vm_compute; reflexivity)
                  ltac:(vm_compute; discriminate))).
Defined.

Lemma oversized_line_ends_reader (l : string) (lines : list string) :
  Forall (fun l => Go.hasByte Go.nl l = false) (l :: lines) ->
  maxBufferSize <= Go.len l ->
  delivered (readOutput (codec := MiniJSON.codec)
               (set_stdout (Some (pipeOf (l :: lines))) connectedStreaming))
  = [MkMessageData None (Some (Errorf "error reading output: " ErrTooLong))].
Proof.
  intros Hnl Hlong. unfold readOutput. cbn [stdout set_stdout].
  rewrite (Scanner_run_too_long _ _ _ Hnl Hlong). reflexivity.
Qed.

Lemma leftover_swallows_record (n : nat) :
  (0 < n)%nat -> Z.of_nat n < maxBufferSize -> 2 * Z.of_nat n > maxBufferSize ->
  delivered (readOutput (codec := MiniJSON.codec)
               (set_stdout (Some (pipeOf [Go.Repeat "x" n; Go.Repeat "x" n; "x"; "{}"]))
                  connectedStreaming))
  = [MkMessageData None (Some bufferOverflowError)].
Proof.
  intros Hpos Hn Hover. unfold readOutput. cbn [stdout set_stdout].
  pose proof (lines_of_x_scan n ["x"; "{}"] Hn
                (proj1 (short_lines_scan ["x"; "{}"] eq_refl eq_refl))
                (proj2 (short_lines_scan ["x"; "{}"] eq_refl eq_refl))) as Hrun.
  rewrite Hrun.
  rewrite (readOutput_lines_tokens _ (Scanner_run_tokens _ _ _ _ Hrun)).
  rewrite fold_left_app.
  rewrite (readOutput_fragments_quiet _ _ "" (line_of_x_accumulates n Hpos ltac:(lia))).
  change (fold_left readOutput_fragment (Go.Repeat "x" n :: ["x"; "{}"]) ?st)
    with (fold_left readOutput_fragment ["x"; "{}"]
            (readOutput_fragment st (Go.Repeat "x" n))).
  rewrite (readOutput_fragment_overflow _ _ _
             (accumulated_within_bound _ "" len_empty_within_bound
                (line_of_x_accumulates n Hpos ltac:(lia)))
             (two_lines_of_x_overflow n Hover)).
  rewrite (readOutput_fragments_quiet (codec := MiniJSON.codec) ["x"; "{}"] _ ""
             ltac:(vm_compute; reflexivity)).
  reflexivity.
Qed.

(** C1 as stated fails.  More than 1 MiB of bytes that never parse arrive
    on one line, followed by the record [{}]: the scanner stops with
    [ErrTooLong], the reader emits that error, no overflow error and no
    record.  And when they arrive on three lines, the third one short, the
    reader emits one overflow error and then no record, because the record
    is appended to what the third line left in the accumulator. *)
Lemma oversized_input_is_not_recovered :
  (Go.len oversizedLine > maxBufferSize
   /\ json_Unmarshal (JSONCodec := MiniJSON.codec) "{}" = inl (Some ∅)
   /\ delivered (readOutput (codec := MiniJSON.codec) oversizedThenRecord)
      = [MkMessageData None (Some (Errorf "error reading output: " ErrTooLong))])
  /\ (Go.len (halfLine +:+ halfLine +:+ "x") > maxBufferSize
      /\ delivered (readOutput (codec := MiniJSON.codec) halvesByteThenRecord)
         = [MkMessageData None (Some bufferOverflowError)]).
Proof.
  assert (Go.len oversizedLine = maxBufferSize + 1) as Hlen.
  { unfold oversizedLine. rewrite len_Repeat_byte. unfold maxBufferSize. lia. }
  split; [split; [|split]|split].
  - lia.
  - reflexivity.
  - apply oversized_line_ends_reader; [|lia].
    constructor; [now apply hasByte_Repeat_byte|]. now repeat constructor.
  - unfold halfLine. rewrite !len_append, !len_Repeat_byte.
    pose proof (len_nonneg "x"). unfold maxBufferSize. lia.
  - apply leftover_swallows_record; unfold maxBufferSize; lia.
Qed.

(** ** Further properties of the transport *)

Section Further.

Context `{codec : JSONCodec}.

Lemma readOutput_fragment_bounded (t : SubprocessCLITransport) (buf frag : string) :
  Go.len buf <= maxBufferSize ->
  Go.len (snd (readOutput_fragment (t, buf) frag)) <= maxBufferSize.
Proof.
  intros Hbuf. unfold readOutput_fragment.
  destruct (String.eqb (Go.TrimSpace frag) ""); [exact Hbuf|].
  destruct (Go.len (buf +:+ Go.TrimSpace frag) >? maxBufferSize) eqn:Hover;
    [apply len_empty_within_bound|].
  gtb_prop Hover.
  destruct (json_Unmarshal (buf +:+ Go.TrimSpace frag)) as [data|e]; [|exact Hover].
  destruct (isControlResponse data); [|apply len_empty_within_bound].
  destruct (Go.indexMap data "response") as [response|]; [|apply len_empty_within_bound].
  destruct (Go.indexString response "request_id"); apply len_empty_within_bound.
Qed.

(** X1: the JSON accumulator never grows past its bound: after every
    fragment the stdout reader has handled, starting from the empty
    accumulator, it holds at most 1 MiB. *)
Theorem accumulator_stays_bounded (frags : list string) (t : SubprocessCLITransport) :
  Go.len (snd (fold_left readOutput_fragment frags (t, ""))) <= maxBufferSize.
Proof.
  assert (forall st, Go.len (snd st) <= maxBufferSize ->
                     Go.len (snd (fold_left readOutput_fragment frags st)) <= maxBufferSize)
    as H.
  { induction frags as [|f frags IH]; intros [t0 buf] Hst; [exact Hst|].
    cbn [fold_left]. apply IH.
    pose proof (readOutput_fragment_bounded t0 buf f Hst) as Hb.
    destruct (readOutput_fragment (t0, buf) f). exact Hb. }
  apply H. apply len_empty_within_bound.
Qed.

(** X2: a control request on a transport that is not connected, or whose
    input stream is not there, fails at once with a connection error and
    leaves the transport as it was: no request id is taken, nothing is
    queued and nothing is registered. *)
Theorem control_request_refused_when_not_connected (t : SubprocessCLITransport)
    (ctx : option error) (now : Z) (request : GoMap) (events : list WaitEvent) :
  stdin t = None \/ connected t = false ->
  sendControlRequest t ctx now request events
  = Returned t (None, Some (NewCLIConnectionError "Not connected or stdin not available")).
Proof.
  intros H. unfold sendControlRequest, sendControlRequest_prepare.
  destruct (stdin t) as [p|], (connected t); try reflexivity.
  destruct H; discriminate.
Qed.

(** X3: [SendRequest] is refused with a connection error, and changes
    nothing, when the transport is not in streaming mode, and when it is in
    streaming mode but not connected. *)
Theorem SendRequest_refused (t : SubprocessCLITransport) (ctx : option error)
    (messages : list GoMap) (metadata : GoMap) :
  (isStreaming t = false ->
     SendRequest t ctx messages metadata
     = Returned t (Some (NewCLIConnectionError "SendRequest only works in streaming mode")))
  /\ (isStreaming t = true -> connected t = false ->
        SendRequest t ctx messages metadata
        = Returned t (Some (NewCLIConnectionError "Not connected"))).
Proof.
  unfold SendRequest. split.
  - now intros ->.
  - now intros -> ->.
Qed.

Lemma streamToStdin_loop_enqueues (msgs : list (gmap string Value)) (datas : list string) :
  forall sid,
  Forall2 (fun o d => json_Marshal (Some (withSessionID sid o)) = inl d) msgs datas ->
  forall fuel t c,
    sessionID t = sid ->
    prompt t = scriptedStream (map (fun o => (Some o, None)) msgs) ->
    ctxDone t = false -> closeStdinAfterPrompt t = false ->
    stdinChan t = Some c -> closed c = false ->
    (length msgs < fuel)%nat ->
    streamToStdin_loop fuel t
    = Returned
        (set_prompt (scriptedStream [])
           (set_stdinChan
              (Some (MkChan (sent c ++ map (fun d => d +:+ Go.newline) datas) false)) t))
        tt.
Proof.
  intros sid. induction 1 as [|o d msgs datas Hm _ IH];
    intros fuel t c Hsid Hp Hd Hclose Hc Hopen Hfuel.
  - destruct fuel as [|fuel]; [cbn in Hfuel; lia|].
    cbn [streamToStdin_loop map]. rewrite Hp. cbn [map MessageStream_Next].
    cbn [closeStdinAfterPrompt set_prompt]. rewrite Hclose, app_nil_r. f_equal.
    destruct t, c; cbn in *. now subst.
  - destruct fuel as [|fuel]; [cbn in Hfuel; lia|].
    cbn [streamToStdin_loop map]. rewrite Hp. cbn [map MessageStream_Next].
    cbn [sessionID ctxDone stdinChan set_prompt]. rewrite Hsid, Hm, Hd, Hc.
    unfold Go.send. rewrite Hopen.
    rewrite (IH fuel
               (set_stdinChan (Some (MkChan (sent c ++ [d +:+ Go.newline]) false))
                  (set_prompt (scriptedStream (map (fun o => (Some o, None)) msgs)) t))
               (MkChan (sent c ++ [d +:+ Go.newline]) false)
               Hsid eq_refl Hd Hclose eq_refl eq_refl ltac:(cbn in Hfuel; lia)).
    cbn [sent]. rewrite <- app_assoc. reflexivity.
Qed.

(** X4: the prompt pump stamps the transport's session id on the messages
    of the prompt stream that have none and changes no other field; with
    the context live and the input queue open it queues one line per
    message, in the order of the stream, and returns when the stream ends. *)
Theorem streamToStdin_stamps_and_enqueues (t : SubprocessCLITransport) (c : chan string)
    (msgs : list (gmap string Value)) (datas : list string) (fuel : nat) :
  prompt t = scriptedStream (map (fun o => (Some o, None)) msgs) ->
  ctxDone t = false -> closeStdinAfterPrompt t = false ->
  stdinChan t = Some c -> closed c = false ->
  Forall2 (fun o d => json_Marshal (Some (withSessionID (sessionID t) o)) = inl d)
    msgs datas ->
  (length msgs < fuel)%nat ->
  streamToStdin fuel t
  = Returned
      (set_prompt (scriptedStream [])
         (set_stdinChan
            (Some (MkChan (sent c ++ map (fun d => d +:+ Go.newline) datas) false)) t))
      tt
  /\ (forall sid o, o !! "session_id" = None ->
        withSessionID sid o !! "session_id" = Some (VStr sid))
  /\ (forall sid o, is_Some (o !! "session_id") -> withSessionID sid o = o)
  /\ (forall sid o k, k <> "session_id" -> withSessionID sid o !! k = o !! k).
Proof.
  intros Hp Hd Hclose Hc Hopen Hall Hfuel. split; [|split; [|split]].
  - unfold streamToStdin. rewrite Hp.
    rewrite (streamToStdin_loop_enqueues msgs datas (sessionID t) Hall fuel t c
               eq_refl Hp Hd Hclose Hc Hopen Hfuel).
    reflexivity.
  - intros sid o Ho. unfold withSessionID. rewrite Ho. apply lookup_insert_eq.
  - intros sid o [v Hv]. unfold withSessionID. now rewrite Hv.
  - intros sid o k Hk. unfold withSessionID.
    destruct (o !! "session_id"); [reflexivity|]. now apply lookup_insert_ne.
Qed.

(** X5: while the child's input stream is open, [handleStdin] writes the
    lines it receives from the input queue to the stream in the order in
    which it receives them, after what was written before. *)
Theorem handleStdin_writes_in_order (t : SubprocessCLITransport) (p : chan string)
    (received : list string) :
  stdin t = Some p -> closed p = false ->
  handleStdin t received = set_stdin (Some (MkChan (sent p ++ received) false)) t.
Proof.
  revert t p. induction received as [|data rest IH]; intros t p Hp Hopen.
  - cbn [handleStdin]. rewrite app_nil_r. destruct t, p; cbn in *. now subst.
  - cbn [handleStdin]. rewrite Hp, Hopen.
    rewrite (IH (set_stdin (Some (MkChan (sent p ++ [data]) false)) t)
               (MkChan (sent p ++ [data]) false) eq_refl eq_refl).
    cbn [sent]. rewrite <- app_assoc. reflexivity.
Qed.

End Further.

Lemma control_request_refused_when_not_connected_witness :
  sendControlRequest (codec := MiniJSON.codec) neverConnected None someNanos
    interruptRequest [Tick]
  = Returned neverConnected
      (None, Some (NewCLIConnectionError "Not connected or stdin not available")).
Proof.
  apply (control_request_refused_when_not_connected (codec := MiniJSON.codec)
           neverConnected None someNanos interruptRequest [Tick]).
  left. reflexivity.
Defined.

Lemma SendRequest_refused_witness :
  SendRequest (codec := MiniJSON.codec) neverConnected None [typedRecord] metadataS1
  = Returned neverConnected (Some (NewCLIConnectionError "Not connected")).
Proof.
  apply (proj2 (SendRequest_refused (codec := MiniJSON.codec) neverConnected None
                  [typedRecord] metadataS1)); reflexivity.
Defined.

Lemma streamToStdin_stamps_and_enqueues_witness :
  streamToStdin (codec := MiniJSON.codec) 3 twoPrompts
  = Returned
      (set_prompt (scriptedStream [])
         (set_stdinChan
            (Some (MkChan
                     ([] ++ map (fun d => d +:+ Go.newline)
                        ["{" +:+ MiniJSON.q "session_id" +:+ ":"
                             +:+ MiniJSON.q "math-session" +:+ ","
                             +:+ MiniJSON.q "type" +:+ ":" +:+ MiniJSON.q "user" +:+ "}";
                         "{" +:+ MiniJSON.q "session_id" +:+ ":" +:+ MiniJSON.q "s1" +:+ ","
                             +:+ MiniJSON.q "type" +:+ ":" +:+ MiniJSON.q "user" +:+ "}"])
                     false))
            twoPrompts))
      tt.
Proof.
  apply (proj1 (streamToStdin_stamps_and_enqueues (codec := MiniJSON.codec) twoPrompts
                  Go.make
                  [<["type" := VStr "user"]> ∅;
                   <["type" := VStr "user"]> (<["session_id" := VStr "s1"]> ∅)]
                  _ 3 eq_refl eq_refl eq_refl eq_refl eq_refl
                  ltac:(repeat constructor) ltac:(cbn; lia))).
Defined.

Lemma handleStdin_writes_in_order_witness :
  handleStdin connectedStreaming ["a"; "b"]
  = set_stdin (Some (MkChan ([] ++ ["a"; "b"]) false)) connectedStreaming.
Proof.
  apply (handleStdin_writes_in_order connectedStreaming Go.make ["a"; "b"]); reflexivity.
Defined.

(** ** Connecting and the command line *)

Section CommandLineProperties.

Context `{codec : JSONCodec}.

Lemma buildCommand_streaming (t : SubprocessCLITransport) :
  isStreaming t = true ->
  buildCommand t = (t, (optionArgs t ++ ["--input-format"; "stream-json"])%list).
Proof.
  intros Hs. unfold optionArgs, buildCommand.
  cbn [isStreaming options prompt WithStreaming set_prompt snd]. now rewrite Hs.
Qed.

Lemma buildCommand_string (t : SubprocessCLITransport) :
  isStreaming t = false ->
  buildCommand t
  = match prompt t with
    | nilStream => (t, optionArgs t)
    | p =>
        let '(p', (msg, err)) := MessageStream_Next p in
        (set_prompt p' t,
         match err, msg with
         | None, Some _ =>
             match Go.indexMap msg "message" with
             | Some message =>
                 match Go.indexString message "content" with
                 | Some content => (optionArgs t ++ ["--print"; content])%list
                 | None => optionArgs t
                 end
             | None => optionArgs t
             end
         | _, _ => optionArgs t
         end)
    end.
Proof.
  intros Hs. unfold optionArgs, buildCommand.
  cbn [isStreaming options prompt WithStreaming set_prompt snd]. rewrite Hs.
  destruct (prompt t) as [|s|replies]; [reflexivity| |].
  - destruct (MessageStream_Next (stringPromptStream s)) as [p' [[m|] [e|]]]; try reflexivity.
    destruct (Go.indexMap (Some m) "message") as [message|]; [|reflexivity].
    destruct (Go.indexString message "content"); reflexivity.
  - destruct (MessageStream_Next (scriptedStream replies)) as [p' [[m|] [e|]]];
      try reflexivity.
    destruct (Go.indexMap (Some m) "message") as [message|]; [|reflexivity].
    destruct (Go.indexString message "content"); reflexivity.
Qed.

Lemma optionArgs_set_prompt (p : MessageStream) (t : SubprocessCLITransport) :
  optionArgs (set_prompt p t) = optionArgs t.
Proof. reflexivity. Qed.

Lemma buildCommand_prompt (t : SubprocessCLITransport) :
  fst (buildCommand t) = set_prompt (promptAfterCommand t) t.
Proof.
  unfold promptAfterCommand. destruct (isStreaming t) eqn:Hs.
  - rewrite (buildCommand_streaming t Hs). now destruct t.
  - rewrite (buildCommand_string t Hs).
    destruct (prompt t) as [|s|replies] eqn:Hp.
    + cbn [fst]. destruct t; cbn in *. now subst.
    + now destruct (MessageStream_Next (stringPromptStream s)) as [p' [m e]].
    + now destruct (MessageStream_Next (scriptedStream replies)) as [p' [m e]].
Qed.

End CommandLineProperties.

(** Evaluation of the field updates of a transport, innermost first. *)
Ltac transport_fields :=
  cbv beta iota delta
    [set_cmd set_stdin set_prompt set_stdout set_stderr set_stdinChan set_outChan
     set_pendingControlResponses set_requestCounter set_connected set_ctxDone set_ctx
     add_log WithCLIPath WithSessionID WithStreaming WithCloseStdinAfterPrompt
     prompt options cliPath closeStdinAfterPrompt cmd stdin stdout stderr stdinChan
     outChan pendingControlResponses requestCounter connected isStreaming sessionID
     cancel ctxDone log].

Section ConnectProperties.

Context `{codec : JSONCodec}.

(** The transport a successful [Connect] leaves. *)
Lemma Connect_succeeds (env : ConnectEnv) (ctx : option error)
    (t t1 : SubprocessCLITransport) :
  Connect env ctx t = Returned t1 None ->
  connected t = false
  /\ exists cli,
       t1 = if isStreaming t
            then MkTransport (prompt t) (options t) cli (closeStdinAfterPrompt t)
                   (Some (MkCmd None)) (Some Go.make) (Some (childStdout env))
                   (Some (childStderr env)) (Some Go.make) (Some Go.make)
                   (pendingControlResponses t) (requestCounter t) true true
                   (sessionID t) true match ctx with Some _ => true | None => false end
                   (log t)
            else MkTransport (promptAfterCommand t) (options t) cli
                   (closeStdinAfterPrompt t)
                   (Some (MkCmd None)) None (Some (childStdout env))
                   (Some (childStderr env)) (stdinChan t) (Some Go.make)
                   (pendingControlResponses t) (requestCounter t) true false
                   (sessionID t) true match ctx with Some _ => true | None => false end
                   (log t ++ [EffCloseStdin]).
Proof.
  unfold Connect. destruct (connected t) eqn:Hc; [discriminate|].
  intros H. split; [reflexivity|].
  set (found := if String.eqb (cliPath t) "" then _ else _) in *.
  assert (forall t0, found = inl t0 -> exists cli, t0 = WithCLIPath cli t) as Hfound.
  { intros t0. subst found. destruct (String.eqb (cliPath t) "").
    - destruct (findCLI (os env)) as [cli|e]; [|discriminate].
      intros [= <-]. now exists cli.
    - intros [= <-]. exists (cliPath t). now destruct t. }
  destruct found as [t0|e]; [|discriminate].
  destruct (Hfound t0 eq_refl) as [cli ->]. clear Hfound.
  match type of H with
  | context [buildCommand ?a] =>
      pose proof (buildCommand_prompt a) as Hb; destruct (buildCommand a) as [tb args]
  end.
  cbn [fst] in Hb. rewrite Hb in H. clear Hb.
  revert H.
  destruct (stdinPipeErr env); [discriminate|].
  destruct (stdoutPipeErr env); [discriminate|].
  destruct (stderrPipeErr env); [discriminate|].
  destruct (startErr env).
  - repeat match goal with |- context [if ?b then _ else _] => destruct b end;
      discriminate.
  - destruct t as [pr op cp cs cm si so se sc oc pe rc co st sid ca cd lg].
    unfold promptAfterCommand.
    transport_fields. destruct st; intros [= <-]; eexists; reflexivity.
Qed.

(** What a failing [Connect] leaves: the transport is not connected. *)
Lemma Connect_fails (env : ConnectEnv) (ctx : option error)
    (t t1 : SubprocessCLITransport) (e : error) :
  connected t = false ->
  Connect env ctx t = Returned t1 (Some e) ->
  connected t1 = false.
Proof.
  intros Hc. unfold Connect. rewrite Hc.
  set (found := if String.eqb (cliPath t) "" then _ else _) in *.
  assert (forall t0, found = inl t0 -> connected t0 = false) as Hfound.
  { intros t0. subst found. destruct (String.eqb (cliPath t) "").
    - destruct (findCLI (os env)) as [cli|e']; [|discriminate].
      now intros [= <-].
    - now intros [= <-]. }
  destruct found as [t0|e']; [|now intros [= <- _]].
  specialize (Hfound t0 eq_refl).
  pose proof (buildCommand_prompt (set_ctx match ctx with Some _ => true | None => false end t0))
    as Hb.
  destruct (buildCommand _) as [tb args]. cbn [fst] in Hb. rewrite Hb. clear Hb.
  destruct t0 as [pr op cp cs cm si so se sc oc pe rc co st sid ca cd lg].
  cbn [connected] in Hfound. subst co.
  destruct (stdinPipeErr env); [now intros [= <- _]|].
  destruct (stdoutPipeErr env); [now intros [= <- _]|].
  destruct (stderrPipeErr env); [now intros [= <- _]|].
  destruct (startErr env); [|discriminate].
  repeat match goal with |- context [if ?b then _ else _] => destruct b end;
    now intros [= <- _].
Qed.

Lemma Connect_frame (env : ConnectEnv) (ctx : option error)
    (t t1 : SubprocessCLITransport) (e : option error) :
  Connect env ctx t = Returned t1 e ->
  requestCounter t1 = requestCounter t
  /\ pendingControlResponses t1 = pendingControlResponses t.
Proof.
  destruct e as [e|].
  - unfold Connect. destruct (connected t); [now intros [= <- _]|].
    set (found := if String.eqb (cliPath t) "" then _ else _) in *.
    assert (forall t0, found = inl t0 ->
              requestCounter t0 = requestCounter t
              /\ pendingControlResponses t0 = pendingControlResponses t) as Hfound.
    { intros t0. subst found. destruct (String.eqb (cliPath t) "").
      - destruct (findCLI (os env)) as [cli|e']; [|discriminate].
        now intros [= <-].
      - now intros [= <-]. }
    destruct found as [t0|e']; [|now intros [= <- _]].
    destruct (Hfound t0 eq_refl) as [<- <-]. clear Hfound.
    pose proof (buildCommand_prompt
                  (set_ctx match ctx with Some _ => true | None => false end t0)) as Hb.
    destruct (buildCommand _) as [tb args]. cbn [fst] in Hb. rewrite Hb. clear Hb.
    destruct t0 as [pr op cp cs cm si so se sc oc pe rc co st sid ca cd lg].
    destruct (stdinPipeErr env); [now intros [= <- _]|].
    destruct (stdoutPipeErr env); [now intros [= <- _]|].
    destruct (stderrPipeErr env); [now intros [= <- _]|].
    destruct (startErr env); [|discriminate].
    repeat match goal with |- context [if ?b then _ else _] => destruct b end;
      now intros [= <- _].
  - intros H. apply Connect_succeeds in H as (_ & cli & ->).
    now destruct (isStreaming t).
Qed.

(** X6: once [Connect] has succeeded, a second [Connect], whatever its
    environment, fails with the connection error "Already connected" and
    leaves the transport as the first one left it. *)
Theorem Connect_twice_is_refused (env env' : ConnectEnv) (ctx ctx' : option error)
    (t t1 : SubprocessCLITransport) :
  Connect env ctx t = Returned t1 None ->
  Connect env' ctx' t1
  = Returned t1 (Some (NewCLIConnectionError "Already connected")).
Proof.
  intros H. apply Connect_succeeds in H as (_ & cli & ->).
  unfold Connect. now destruct (isStreaming t).
Qed.

(** X7: a transport connected in string mode takes no further input: its
    input stream was closed and dropped by [Connect], so [SendRequest] and
    every control request are refused and leave the transport as it is. *)
Theorem string_mode_takes_no_input (env : ConnectEnv) (ctx : option error)
    (t t1 : SubprocessCLITransport) :
  isStreaming t = false ->
  Connect env ctx t = Returned t1 None ->
  stdin t1 = None
  /\ log t1 = (log t ++ [EffCloseStdin])%list
  /\ (forall ctx1 messages metadata,
        SendRequest t1 ctx1 messages metadata
        = Returned t1 (Some (NewCLIConnectionError "SendRequest only works in streaming mode")))
  /\ (forall ctx1 now request events,
        sendControlRequest t1 ctx1 now request events
        = Returned t1
            (None, Some (NewCLIConnectionError "Not connected or stdin not available"))).
Proof.
  intros Hs H. apply Connect_succeeds in H as (_ & cli & ->).
  rewrite Hs. repeat split.
Qed.

(** X8: a [Connect] that fails leaves the transport not connected, and a
    [Disconnect] after it returns nil without doing anything: whatever
    the failed call had set up (the context, the command, the pipes) is
    not taken down by it. *)
Theorem failed_Connect_is_not_taken_down (env : ConnectEnv) (ctx : option error)
    (exit : ProcessExit) (t t1 : SubprocessCLITransport) (e : error) :
  connected t = false ->
  Connect env ctx t = Returned t1 (Some e) ->
  connected t1 = false /\ Disconnect exit t1 = Returned t1 None.
Proof.
  intros Hc H. pose proof (Connect_fails env ctx t t1 e Hc H) as Hc1.
  split; [exact Hc1|]. unfold Disconnect. now rewrite Hc1.
Qed.

(** X9: when the child cannot be started, on a transport with a CLI
    path: if the working directory is set and does not exist, [Connect]
    reports that, also when the CLI is missing as well; otherwise, if the
    CLI path does not exist, it fails with a [CLINotFoundError] whose
    message names the path twice; otherwise with a [ProcessError] of exit
    code 0 that carries the text of the start error. *)
Theorem Connect_start_failure (env : ConnectEnv) (ctx : option error)
    (t : SubprocessCLITransport) (err : error) :
  connected t = false -> cliPath t <> "" ->
  stdinPipeErr env = None -> stdoutPipeErr env = None -> stderrPipeErr env = None ->
  startErr env = Some err ->
  exists t1 e,
    Connect env ctx t = Returned t1 (Some e)
    /\ (Cwd (options t) <> "" -> Stat (os env) (Cwd (options t)) = StatNotExist ->
        e = CLIConnectionError ("Working directory does not exist: " +:+ Cwd (options t)))
    /\ ((Cwd (options t) = "" \/ Stat (os env) (Cwd (options t)) <> StatNotExist) ->
        Stat (os env) (cliPath t) = StatNotExist ->
        e = CLINotFoundError
              (("Claude Code not found at: " +:+ cliPath t) +:+ ": " +:+ cliPath t)
              (cliPath t))
    /\ ((Cwd (options t) = "" \/ Stat (os env) (Cwd (options t)) <> StatNotExist) ->
        Stat (os env) (cliPath t) <> StatNotExist ->
        e = ProcessError
              (if String.eqb (Error err) "" then "Failed to start Claude Code"
               else "Failed to start Claude Code" +:+ Go.newline +:+ "Error output: "
                      +:+ Error err)
              0 (Error err)).
Proof.
  intros Hc Hcli Hin Hout Herr Hstart. unfold Connect. rewrite Hc.
  destruct (String.eqb (cliPath t) "") eqn:E; [apply String.eqb_eq in E; contradiction|].
  pose proof (buildCommand_prompt
                (set_ctx match ctx with Some _ => true | None => false end t)) as Hb.
  destruct (buildCommand _) as [tb args]. cbn [fst] in Hb. rewrite Hb. clear Hb.
  rewrite Hin, Hout, Herr, Hstart.
  destruct t as [pr op cp cs cm si so se sc oc pe rc co st sid ca cd lg].
  transport_fields. cbn [cliPath options] in *.
  unfold isNotExist.
  destruct (String.eqb (Cwd op) "") eqn:Ecwd; cbn [negb andb].
  - apply String.eqb_eq in Ecwd.
    destruct (Stat (os env) cp) eqn:Ecp; eexists _, _; (split; [reflexivity|]);
      repeat split; try congruence; intros; try congruence.
    + unfold NewCLINotFoundError. now rewrite E.
  - apply String.eqb_neq in Ecwd.
    destruct (Stat (os env) (Cwd op)) eqn:Ed, (Stat (os env) cp) eqn:Ecp;
      eexists _, _; (split; [reflexivity|]);
      repeat split; try congruence; intros;
      try match goal with H : _ \/ _ |- _ => destruct H; try congruence end;
      try (unfold NewCLINotFoundError; now rewrite E).
Qed.

(** X10: a transport that was connected in streaming mode, disconnected,
    switched to string mode and connected again still holds the input
    queue of its first connection, which [Disconnect] has closed; the
    next [Disconnect] closes it a second time and panics. *)
Theorem Disconnect_after_mode_switch_panics (env1 env2 : ConnectEnv)
    (ctx1 ctx2 : option error) (exit1 exit2 : ProcessExit)
    (t t1 t2 t3 : SubprocessCLITransport) (e : option error) :
  isStreaming t = true ->
  Connect env1 ctx1 t = Returned t1 None ->
  Disconnect exit1 t1 = Returned t2 e ->
  Connect env2 ctx2 (WithStreaming false t2) = Returned t3 None ->
  Disconnect exit2 t3 = Panicked "close of closed channel".
Proof.
  intros Hs H1 H2 H3.
  apply Connect_succeeds in H1 as (_ & cli1 & ->). rewrite Hs in H2.
  assert (stdinChan t2 = Some (MkChan [] true)) as Hchan.
  { revert H2. unfold Disconnect. transport_fields. cbn.
    destruct exit1; now intros [= <- _]. }
  apply Connect_succeeds in H3 as (_ & cli3 & ->).
  cbn [isStreaming WithStreaming stdinChan]. rewrite Hchan.
  reflexivity.
Qed.

Lemma Disconnect_keeps_requestCounter (exit : ProcessExit) (t : SubprocessCLITransport) :
  requestCounter (afterDisconnect exit t) = requestCounter t.
Proof.
  unfold afterDisconnect, Disconnect.
  destruct (connected t); [|reflexivity]. cbn [negb]. cbv zeta.
  destruct (cancel (set_connected false t)).
  - destruct (stdinChan _) as [c|].
    + destruct (Go.close c); [|reflexivity].
      destruct (stdin _), (cmd _), exit; reflexivity.
    + destruct (stdin _), (cmd _), exit; reflexivity.
  - destruct (stdinChan _) as [c|].
    + destruct (Go.close c); [|reflexivity].
      destruct (stdin _), (cmd _), exit; reflexivity.
    + destruct (stdin _), (cmd _), exit; reflexivity.
Qed.

(** X11: neither [Connect] nor [Disconnect] resets the request counter,
    so the request ids assigned on one transport are pairwise distinct
    over all its connections, as long as fewer than 2^64 were assigned. *)
Theorem request_ids_unique_across_connections (t : SubprocessCLITransport)
    (events : list LifeEvent) :
  Z.of_nat (length (requestIDs t (map lifeStep events))) < 2 ^ 64 ->
  NoDup (requestIDs t (map lifeStep events)).
Proof.
  apply requestIDs_NoDup. apply Forall_map, Forall_forall. intros ev _.
  destruct ev as [env ctx|exit|now request]; cbn; [| |exact I]; intros t0.
  - unfold afterConnect.
    destruct (Connect env ctx t0) as [t1 e| |] eqn:H; try reflexivity.
    now apply Connect_frame in H.
  - apply Disconnect_keeps_requestCounter.
Qed.

(** X12: a successful [Connect] in streaming mode starts from empty
    queues: the input stream, the input queue and the output channel are
    new, open and empty, whatever an earlier connection left in them; the
    prompt stream is left untouched for the prompt pump; the context of
    the connection is live exactly when the caller's is. *)
Theorem Connect_streaming_starts_clean (env : ConnectEnv) (ctx : option error)
    (t t1 : SubprocessCLITransport) :
  isStreaming t = true ->
  Connect env ctx t = Returned t1 None ->
  connected t1 = true
  /\ stdin t1 = Some (MkChan [] false)
  /\ stdinChan t1 = Some (MkChan [] false)
  /\ outChan t1 = Some (MkChan [] false)
  /\ delivered t1 = []
  /\ prompt t1 = prompt t
  /\ (ctxDone t1 = false <-> ctx = None).
Proof.
  intros Hs H. apply Connect_succeeds in H as (_ & cli & ->). rewrite Hs.
  repeat split; cbn; destruct ctx; congruence.
Qed.

(** X13: in string mode the prompt goes to the child on the command
    line, once: [buildCommand] takes the first message of a string prompt
    and appends [--print] and the prompt text, unchanged, as the last two
    arguments; called again on the transport it leaves (a second
    [Connect] does that) it finds the prompt used up and passes neither.
    The command line always starts with
    [--output-format stream-json --verbose]. *)
Theorem buildCommand_passes_string_prompt_once (t : SubprocessCLITransport) (p : string) :
  isStreaming t = false ->
  prompt t = NewStringPromptStream p ->
  buildCommand t
  = (set_prompt (stringPromptStream (MkStringPrompt p true)) t,
     (optionArgs t ++ ["--print"; p])%list)
  /\ buildCommand (fst (buildCommand t)) = (fst (buildCommand t), optionArgs t)
  /\ exists rest,
       optionArgs t = (["--output-format"; "stream-json"; "--verbose"] ++ rest)%list.
Proof.
  intros Hs Hp.
  assert (buildCommand t
          = (set_prompt (stringPromptStream (MkStringPrompt p true)) t,
             (optionArgs t ++ ["--print"; p])%list)) as E.
  { rewrite (buildCommand_string t Hs), Hp. reflexivity. }
  split; [exact E|]. split.
  - rewrite E. cbn [fst].
    rewrite (buildCommand_string
               (set_prompt (stringPromptStream (MkStringPrompt p true)) t) Hs).
    cbn [prompt set_prompt].
    cbn [MessageStream_Next stringPromptAdapter_Next sp_sent]. reflexivity.
  - unfold optionArgs, buildCommand.
    cbn [isStreaming options prompt WithStreaming set_prompt snd].
    rewrite <- !app_assoc. eexists. reflexivity.
Qed.

End ConnectProperties.

Lemma Connect_twice_is_refused_witness :
  Connect startsFine None helloTransport = Returned helloConnected None
  /\ Connect startFails (Some Canceled) helloConnected
     = Returned helloConnected (Some (NewCLIConnectionError "Already connected")).
Proof.
  split; [reflexivity|].
  apply (Connect_twice_is_refused startsFine startFails None (Some Canceled)
           helloTransport helloConnected).
  reflexivity.
Defined.

Lemma Connect_streaming_starts_clean_witness :
  connected connectedStreaming = true
  /\ stdin connectedStreaming = Some (MkChan [] false)
  /\ stdinChan connectedStreaming = Some (MkChan [] false)
  /\ outChan connectedStreaming = Some (MkChan [] false)
  /\ delivered connectedStreaming = []
  /\ prompt connectedStreaming = prompt neverConnected
  /\ (ctxDone connectedStreaming = false <-> @None error = None).
Proof.
  apply (Connect_streaming_starts_clean startsFine None neverConnected connectedStreaming);
    reflexivity.
Defined.

Lemma string_mode_takes_no_input_witness :
  stdin helloConnected = None
  /\ log helloConnected = (log helloTransport ++ [EffCloseStdin])%list
  /\ (forall ctx1 messages metadata,
        SendRequest helloConnected ctx1 messages metadata
        = Returned helloConnected
            (Some (NewCLIConnectionError "SendRequest only works in streaming mode")))
  /\ (forall ctx1 now request events,
        sendControlRequest helloConnected ctx1 now request events
        = Returned helloConnected
            (None, Some (NewCLIConnectionError "Not connected or stdin not available"))).
Proof.
  apply (string_mode_takes_no_input startsFine None helloTransport helloConnected);
    reflexivity.
Defined.

Lemma failed_Connect_is_not_taken_down_witness :
  connected helloFailed = false
  /\ Disconnect (NeedsKill 1) helloFailed = Returned helloFailed None.
Proof.
  apply (failed_Connect_is_not_taken_down startFails None (NeedsKill 1) helloTransport
           helloFailed
           (NewProcessError "Failed to start Claude Code" 0 "fork/exec: exec format error"));
    reflexivity.
Defined.

Lemma Connect_start_failure_witness :
  exists t1,
    Connect startFails None cliNotThere
    = Returned t1
        (Some (CLINotFoundError
                 (("Claude Code not found at: " +:+ "/nonexistent/path/to/claude")
                    +:+ ": " +:+ "/nonexistent/path/to/claude")
                 "/nonexistent/path/to/claude")).
Proof.
  destruct (Connect_start_failure startFails None cliNotThere
              (ErrorString "fork/exec: exec format error")
              eq_refl ltac:(discriminate) eq_refl eq_refl eq_refl eq_refl)
    as (t1 & e & H & _ & Hcli & _).
  exists t1. rewrite H. rewrite (Hcli (or_introl eq_refl) eq_refl). reflexivity.
Defined.

Lemma Disconnect_after_mode_switch_panics_witness :
  Disconnect (ExitsInTime 0) reconnectedString = Panicked "close of closed channel".
Proof.
  apply (Disconnect_after_mode_switch_panics startsFine startsFine None None
           (ExitsInTime 0) (ExitsInTime 0)
           neverConnected connectedStreaming disconnectedStreaming reconnectedString None);
    reflexivity.
Defined.

Lemma request_ids_unique_across_connections_witness :
  NoDup (requestIDs neverConnected
           (map lifeStep
              [LifeConnect startsFine None;
               LifeRequest someNanos interruptRequest;
               LifeDisconnect (ExitsInTime 0);
               LifeConnect startsFine None;
               LifeRequest someNanos interruptRequest])).
Proof.
  apply (request_ids_unique_across_connections neverConnected).
  vm_compute. reflexivity.
Defined.

Lemma buildCommand_passes_string_prompt_once_witness :
  buildCommand helloTransport
  = (set_prompt (stringPromptStream (MkStringPrompt "hello" true)) helloTransport,
     (optionArgs helloTransport ++ ["--print"; "hello"])%list)
  /\ buildCommand (fst (buildCommand helloTransport))
     = (fst (buildCommand helloTransport), optionArgs helloTransport)
  /\ exists rest,
       optionArgs helloTransport
       = (["--output-format"; "stream-json"; "--verbose"] ++ rest)%list.
Proof.
  apply (buildCommand_passes_string_prompt_once helloTransport "hello"); reflexivity.
Defined.

(** ** The stderr collector: bounds, time-out and cancellation *)

Lemma totalLen_app (a b : list string) :
  totalLen (a ++ b)%list = totalLen a + totalLen b.
Proof.
  induction a as [|x a IH]; [reflexivity|].
  cbn [app totalLen fold_right]. fold (totalLen (a ++ b)) (totalLen a). lia.
Qed.

Lemma totalLen_singleton (l : string) : totalLen [l] = Go.len l.
Proof. cbn. lia. Qed.

Lemma readStderr_drain_result (t : SubprocessCLITransport) (acc : list string)
    (events : list StderrEvent) :
  readStderr_drain t acc events = (t, false)
  \/ readStderr_drain t acc events = (processStderr t acc, true).
Proof.
  induction events as [|ev events IH]; [now left|].
  destruct ev; cbn [readStderr_drain]; try exact IH.
  right. now destruct acc.
Qed.

Lemma readStderr_loop_capture (t : SubprocessCLITransport) (events : list StderrEvent) :
  forall acc,
    totalLen acc <= maxStderrSize ->
    exists kept marker,
      fst (readStderr_loop t acc (totalLen acc) events) = processStderr t (kept ++ marker)%list
      /\ kept `prefix_of` (acc ++ eventLines events)%list
      /\ totalLen kept <= maxStderrSize
      /\ (marker = []
          \/ marker = ["[stderr truncated after " +:+ Go.itoa (totalLen kept) +:+ " bytes]"]
          \/ marker = ["[stderr collection timed out after 30s]"]).
Proof.
  induction events as [|ev events IH]; intros acc Hacc.
  - exists [], []. cbn. repeat split; [apply prefix_nil|unfold maxStderrSize; lia|now left].
  - destruct ev as [line| | |]; cbn [readStderr_loop eventLines].
    + destruct (totalLen acc + Go.len line >? maxStderrSize) eqn:Hover.
      * destruct (readStderr_drain_result t
                    (acc ++ ["[stderr truncated after " +:+ Go.itoa (totalLen acc)
                               +:+ " bytes]"])%list events) as [-> | ->]; cbn [fst].
        -- exists [], []. cbn. repeat split; [apply prefix_nil|unfold maxStderrSize; lia|now left].
        -- exists acc, ["[stderr truncated after " +:+ Go.itoa (totalLen acc) +:+ " bytes]"].
           repeat split; [now apply prefix_app_r|exact Hacc|right; now left].
      * assert (totalLen acc + Go.len line <= maxStderrSize) as Hle.
        { destruct (Z.gtb_spec (totalLen acc + Go.len line) maxStderrSize);
            [discriminate|lia]. }
        destruct (IH (acc ++ [line])%list) as (kept & marker & Hrun & Hpre & Hlen & Hm).
        { rewrite totalLen_app, totalLen_singleton. exact Hle. }
        rewrite totalLen_app, totalLen_singleton in Hrun.
        exists kept, marker. repeat split; try assumption.
        now rewrite <- app_assoc in Hpre.
    + exists acc, []. rewrite app_nil_r. cbn [fst].
      repeat split; [now destruct acc|now apply prefix_app_r|exact Hacc|now left].
    + exists acc, ["[stderr collection timed out after 30s]"]. cbn [fst].
      repeat split; [now apply prefix_app_r|exact Hacc|right; now right].
    + exists [], []. cbn. repeat split; [apply prefix_nil|unfold maxStderrSize; lia|now left].
Qed.

(** X14: whatever the stderr collector receives, what it hands to
    [processStderr] (the detail of the [ProcessError] this may emit) is a
    prefix of the lines of stderr, in their order, of at most
    [maxStderrSize] bytes in all, followed by at most one marker line:
    the truncation marker, which tells the number of bytes kept, or the
    time-out marker. *)
Theorem stderr_capture_is_bounded (t : SubprocessCLITransport)
    (events : list StderrEvent) :
  exists kept marker,
    fst (readStderr t events) = processStderr t (kept ++ marker)%list
    /\ kept `prefix_of` eventLines events
    /\ totalLen kept <= maxStderrSize
    /\ (marker = []
        \/ marker = ["[stderr truncated after " +:+ Go.itoa (totalLen kept) +:+ " bytes]"]
        \/ marker = ["[stderr collection timed out after 30s]"]).
Proof.
  unfold readStderr.
  apply (readStderr_loop_capture t events []). cbn. unfold maxStderrSize. lia.
Qed.

(** The main loop on lines that fit the size limit. *)
Lemma readStderr_loop_fitting (t : SubprocessCLITransport) (lines : list string)
    (rest : list StderrEvent) :
  forall acc size,
    size + totalLen lines <= maxStderrSize ->
    readStderr_loop t acc size (map EvLine lines ++ rest)
    = readStderr_loop t (acc ++ lines)%list (size + totalLen lines) rest.
Proof.
  induction lines as [|l lines IH]; intros acc size Hle.
  - cbn. now rewrite app_nil_r, Z.add_0_r.
  - cbn [map app readStderr_loop totalLen fold_right] in *. fold (totalLen lines) in *.
    pose proof (len_nonneg l). pose proof (totalLen_nonneg lines).
    destruct (Z.gtb_spec (size + Go.len l) maxStderrSize); [lia|].
    rewrite IH by lia. rewrite <- app_assoc. f_equal. lia.
Qed.

Lemma readStderr_drain_waits (t : SubprocessCLITransport) (acc : list string)
    (events : list StderrEvent) :
  Forall (fun ev => isEvDone ev = false) events ->
  readStderr_drain t acc events = (t, false).
Proof.
  induction 1 as [|ev events Hev _ IH]; [reflexivity|].
  destruct ev; cbn [readStderr_drain]; try exact IH. discriminate.
Qed.

(** X15: once a line has taken the collected stderr over the size limit,
    the collector only drains; neither the collection timer nor the
    cancellation of the transport's context ends it.  As long as the
    error stream has not ended it has not returned and has emitted
    nothing. *)
Theorem stderr_truncation_waits_for_stream_end (t : SubprocessCLITransport)
    (lines : list string) (line : string) (rest : list StderrEvent) :
  totalLen lines <= maxStderrSize ->
  totalLen lines + Go.len line > maxStderrSize ->
  Forall (fun ev => isEvDone ev = false) rest ->
  readStderr t (map EvLine lines ++ EvLine line :: rest) = (t, false).
Proof.
  intros Hfit Hover Hrest. unfold readStderr.
  rewrite (readStderr_loop_fitting t lines _ [] 0) by lia.
  cbn [readStderr_loop app].
  destruct (Z.gtb_spec (0 + totalLen lines + Go.len line) maxStderrSize); [|lia].
  now apply readStderr_drain_waits.
Qed.

(** X16: the two events that end the collection before the error stream
    has ended.  When the transport's context is cancelled ([Disconnect]
    cancels it), the collector returns at once and emits nothing,
    whatever it has collected and whatever the exit code.  When the
    collection timer fires and the exit code read at that moment is not
    zero, it emits one [ProcessError] whose detail is the lines collected
    so far and the time-out marker, joined by newlines; it does so also
    when no line was collected. *)
Theorem stderr_collection_ends_early (t : SubprocessCLITransport)
    (c : chan MessageData) (lines : list string) (rest : list StderrEvent) :
  totalLen lines <= maxStderrSize ->
  readStderr t (map EvLine lines ++ EvCtxDone :: rest) = (t, true)
  /\ (outChan t = Some c -> ctxDone t = false -> exitCodeNow t <> 0 ->
      readStderr t (map EvLine lines ++ EvTimer :: rest)
      = (set_outChan
           (Some (MkChan
                    (sent c ++ [MkMessageData None
                                  (Some (NewProcessError
                                           ("Command failed with exit code "
                                              +:+ Go.itoa (exitCodeNow t))
                                           (exitCodeNow t)
                                           (Go.Join
                                              (lines
                                                 ++ ["[stderr collection timed out after 30s]"])%list
                                              Go.newline)))])
                    (closed c))) t, true)).
Proof.
  intros Hfit. unfold readStderr.
  rewrite !(readStderr_loop_fitting t lines _ [] 0) by lia.
  split; [reflexivity|]. intros Ho Hd Hc.
  cbn [readStderr_loop app]. f_equal.
  destruct lines as [|l ls]; cbn [app]; now apply processStderr_nonzero.
Qed.

Lemma len_hugeStderrLine : Go.len hugeStderrLine = maxStderrSize + 1.
Proof.
  unfold hugeStderrLine. rewrite len_Repeat_byte. unfold maxStderrSize. lia.
Qed.

Lemma stderr_truncation_waits_for_stream_end_witness :
  readStderr exitedOne (map EvLine ["warning"] ++ EvLine hugeStderrLine :: [EvTimer; EvCtxDone])
  = (exitedOne, false).
Proof.
  apply (stderr_truncation_waits_for_stream_end exitedOne ["warning"] hugeStderrLine
           [EvTimer; EvCtxDone]).
  - vm_compute. discriminate.
  - rewrite len_hugeStderrLine. vm_compute. reflexivity.
  - repeat constructor.
Defined.

Lemma stderr_collection_ends_early_witness :
  readStderr exitedOne (map EvLine ["fatal: out of memory"] ++ EvCtxDone :: [EvDone])
  = (exitedOne, true)
  /\ readStderr exitedOne (map EvLine ["fatal: out of memory"] ++ EvTimer :: [EvDone])
     = (set_outChan
          (Some (MkChan
                   ([] ++ [MkMessageData None
                             (Some (NewProcessError
                                      ("Command failed with exit code "
                                         +:+ Go.itoa (exitCodeNow exitedOne))
                                      (exitCodeNow exitedOne)
                                      (Go.Join
                                         (["fatal: out of memory"]
                                            ++ ["[stderr collection timed out after 30s]"])%list
                                         Go.newline)))])
                   false)) exitedOne, true).
Proof.
  destruct (stderr_collection_ends_early exitedOne Go.make ["fatal: out of memory"] [EvDone]
              ltac:(vm_compute; discriminate)) as [Hcancel Htimer].
  split; [exact Hcancel|].
  apply Htimer; [reflexivity | reflexivity | discriminate].
Defined.

(** ** The stdout reader: read errors and records in pieces *)

Lemma append_assoc (a b c : string) : (a +:+ b) +:+ c = a +:+ b +:+ c.
Proof.
  induction a as [|x a IH]; [now rewrite !append_empty|].
  now rewrite !append_String, IH.
Qed.

Lemma delivered_set_stdout (r : option Reader) (t : SubprocessCLITransport) :
  delivered (set_stdout r t) = delivered t.
Proof. reflexivity. Qed.

Lemma safeSend_set_stdout (r : option Reader) (t : SubprocessCLITransport)
    (m : MessageData) :
  fst (safeSend (set_stdout r t) m) = set_stdout r (fst (safeSend t m)).
Proof.
  unfold safeSend. cbn [outChan ctxDone set_stdout].
  destruct (outChan t); [|reflexivity]. now destruct (ctxDone t).
Qed.

Lemma safeSend_keeps_open (t : SubprocessCLITransport) (m : MessageData) :
  ctxDone (fst (safeSend t m)) = ctxDone t
  /\ (is_Some (outChan t) -> is_Some (outChan (fst (safeSend t m)))).
Proof.
  unfold safeSend. destruct (outChan t) as [c|] eqn:Ho.
  - destruct (ctxDone t) eqn:E; cbn [fst].
    + split; [exact E|]. intros _. rewrite Ho. now eexists.
    + split; [exact E|]. intros _. now eexists.
  - cbn [fst]. split; [reflexivity|]. now rewrite Ho.
Qed.

Section ReadErrors.

Context `{codec : JSONCodec}.

Lemma readOutput_fragment_set_stdout (r : option Reader) (t : SubprocessCLITransport)
    (buf frag : string) :
  readOutput_fragment (set_stdout r t, buf) frag
  = (set_stdout r (fst (readOutput_fragment (t, buf) frag)),
     snd (readOutput_fragment (t, buf) frag)).
Proof.
  unfold readOutput_fragment.
  destruct (String.eqb (Go.TrimSpace frag) ""); [reflexivity|].
  destruct (Go.len (buf +:+ Go.TrimSpace frag) >? maxBufferSize).
  { now rewrite safeSend_set_stdout. }
  destruct (json_Unmarshal (buf +:+ Go.TrimSpace frag)) as [data|e]; [|reflexivity].
  destruct (isControlResponse data).
  - destruct (Go.indexMap data "response") as [response|]; [|reflexivity].
    destruct (Go.indexString response "request_id"); reflexivity.
  - now rewrite safeSend_set_stdout.
Qed.

Lemma readOutput_fragment_keeps_open (t : SubprocessCLITransport) (buf frag : string) :
  ctxDone (fst (readOutput_fragment (t, buf) frag)) = ctxDone t
  /\ (is_Some (outChan t) -> is_Some (outChan (fst (readOutput_fragment (t, buf) frag)))).
Proof.
  unfold readOutput_fragment.
  destruct (String.eqb (Go.TrimSpace frag) ""); [now split|].
  destruct (Go.len (buf +:+ Go.TrimSpace frag) >? maxBufferSize).
  { apply safeSend_keeps_open. }
  destruct (json_Unmarshal (buf +:+ Go.TrimSpace frag)) as [data|e]; [|now split].
  destruct (isControlResponse data).
  - destruct (Go.indexMap data "response") as [response|]; [|now split].
    destruct (Go.indexString response "request_id"); now split.
  - apply safeSend_keeps_open.
Qed.

Lemma readOutput_fragments_set_stdout (r : option Reader) (frags : list string) :
  forall t buf,
    fold_left readOutput_fragment frags (set_stdout r t, buf)
    = (set_stdout r (fst (fold_left readOutput_fragment frags (t, buf))),
       snd (fold_left readOutput_fragment frags (t, buf))).
Proof.
  induction frags as [|f frags IH]; intros t buf; [reflexivity|].
  cbn [fold_left]. rewrite readOutput_fragment_set_stdout.
  destruct (readOutput_fragment (t, buf) f) as [t1 buf1]. apply IH.
Qed.

Lemma readOutput_fragments_keep_open (frags : list string) :
  forall t buf,
    ctxDone (fst (fold_left readOutput_fragment frags (t, buf))) = ctxDone t
    /\ (is_Some (outChan t)
        -> is_Some (outChan (fst (fold_left readOutput_fragment frags (t, buf))))).
Proof.
  induction frags as [|f frags IH]; intros t buf; [now split|].
  cbn [fold_left].
  pose proof (readOutput_fragment_keeps_open t buf f) as [Hd Ho].
  destruct (readOutput_fragment (t, buf) f) as [t1 buf1]. cbn [fst] in *.
  destruct (IH t1 buf1) as [Hd1 Ho1]. split; [congruence|auto].
Qed.

(** X17: a read error on the child's output (other than the end of the
    file) does not cost a record: the reader first handles every line
    the scanner has yielded, exactly as if the output had ended there,
    and then emits the error, wrapped as "error reading output: ...", as
    its last message. *)
Theorem read_error_is_reported_last (t : SubprocessCLITransport) (c : chan MessageData)
    (s : string) (e : error) :
  stdout t = Some (MkReader s (Some e)) -> e <> EOF ->
  outChan t = Some c -> ctxDone t = false ->
  snd (Scanner.scan maxBufferSize (Scanner.rawLines s)) = false ->
  delivered (readOutput t)
  = (delivered (readOutput (set_stdout (Some (MkReader s None)) t))
     ++ [MkMessageData None (Some (Errorf "error reading output: " e))])%list.
Proof.
  intros Hr He Ho Hd Hscan. unfold readOutput.
  rewrite Hr. cbn [stdout set_stdout]. unfold Scanner.run. cbn [content readErr].
  destruct (Scanner.scan maxBufferSize (Scanner.rawLines s)) as [toks tooLong] eqn:Es.
  cbn [snd] in Hscan. subst tooLong.
  assert (Forall (fun l => Go.hasByte Go.nl l = false) toks) as Htoks.
  { pose proof (scan_tokens maxBufferSize (Scanner.rawLines s)) as H.
    rewrite Es in H. apply H. unfold Scanner.rawLines.
    destruct (List.last (Go.Split s Go.nl) "");
      [apply Forall_removelast|]; apply Split_pieces. }
  rewrite !(readOutput_lines_tokens toks Htoks).
  rewrite readOutput_fragments_set_stdout.
  pose proof (readOutput_fragments_keep_open toks t "") as [Hd1 Ho1].
  destruct (fold_left readOutput_fragment toks (t, "")) as [t1 buf1].
  cbn [fst snd] in *.
  destruct Ho1 as [c1 Hc1]; [now rewrite Ho|].
  rewrite delivered_set_stdout.
  assert (delivered
            (fst (safeSend t1 (MkMessageData None (Some (Errorf "error reading output: " e)))))
          = (delivered t1 ++ [MkMessageData None (Some (Errorf "error reading output: " e))])%list)
    as Hsend.
  { rewrite (safeSend_delivering t1 c1 _ Hc1) by congruence.
    unfold delivered. cbn. now rewrite Hc1. }
  destruct e; try exact Hsend. contradiction.
Qed.

Lemma accumulated_app (frags : list string) (last buf : string) :
  accumulated buf (frags ++ [last]) = accumulated buf frags +:+ Go.TrimSpace last.
Proof. unfold accumulated. now rewrite fold_left_app. Qed.

Lemma accumulated_concat (frags : list string) :
  forall buf, accumulated buf frags = buf +:+ Go.Join (map Go.TrimSpace frags) "".
Proof.
  induction frags as [|f frags IH]; intros buf.
  - cbn. now rewrite append_empty_r.
  - cbn [accumulated fold_left map]. fold (accumulated (buf +:+ Go.TrimSpace f) frags).
    rewrite IH, append_assoc. f_equal.
    unfold Go.Join. cbn [String.concat].
    destruct (map Go.TrimSpace frags) eqn:E; [cbn; now rewrite append_empty_r|].
    now rewrite append_empty.
Qed.

(** X18: a record that arrives in several pieces, none of which is a
    record by itself, is put together and delivered once: the reader
    parses the pieces, each trimmed of the white space at its ends,
    written one after the other without anything between them; it
    delivers the record when the last piece completes it and starts
    again from the empty accumulator. *)
Theorem split_record_is_reassembled (t : SubprocessCLITransport) (c : chan MessageData)
    (pieces : list string) (last : string) (data : GoMap) :
  outChan t = Some c -> ctxDone t = false ->
  accumulatesQuietly "" pieces = true ->
  Go.TrimSpace last <> "" ->
  Go.len (Go.Join (map Go.TrimSpace (pieces ++ [last])) "") <= maxBufferSize ->
  json_Unmarshal (Go.Join (map Go.TrimSpace (pieces ++ [last])) "") = inl data ->
  Go.index data "type" <> Some (VStr "control_response") ->
  fold_left readOutput_fragment (pieces ++ [last]) (t, "")
  = (set_outChan (Some (MkChan (sent c ++ [MkMessageData data None]) (closed c))) t, "").
Proof.
  intros Ho Hd Hquiet Hlast Hlen Hparse Hty.
  pose proof (accumulated_concat (pieces ++ [last]) "") as E.
  rewrite append_empty, accumulated_app in E. rewrite <- E in Hlen, Hparse.
  rewrite fold_left_app, (readOutput_fragments_quiet pieces t "" Hquiet).
  cbn [fold_left].
  rewrite (readOutput_fragment_parsed t _ last data Hlast Hlen Hparse).
  destruct (isControlResponse data) eqn:Ec;
    [apply isControlResponse_spec in Ec; contradiction|].
  now rewrite (safeSend_delivering t c _ Ho Hd).
Qed.

End ReadErrors.

Lemma read_error_is_reported_last_witness :
  delivered (readOutput (codec := MiniJSON.codec) recordThenReadError)
  = (delivered (readOutput (codec := MiniJSON.codec)
                  (set_stdout (Some (MkReader ("{}" +:+ Go.newline) None))
                     recordThenReadError))
     ++ [MkMessageData None (Some (Errorf "error reading output: " ErrClosed))])%list.
Proof.
  apply (read_error_is_reported_last (codec := MiniJSON.codec) recordThenReadError
           Go.make ("{}" +:+ Go.newline) ErrClosed);
    [reflexivity | discriminate | reflexivity | reflexivity | vm_compute; reflexivity].
Defined.

Lemma split_record_is_reassembled_witness :
  fold_left (readOutput_fragment (codec := MiniJSON.codec))
    (["{" +:+ MiniJSON.q "type" +:+ ":"] ++ ["    " +:+ MiniJSON.q "result" +:+ "}"])
    (connectedStreaming, "")
  = (set_outChan
       (Some (MkChan ([] ++ [MkMessageData (Some (<["type" := VStr "result"]> ∅)) None])
                false))
       connectedStreaming, "").
Proof.
  apply (split_record_is_reassembled (codec := MiniJSON.codec) connectedStreaming Go.make
           ["{" +:+ MiniJSON.q "type" +:+ ":"] ("    " +:+ MiniJSON.q "result" +:+ "}")
           (Some (<["type" := VStr "result"]> ∅)));
    [reflexivity | reflexivity | vm_compute; reflexivity | vm_compute; discriminate
    | vm_compute; discriminate | vm_compute; reflexivity | vm_compute; discriminate].
Defined.

(** ** Control requests and the reader together *)

Section Correlation.

Context `{codec : JSONCodec}.

(** X19: the reader and a waiting control request meet in the pending
    table.  When the reader handles a control response that carries the
    id of the request, the next tick of the waiting call finds it: the
    call returns with the outcome of that response and the table is as
    it was before the response came, without an entry for the id.  The
    response itself is not forwarded to the output channel. *)
Theorem control_response_resolves_waiter (t : SubprocessCLITransport) (line : string)
    (data response : GoMap) (requestID : string) (rest : list WaitEvent) :
  Go.TrimSpace line <> "" ->
  Go.len (Go.TrimSpace line) <= maxBufferSize ->
  json_Unmarshal (Go.TrimSpace line) = inl data ->
  Go.index data "type" = Some (VStr "control_response") ->
  Go.indexMap data "response" = Some response ->
  Go.indexString response "request_id" = Some requestID ->
  sendControlRequest_wait t requestID (Concurrent (readerStep line) :: Tick :: rest)
  = Returned
      (set_pendingControlResponses (delete requestID (pendingControlResponses t)) t)
      (controlResponseResult response)
  /\ delivered (readerStep line t) = delivered t.
Proof.
  intros Hne Hlen Hparse Hty Hresp Hid.
  assert (readerStep line t
          = set_pendingControlResponses
              (<[requestID := response]> (pendingControlResponses t)) t) as E.
  { unfold readerStep.
    rewrite (readOutput_fragment_parsed t "" line data Hne)
      by now autorewrite with gostring.
    apply isControlResponse_spec in Hty. now rewrite Hty, Hresp, Hid. }
  split; [|now rewrite E].
  cbn [sendControlRequest_wait]. rewrite E.
  cbn [pendingControlResponses set_pendingControlResponses].
  rewrite lookup_insert_eq. f_equal.
  rewrite delete_insert_eq. now destruct t.
Qed.

Lemma sendControlRequest_wait_keeps (requestID other : string) (events : list WaitEvent) :
  other <> requestID ->
  Forall (keepsEntry other) events ->
  forall t,
    match sendControlRequest_wait t requestID events with
    | Returned t1 _ | Blocked t1 =>
        pendingControlResponses t1 !! other = pendingControlResponses t !! other
    | Panicked _ => True
    end.
Proof.
  intros Hne. induction 1 as [|ev events Hev _ IH]; intros t.
  - reflexivity.
  - destruct ev as [|err|step]; cbn [sendControlRequest_wait].
    + destruct (pendingControlResponses t !! requestID) as [response|]; [|apply IH].
      cbn. now apply lookup_delete_ne.
    + reflexivity.
    + specialize (IH (step t)).
      destruct (sendControlRequest_wait (step t) requestID events);
        try exact I; now rewrite IH.
Qed.

(** X20: a control request consumes the response to its own id only.
    Whatever happens while it waits, the response stored for another
    request id is in the pending table afterwards as the other
    goroutines left it: the call neither removes nor replaces it. *)
Theorem control_request_leaves_other_responses (t : SubprocessCLITransport)
    (ctx : option error) (now : Z) (request : GoMap) (events : list WaitEvent)
    (other : string) :
  other <> requestIDOf (AddUint64 (requestCounter t) 1) now ->
  Forall (keepsEntry other) events ->
  match sendControlRequest t ctx now request events with
  | Returned t1 _ | Blocked t1 =>
      pendingControlResponses t1 !! other = pendingControlResponses t !! other
  | Panicked _ => True
  end.
Proof.
  intros Hne Hev. unfold sendControlRequest, sendControlRequest_prepare.
  destruct (stdin t) as [p|]; [|reflexivity].
  destruct (connected t); [|reflexivity].
  destruct (json_Marshal _) as [data|e]; [|reflexivity].
  destruct ctx as [e|]; [reflexivity|].
  cbn [stdinChan set_requestCounter].
  destruct (stdinChan t) as [c|]; [|reflexivity].
  destruct (Go.send c (data +:+ Go.newline)) as [c'|m]; [|exact I].
  exact (sendControlRequest_wait_keeps _ other events Hne Hev _).
Qed.

(** X21: when the caller's context ends while a control request waits,
    the call returns the context's error and cleans nothing up: the
    pending table stays as the other goroutines have left it, so a
    response that came in after the last tick, or comes in later, stays
    stored under its id. *)
Theorem cancelled_control_request_cleans_nothing (t t1 : SubprocessCLITransport)
    (requestID : string) (pre rest : list WaitEvent) (err : error) :
  waitedThrough t requestID pre = Some t1 ->
  sendControlRequest_wait t requestID (pre ++ CtxDone err :: rest)
  = Returned t1 (None, Some err).
Proof.
  revert t. induction pre as [|ev pre IH]; intros t Hpre.
  - now injection Hpre as ->.
  - destruct ev as [|e|step]; cbn [app sendControlRequest_wait waitedThrough] in *.
    + destruct (pendingControlResponses t !! requestID); [discriminate|]. now apply IH.
    + discriminate.
    + now apply IH.
Qed.



End Correlation.

Lemma control_response_resolves_waiter_witness :
  sendControlRequest_wait connectedStreaming "req_1_17"
    (Concurrent (readerStep (codec := MiniJSON.codec) (busyResponseLine "req_1_17"))
       :: Tick :: [])
  = Returned
      (set_pendingControlResponses
         (delete "req_1_17" (pendingControlResponses connectedStreaming)) connectedStreaming)
      (controlResponseResult
         (Some (<["error" := VStr "busy"]>
                  (<["request_id" := VStr "req_1_17"]> (<["subtype" := VStr "error"]> ∅)))))
  /\ delivered (readerStep (codec := MiniJSON.codec) (busyResponseLine "req_1_17")
                  connectedStreaming)
     = delivered connectedStreaming.
Proof.
  apply (control_response_resolves_waiter (codec := MiniJSON.codec) connectedStreaming
           (busyResponseLine "req_1_17")
           (Some (<["type" := VStr "control_response"]>
                    (<["response" :=
                         VMap (Some (<["error" := VStr "busy"]>
                                       (<["request_id" := VStr "req_1_17"]>
                                          (<["subtype" := VStr "error"]> ∅))))]> ∅)))
           (Some (<["error" := VStr "busy"]>
                    (<["request_id" := VStr "req_1_17"]> (<["subtype" := VStr "error"]> ∅))))
           "req_1_17" []);
    [vm_compute; discriminate | vm_compute; discriminate | vm_compute; reflexivity
    | vm_compute; reflexivity | vm_compute; reflexivity | vm_compute; reflexivity].
Defined.

Lemma control_request_leaves_other_responses_witness :
  match sendControlRequest (codec := MiniJSON.codec)
          (readerHandles (busyResponseLine "req_9_0") connectedStreaming) None someNanos
          interruptRequest [Tick; Concurrent (WithSessionID "s1"); CtxDone Canceled] with
  | Returned t1 _ | Blocked t1 =>
      pendingControlResponses t1 !! "req_9_0"
      = pendingControlResponses (readerHandles (busyResponseLine "req_9_0") connectedStreaming)
          !! "req_9_0"
  | Panicked _ => True
  end.
Proof.
  apply (control_request_leaves_other_responses (codec := MiniJSON.codec)
           (readerHandles (busyResponseLine "req_9_0") connectedStreaming) None someNanos
           interruptRequest [Tick; Concurrent (WithSessionID "s1"); CtxDone Canceled]
           "req_9_0").
  - vm_compute. discriminate.
  - repeat constructor.
Defined.

Lemma cancelled_control_request_cleans_nothing_witness :
  sendControlRequest_wait connectedStreaming "req_1_17"
    ([Tick; Concurrent (readerHandles (busyResponseLine "req_1_17"))]
       ++ CtxDone DeadlineExceeded :: [])
  = Returned (readerHandles (busyResponseLine "req_1_17") connectedStreaming)
      (None, Some DeadlineExceeded).
Proof.
  apply (cancelled_control_request_cleans_nothing connectedStreaming
           (readerHandles (busyResponseLine "req_1_17") connectedStreaming)
           "req_1_17" [Tick; Concurrent (readerHandles (busyResponseLine "req_1_17"))] []
           DeadlineExceeded).
  reflexivity.
Defined.


(** ** Looking for the CLI, and the text of a decode error *)

(** X23: what [findCLI] returns.  With [CLAUDE_CODE_CLI_PATH] set,
    nothing else is consulted: the result is that path if it exists and a
    [CLINotFoundError] that carries it otherwise.  Without it, a path
    returned is the one [exec.LookPath] found or, when that found none,
    one of the common locations that exists; and [findCLI] fails, with a
    [CLINotFoundError] without a path, only when the search path and all
    the locations have failed. *)
Theorem findCLI_result (os : OS) :
  match findCLI os with
  | inl path =>
      if String.eqb (Getenv os "CLAUDE_CODE_CLI_PATH") ""
      then LookPath os "claude" = Some path
           \/ (LookPath os "claude" = None
               /\ In path (locations os) /\ Stat os path = StatOK)
      else path = Getenv os "CLAUDE_CODE_CLI_PATH" /\ Stat os path = StatOK
  | inr e =>
      exists message,
        e = CLINotFoundError message (Getenv os "CLAUDE_CODE_CLI_PATH")
        /\ if String.eqb (Getenv os "CLAUDE_CODE_CLI_PATH") ""
           then LookPath os "claude" = None
                /\ Forall (fun path => Stat os path <> StatOK) (locations os)
           else Stat os (Getenv os "CLAUDE_CODE_CLI_PATH") <> StatOK
  end.
Proof.
  unfold findCLI.
  destruct (String.eqb (Getenv os "CLAUDE_CODE_CLI_PATH") "") eqn:E; cbn [negb].
  - destruct (LookPath os "claude") as [path|] eqn:Hl; [now left|].
    destruct (find (statOK os) (locations os)) as [path|] eqn:Hf.
    + right. apply find_some in Hf as [Hin Hok].
      repeat split; [exact Hin|]. unfold statOK in Hok. now destruct (Stat os path).
    + assert (Forall (fun path => Stat os path <> StatOK) (locations os)) as Hall.
      { apply Forall_forall. intros path Hin%list_elem_of_In.
        pose proof (find_none _ _ Hf path Hin) as Hno. unfold statOK in Hno.
        now destruct (Stat os path). }
      apply String.eqb_eq in E.
      destruct (LookPath os "node"); eexists; rewrite E;
        (split; [reflexivity|now split]).
  - unfold statOK.
    destruct (Stat os (Getenv os "CLAUDE_CODE_CLI_PATH")) eqn:Hs.
    + now split.
    + eexists. split; [unfold NewCLINotFoundError; rewrite E; reflexivity|]. discriminate.
    + eexists. split; [unfold NewCLINotFoundError; rewrite E; reflexivity|]. discriminate.
Qed.

Lemma len_take (n : nat) (s : string) : Go.len (Go.take n s) <= Z.of_nat n.
Proof.
  unfold Go.len. revert s. induction n as [|n IH]; intros s; [reflexivity|].
  destruct s as [|c s]; [cbn; lia|].
  cbn [Go.take String.length]. specialize (IH s). lia.
Qed.

Lemma len_take_full (n : nat) (s : string) :
  Z.of_nat n <= Go.len s -> Go.len (Go.take n s) = Z.of_nat n.
Proof.
  unfold Go.len. revert s. induction n as [|n IH]; intros s H; [reflexivity|].
  destruct s as [|c s]; [cbn in H; lia|].
  cbn [Go.take String.length] in *. specialize (IH s). lia.
Qed.

(** X24: the message of a [CLIJSONDecodeError] shows at most the first
    100 bytes of the line, so it is never longer than 126 bytes; the
    error keeps the whole line, and the original error, in its fields. *)
Theorem decode_error_message_is_bounded (line : string) (originalError : error) :
  exists message,
    NewCLIJSONDecodeError line originalError
    = CLIJSONDecodeError message line originalError
    /\ Go.len message <= 126
    /\ (Go.len line <= 100 -> message = "Failed to decode JSON: " +:+ line)
    /\ (Go.len line > 100 ->
        message = "Failed to decode JSON: " +:+ Go.take 100 line +:+ "..."
        /\ Go.len message = 126).
Proof.
  unfold NewCLIJSONDecodeError.
  destruct (Z.gtb_spec (Go.len line) 100) as [Hlong|Hshort]; eexists;
    (split; [reflexivity|]).
  - rewrite !len_append, (len_take_full 100 line) by lia.
    repeat split; try reflexivity; intros; lia.
  - rewrite len_append. change (Go.len "Failed to decode JSON: ") with 23.
    repeat split; try reflexivity; intros; lia.
Qed.

(** ** Package claude: parsing and the client *)

Lemma parseContentBlocks_spec (contentData : list Value) :
  forall content,
    match Claude.parseContentBlocks content contentData with
    | inl blocks =>
        exists parsed,
          blocks = (content ++ parsed)%list
          /\ Forall2 (fun item block => Claude.parseContentBlock item = inl block)
               contentData parsed
    | inr err =>
        exists good bad rest,
          contentData = (good ++ bad :: rest)%list
          /\ Forall (fun item => exists block, Claude.parseContentBlock item = inl block) good
          /\ Claude.parseContentBlock bad = inr err
    end.
Proof.
  induction contentData as [|item rest IH]; intros content.
  - exists []. now rewrite app_nil_r.
  - cbn [Claude.parseContentBlocks].
    destruct (Claude.parseContentBlock item) as [block|err] eqn:E.
    + specialize (IH (content ++ [block])%list).
      destruct (Claude.parseContentBlocks (content ++ [block]) rest) as [blocks|err].
      * destruct IH as (parsed & -> & Hall). exists (block :: parsed).
        split; [now rewrite <- app_assoc|]. now constructor.
      * destruct IH as (good & bad & rest' & -> & Hgood & Hbad).
        exists (item :: good), bad, rest'. repeat split; [|exact Hbad].
        constructor; [now exists block|exact Hgood].
    + exists [], item, rest. now repeat split.
Qed.

(** X25: an assistant message parses exactly when its [content] is an
    array and every item of it parses as a content block; the message
    then holds one block per item, in the order of the array.  When an
    item does not parse, the error returned is that of the first such
    item, and no block is returned. *)
Theorem assistant_blocks_parse_in_order (data : GoMap) :
  match Claude.parseAssistantMessage data with
  | inl msg =>
      exists contentData content,
        Claude.indexSlice data "content" = Some contentData
        /\ msg = Claude.AssistantMessage content
        /\ Forall2 (fun item block => Claude.parseContentBlock item = inl block)
             contentData content
  | inr err =>
      (Claude.indexSlice data "content" = None
       /\ err = ErrorString "invalid assistant message content")
      \/ exists good bad rest,
           Claude.indexSlice data "content" = Some (good ++ bad :: rest)%list
           /\ Forall (fun item => exists block, Claude.parseContentBlock item = inl block)
                good
           /\ Claude.parseContentBlock bad = inr err
  end.
Proof.
  unfold Claude.parseAssistantMessage.
  destruct (Claude.indexSlice data "content") as [contentData|]; [|now left].
  pose proof (parseContentBlocks_spec contentData []) as H.
  destruct (Claude.parseContentBlocks [] contentData) as [blocks|err].
  - destruct H as (parsed & -> & Hall). now exists contentData, parsed.
  - destruct H as (good & bad & rest & -> & Hgood & Hbad).
    right. now exists good, bad, rest.
Qed.

Section ReceivingProperties.

Variable intOutOfRange : Z -> Z.




(** X28: the user record the client itself builds for a string prompt is
    not one the client accepts back.  When the transport yields such a
    record (the child repeating what it was sent, say),
    [ReceiveMessages] yields the error "invalid user message content"
    and ends there: the prompt text sits under [message.content], and a
    user message is read from a string under [content] at the top of the
    record.  The same holds for the record of the transport's string
    prompt adapter. *)
Theorem sent_user_records_do_not_parse (t : SubprocessCLITransport) (p sessionID : string)
    (rest : list MessageData) :
  Claude.ReceiveMessages intOutOfRange (Claude.MkClient (Some t))
    (MkMessageData (Claude.userRecord p sessionID) None :: rest)
  = [Claude.MessageResult.Mk None (Some (ErrorString "invalid user message content"))]
  /\ Claude.ReceiveMessages intOutOfRange (Claude.MkClient (Some t))
       (MkMessageData (fst (snd (stringPromptAdapter_Next (MkStringPrompt p false)))) None
          :: rest)
     = [Claude.MessageResult.Mk None (Some (ErrorString "invalid user message content"))].
Proof.
  assert (forall data,
             Go.indexString data "type" = Some "user" ->
             Go.indexString data "content" = None ->
             Claude.ReceiveMessages intOutOfRange (Claude.MkClient (Some t))
               (MkMessageData data None :: rest)
             = [Claude.MessageResult.Mk None
                  (Some (ErrorString "invalid user message content"))]) as H.
  { intros data Hty Hcontent. cbn [Claude.ReceiveMessages Claude.transport Claude.receiveLoop].
    cbn [Err Data]. unfold Claude.parseMessage. rewrite Hty. cbn [String.eqb Ascii.eqb].
    unfold Claude.parseUserMessage. now rewrite Hcontent. }
  split; apply H; reflexivity.
Qed.

End ReceivingProperties.

Section QueryProperties.

Context `{codec : JSONCodec}.

(** X29: [Client.Query] with a string prompt, on a client whose
    transport is connected in streaming mode with its input queue open:
    it queues exactly one line, the user record with the prompt text and
    the given session id, as it built it ([SendRequest] adds nothing to a
    record that has a type), and returns nil. *)
Theorem Query_string_queues_one_record (t : SubprocessCLITransport) (c : chan string)
    (p sessionID data : string) (fuel : nat) :
  isStreaming t = true -> connected t = true ->
  stdinChan t = Some c -> closed c = false ->
  json_Marshal (Claude.userRecord p sessionID) = inl data ->
  Claude.Query (Claude.MkClient (Some t)) None (Claude.PromptString p) sessionID fuel
  = Claude.Done
      (Claude.MkClient
         (Some (set_stdinChan (Some (MkChan (sent c ++ [data +:+ Go.newline]) false)) t)))
      None.
Proof.
  intros Hs Hconn Hc Hopen Hm. unfold Claude.Query. cbn [Claude.transport].
  unfold SendRequest. rewrite Hs, Hconn. cbn [negb].
  change (Go.indexString (Some (<["session_id" := VStr sessionID]> ∅)) "session_id")
    with (Some sessionID).
  cbn [SendRequest_loop].
  change (ensureStructure sessionID (Claude.userRecord p sessionID))
    with (Claude.userRecord p sessionID).
  rewrite Hm, Hc. unfold Go.send. rewrite Hopen. reflexivity.
Qed.




End QueryProperties.

Lemma Query_string_queues_one_record_witness :
  Claude.Query (codec := MiniJSON.codec) (Claude.MkClient (Some connectedStreaming)) None
    (Claude.PromptString "hello") "s1" 0
  = Claude.Done
      (Claude.MkClient
         (Some (set_stdinChan
                  (Some (MkChan
                           ([] ++ [("{" +:+ MiniJSON.q "message" +:+ ":{"
                                        +:+ MiniJSON.q "content" +:+ ":"
                                        +:+ MiniJSON.q "hello" +:+ ","
                                        +:+ MiniJSON.q "role" +:+ ":"
                                        +:+ MiniJSON.q "user" +:+ "},"
                                        +:+ MiniJSON.q "parent_tool_use_id" +:+ ":null,"
                                        +:+ MiniJSON.q "session_id" +:+ ":"
                                        +:+ MiniJSON.q "s1" +:+ ","
                                        +:+ MiniJSON.q "type" +:+ ":"
                                        +:+ MiniJSON.q "user" +:+ "}") +:+ Go.newline])
                           false))
                  connectedStreaming)))
      None.
Proof.
  apply (Query_string_queues_one_record (codec := MiniJSON.codec) connectedStreaming
           Go.make "hello" "s1" _ 0 eq_refl eq_refl eq_refl eq_refl).
  vm_compute. reflexivity.
Defined.

